(** * Dashboard unificata: authentication and inference client

    A shallow embedding of [auth/unified_auth.py], [ai/unified_ai_assistant.py]
    and [config/unified_config.py], with the properties the specification states
    about them, and with properties of the same code that it leaves unsaid:
    the permissions, the life of a session, the answers of the inference
    service that cannot be used, and the loading of the configuration.

    Python values are modelled as the interpreter has them: a [str] is a
    sequence of Unicode code points ([len] counts code points, [encode] is
    UTF-8 and fails on surrogates), a [dict] is an insertion-ordered
    association list, an exception is a value of [exn] carried by [result],
    [float] is IEEE-754 binary64 (the kernel's primitive floats), a
    [datetime] is a count of microseconds. *)

From Stdlib Require Import String Ascii.
From Stdlib Require Import NArith ZArith List Bool Lia.
From Stdlib Require Import Floats Uint63 DecimalString.
Import ListNotations.

Set Implicit Arguments.
Set Warnings "-register-all,-inexact-float".

(** ** Python strings *)

Module Py.

(** A [str]: its code points, in order. *)
Definition pystr := list N.

(** A [bytes] object: its octets, each below 256. *)
Definition pybytes := list N.

Definition pystr_eqb (a b : pystr) : bool :=
  if list_eq_dec N.eq_dec a b then true else false.

(** Decoding of a UTF-8 literal of this file into the [str] it denotes. *)
Fixpoint utf8_decode (bs : list N) : pystr :=
  match bs with
  | [] => []
  | b0 :: r0 =>
    if (b0 <? 0x80)%N then b0 :: utf8_decode r0
    else match r0 with
    | [] => [b0]
    | b1 :: r1 =>
      if (b0 <? 0xE0)%N then
        ((b0 - 0xC0) * 64 + (b1 - 0x80))%N :: utf8_decode r1
      else match r1 with
      | [] => [b0; b1]
      | b2 :: r2 =>
        if (b0 <? 0xF0)%N then
          ((b0 - 0xE0) * 4096 + (b1 - 0x80) * 64 + (b2 - 0x80))%N
            :: utf8_decode r2
        else match r2 with
        | [] => [b0; b1; b2]
        | b3 :: r3 =>
          ((b0 - 0xF0) * 262144 + (b1 - 0x80) * 4096
           + (b2 - 0x80) * 64 + (b3 - 0x80))%N :: utf8_decode r3
        end
      end
    end
  end.

(** [u "text"] is the Python literal ['text']. *)
Definition u (s : string) : pystr :=
  utf8_decode (map N_of_ascii (list_ascii_of_string s)).

(** [s.encode()] / [s.encode('utf-8')]: [None] stands for
    [UnicodeEncodeError] (a lone surrogate). *)
Definition encode_cp (c : N) : option pybytes :=
  if (c <? 0x80)%N then Some [c]
  else if (c <? 0x800)%N then Some [0xC0 + c / 64; 0x80 + c mod 64]%N
  else if ((0xD800 <=? c) && (c <=? 0xDFFF))%N then None
  else if (c <? 0x10000)%N then
    Some [0xE0 + c / 4096; 0x80 + (c / 64) mod 64; 0x80 + c mod 64]%N
  else if (c <? 0x110000)%N then
    Some [0xF0 + c / 262144; 0x80 + (c / 4096) mod 64;
          0x80 + (c / 64) mod 64; 0x80 + c mod 64]%N
  else None.

Fixpoint encode (s : pystr) : option pybytes :=
  match s with
  | [] => Some []
  | c :: r =>
    match encode_cp c, encode r with
    | Some bs, Some rs => Some (bs ++ rs)
    | _, _ => None
    end
  end.

(** [s.startswith(p)] *)
Fixpoint startswith (s p : pystr) {struct p} : bool :=
  match p, s with
  | [], _ => true
  | _ :: _, [] => false
  | c :: p', d :: s' => (c =? d)%N && startswith s' p'
  end.

(** [c in s] for a one-character [c]. *)
Definition contains (c : N) (s : pystr) : bool :=
  existsb (N.eqb c) s.

(** [s.split(c, 1)] when [c] occurs in [s]: the text before the first
    occurrence and the text after it. *)
Fixpoint split1 (c : N) (s : pystr) : pystr * pystr :=
  match s with
  | [] => ([], [])
  | d :: r =>
    if (c =? d)%N then ([], r)
    else let (a, b) := split1 c r in (d :: a, b)
  end.

Definition dollar : N := 36.

(** Lower-case hexadecimal digits, as [hexdigest] and [token_hex] write
    them. *)
Definition hex_digit (n : N) : N :=
  if (n <? 10)%N then (48 + n)%N else (87 + n)%N.

Definition is_hex_char (c : N) : bool :=
  ((48 <=? c) && (c <=? 57) || (97 <=? c) && (c <=? 102))%N.

Definition hex_byte (b : N) : pystr :=
  [hex_digit ((b / 16) mod 16); hex_digit (b mod 16)].

(** [bytes.hex()] *)
Definition hexlify (bs : pybytes) : pystr := flat_map hex_byte bs.

End Py.

(** ** SHA-256 (FIPS 180-4), as [hashlib.sha256] computes it *)

Module Sha256.

Import Py.

Local Open Scope N_scope.

Definition mask32 : N := 0xFFFFFFFF.
Definition w32 (x : N) : N := N.land x mask32.
Definition add32 (a b : N) : N := w32 (a + b).
Definition not32 (x : N) : N := N.lxor (w32 x) mask32.
Definition rotr (n x : N) : N :=
  N.lor (N.shiftr x n) (w32 (N.shiftl x (32 - n))).

Definition Ch (x y z : N) : N := N.lxor (N.land x y) (N.land (not32 x) z).
Definition Maj (x y z : N) : N :=
  N.lxor (N.lxor (N.land x y) (N.land x z)) (N.land y z).
Definition Sigma0 (x : N) : N := N.lxor (N.lxor (rotr 2 x) (rotr 13 x)) (rotr 22 x).
Definition Sigma1 (x : N) : N := N.lxor (N.lxor (rotr 6 x) (rotr 11 x)) (rotr 25 x).
Definition sigma0 (x : N) : N := N.lxor (N.lxor (rotr 7 x) (rotr 18 x)) (N.shiftr x 3).
Definition sigma1 (x : N) : N := N.lxor (N.lxor (rotr 17 x) (rotr 19 x)) (N.shiftr x 10).

(** The constants are the standard's: the first 32 bits of the
    fractional parts of the cube roots (for [K]) and of the square roots
    (for [H0]) of the first primes. *)
Definition is_prime (n : N) : bool :=
  (1 <? n) && forallb (fun d => negb (n mod N.of_nat d =? 0))
                      (seq 2 (N.to_nat n - 2)).

Definition primes (count : nat) : list N :=
  firstn count (filter is_prime (map N.of_nat (seq 2 400))).

(** The integer cube root, found one bit at a time from bit [bits - 1]
    down. *)
Fixpoint cube_root (bits : nat) (x r : N) : N :=
  match bits with
  | O => r
  | S b =>
    let r' := r + 2 ^ N.of_nat b in
    cube_root b x (if r' * r' * r' <=? x then r' else r)
  end.

Definition frac_cube_root (p : N) : N := w32 (cube_root 40 (p * 2 ^ 96) 0).
Definition frac_square_root (p : N) : N := w32 (N.sqrt (p * 2 ^ 64)).

Definition K : list N := Eval vm_compute in map frac_cube_root (primes 64).

(** The eight working variables / the chaining value. *)
Record regs := Regs {
  ra : N; rb : N; rc : N; rd : N; re : N; rf : N; rg : N; rh : N }.

Definition H0 : regs :=
  Eval vm_compute in
    match map frac_square_root (primes 8) with
    | [a; b; c; d; e; f; g; h] => Regs a b c d e f g h
    | _ => Regs 0 0 0 0 0 0 0 0
    end.

(** Padding: a 1 bit, zeros up to 56 mod 64 octets, the bit length on 64
    bits, big-endian. *)
Definition be_bytes (n : nat) (x : N) : pybytes :=
  map (fun i => (N.shiftr x (8 * N.of_nat i)) mod 256) (rev (seq 0 n)).

Definition pad (msg : pybytes) : pybytes :=
  let len := N.of_nat (length msg) in
  let zeros := N.to_nat ((119 - len mod 64) mod 64) in
  map (fun b => b mod 256) msg ++ [0x80] ++ repeat 0 zeros
    ++ be_bytes 8 ((8 * len) mod 2 ^ 64).

Fixpoint be_word (bs : pybytes) : N :=
  match bs with
  | [] => 0
  | b :: r => b * 256 ^ N.of_nat (length r) + be_word r
  end.

(** The 16 big-endian words of a 64-octet block. *)
Fixpoint words (n : nat) (bs : pybytes) : list N :=
  match n with
  | O => []
  | S n' => be_word (firstn 4 bs) :: words n' (skipn 4 bs)
  end.

(** Message schedule: [n] more words after those of [w]. *)
Fixpoint schedule (n : nat) (w : list N) : list N :=
  match n with
  | O => w
  | S n' =>
    let t := length w in
    let x := add32 (add32 (sigma1 (nth (t - 2) w 0)) (nth (t - 7) w 0))
                   (add32 (sigma0 (nth (t - 15) w 0)) (nth (t - 16) w 0)) in
    schedule n' (w ++ [x])
  end.

Definition round (r : regs) (kw : N * N) : regs :=
  let (k, w) := kw in
  let t1 := add32 (add32 (add32 (rh r) (Sigma1 (re r)))
                         (add32 (Ch (re r) (rf r) (rg r)) k)) w in
  let t2 := add32 (Sigma0 (ra r)) (Maj (ra r) (rb r) (rc r)) in
  Regs (add32 t1 t2) (ra r) (rb r) (rc r) (add32 (rd r) t1) (re r) (rf r) (rg r).

Definition compress (h : regs) (block : pybytes) : regs :=
  let w := schedule 48 (words 16 block) in
  let r := fold_left round (combine K w) h in
  Regs (add32 (ra h) (ra r)) (add32 (rb h) (rb r)) (add32 (rc h) (rc r))
       (add32 (rd h) (rd r)) (add32 (re h) (re r)) (add32 (rf h) (rf r))
       (add32 (rg h) (rg r)) (add32 (rh h) (rh r)).

Fixpoint blocks (n : nat) (h : regs) (bs : pybytes) : regs :=
  match n with
  | O => h
  | S n' => blocks n' (compress h (firstn 64 bs)) (skipn 64 bs)
  end.

Definition digest_regs (msg : pybytes) : regs :=
  let p := pad msg in blocks (Nat.div (length p) 64) H0 p.

(** [hashlib.sha256(msg).digest()] *)
Definition digest (msg : pybytes) : pybytes :=
  let r := digest_regs msg in
  flat_map (be_bytes 4) [ra r; rb r; rc r; rd r; re r; rf r; rg r; rh r].

(** [hashlib.sha256(msg).hexdigest()] *)
Definition hexdigest (msg : pybytes) : pystr := hexlify (digest msg).

End Sha256.

(** ** Python values, dictionaries, exceptions *)

Module PyVal.

Import Py.

(** The objects that occur in configuration, store rows, JSON documents
    and result objects.  A [dict] keeps its keys in insertion order. *)
Inductive pyval :=
| PNone
| PBool (b : bool)
| PInt (z : Z)
| PFloat (f : float)
| PStr (s : pystr)
| PList (l : list pyval)
| PDict (d : list (pystr * pyval)).

Definition dict := list (pystr * pyval).

(** An exception: the name of its class and the text [str(e)] gives. *)
Record exn := Exn {
  exn_class : pystr;
  exn_text : pystr }.

Definition TypeError (text : pystr) : exn := Exn (u "TypeError") text.
Definition KeyError (text : pystr) : exn := Exn (u "KeyError") text.
Definition IndexError (text : pystr) : exn := Exn (u "IndexError") text.

(** [isinstance(e, json.JSONDecodeError)] *)
Definition is_JSONDecodeError (e : exn) : bool :=
  pystr_eqb (exn_class e) (u "JSONDecodeError").

Inductive result (A : Type) :=
| Ok (a : A)
| Raise (e : exn).

Arguments Ok {A} a.
Arguments Raise {A} e.

(** The value a dictionary holds under [k], if any. *)
Fixpoint dict_find {V} (d : list (pystr * V)) (k : pystr) : option V :=
  match d with
  | [] => None
  | (k', v) :: r => if pystr_eqb k' k then Some v else dict_find r k
  end.

(** [k in d] *)
Definition dict_mem {V} (d : list (pystr * V)) (k : pystr) : bool :=
  match dict_find d k with Some _ => true | None => false end.

(** [d.get(k, default)] *)
Definition dict_get (d : dict) (k : pystr) (default : pyval) : pyval :=
  match dict_find d k with Some v => v | None => default end.

(** [d[k] = v]: an existing key keeps its place, a new one goes last. *)
Fixpoint dict_set {V} (d : list (pystr * V)) (k : pystr) (v : V)
  : list (pystr * V) :=
  match d with
  | [] => [(k, v)]
  | (k', v') :: r =>
    if pystr_eqb k' k then (k', v) :: r else (k', v') :: dict_set r k v
  end.

Definition float_is_zero (f : float) : bool := PrimFloat.eqb f 0%float.

(** [bool(v)], the test an [if v:] makes. *)
Definition truthy (v : pyval) : bool :=
  match v with
  | PNone => false
  | PBool b => b
  | PInt z => negb (z =? 0)%Z
  | PFloat f => negb (float_is_zero f)
  | PStr s => match s with [] => false | _ => true end
  | PList l => match l with [] => false | _ => true end
  | PDict d => match d with [] => false | _ => true end
  end.

(** [type(v).__name__] *)
Definition type_name (v : pyval) : pystr :=
  match v with
  | PNone => u "NoneType"
  | PBool _ => u "bool"
  | PInt _ => u "int"
  | PFloat _ => u "float"
  | PStr _ => u "str"
  | PList _ => u "list"
  | PDict _ => u "dict"
  end.

(** [str(z)] for an [int]. *)
Definition str_of_int (z : Z) : pystr :=
  u (NilZero.string_of_int (Z.to_int z)).

(** [a >= f] for an [int] and a [float], compared exactly as Python
    does (no rounding of the integer); false against [nan]. *)
Definition int_ge_float (a : Z) (f : float) : bool :=
  match Prim2SF f with
  | S754_zero _ => (0 <=? a)%Z
  | S754_infinity neg => neg
  | S754_nan => false
  | S754_finite neg m e =>
    let mz := if neg then Z.opp (Z.pos m) else Z.pos m in
    if (0 <=? e)%Z then (mz * 2 ^ e <=? a)%Z
    else (mz <=? a * 2 ^ (Z.opp e))%Z
  end.

(** [a >= v] for an [int] [a]: [TypeError] unless [v] is a number. *)
Definition int_ge (a : Z) (v : pyval) : result bool :=
  match v with
  | PInt m => Ok (m <=? a)%Z
  | PBool b => Ok ((if b then 1 else 0) <=? a)%Z
  | PFloat f => Ok (int_ge_float a f)
  | _ => Raise (TypeError
                  (u "'>=' not supported between instances of 'int' and '"
                   ++ type_name v ++ u "'"))
  end.

(** A [datetime], in microseconds; [timedelta] likewise. *)
Definition datetime := Z.

Definition timedelta_seconds (s : Z) : Z := (s * 1000000)%Z.
Definition timedelta_minutes (m : Z) : Z := timedelta_seconds (m * 60).

(** What the program takes from the interpreter and its libraries
    without this development looking inside. *)
Class Runtime := {
  (** [bcrypt.checkpw(password, hashed)]; it raises on a malformed hash. *)
  bcrypt_checkpw : pybytes -> pybytes -> result bool;
  (** [str(v)] of a value that is not a [str] or an [int]. *)
  py_repr : pyval -> pystr;
  (** [hash(s)] of a [str]. *)
  py_hash : pystr -> Z;
  (** [s.upper()] *)
  str_upper : pystr -> pystr;
  (** [t.isoformat()] *)
  isoformat : datetime -> pystr;
  (** [json.loads(s)]: the document, or the exception raised (a
      [json.JSONDecodeError] for a text that is no JSON document). *)
  json_loads : pystr -> result pyval;
  (** [json.dumps(v, indent=2)]; it raises [TypeError] on a value that is
      not serializable. *)
  json_dumps : pyval -> result pystr
}.

(** [str(v)], as an f-string formats a value. *)
Definition py_str `{Runtime} (v : pyval) : pystr :=
  match v with
  | PStr s => s
  | PInt z => str_of_int z
  | _ => py_repr v
  end.

(** The clock: the successive readings of [datetime.now()], and how many
    were taken. *)
Record clock := Clock {
  readings : nat -> datetime;
  reads : nat }.

Definition clock_now (c : clock) : datetime := readings c (reads c).
Definition clock_tick (c : clock) : clock := Clock (readings c) (S (reads c)).

(** Computations over a state [S] that may raise: the state survives an
    exception, as the attributes of an object do. *)
Definition M (S A : Type) : Type := S -> result A * S.

Definition ret {S A} (a : A) : M S A := fun s => (Ok a, s).

Definition bind {S A B} (m : M S A) (k : A -> M S B) : M S B :=
  fun s => match m s with
           | (Ok a, s') => k a s'
           | (Raise e, s') => (Raise e, s')
           end.

Definition raise {S A} (e : exn) : M S A := fun s => (Raise e, s).

(** [try: m except Exception as e: h e] *)
Definition try_except {S A} (m : M S A) (h : exn -> M S A) : M S A :=
  fun s => match m s with
           | (Ok a, s') => (Ok a, s')
           | (Raise e, s') => h e s'
           end.

Definition lift {S A} (r : result A) : M S A := fun s => (r, s).

Definition gets {S A} (f : S -> A) : M S A := fun s => (Ok (f s), s).
Definition modify {S} (f : S -> S) : M S unit := fun s => (Ok tt, f s).

End PyVal.

Declare Scope py_scope.
Delimit Scope py_scope with py.
Notation "x <- m ;; k" := (PyVal.bind m (fun x => k))
  (at level 61, m at next level, right associativity) : py_scope.
Notation "m ;;; k" := (PyVal.bind m (fun _ => k))
  (at level 61, right associativity) : py_scope.

(** ** [config/unified_config.py] *)

Module Config.

Import Py PyVal.

(** The dictionary [UnifiedConfig._init_auth_config] builds. *)
Definition auth_config : dict :=
  [ (u "cookie_name", PStr (u "unified_dashboard_auth"));
    (u "cookie_key", PStr (u "unified_dashboard_key"));
    (u "cookie_expiry_days", PInt 30);
    (u "session_timeout", PInt 3600);
    (u "max_login_attempts", PInt 3);
    (u "password_min_length", PInt 12);
    (u "preauthorized", PList [PStr (u "admin@unified.com")]) ].

(** The dictionary [UnifiedConfig._init_ai_config] builds. *)
Definition ai_config : dict :=
  [ (u "max_tokens", PInt 1500);
    (u "temperature", PFloat 0.7%float);
    (u "timeout", PInt 60);
    (u "retry_attempts", PInt 3);
    (u "cache_responses", PBool true);
    (u "cache_duration_hours", PInt 24) ].

End Config.

(** ** [auth/unified_auth.py] *)

Module Auth.

Import Py PyVal.
Local Open Scope py_scope.

(** The keys of [st.session_state] the authentication system owns. *)
Record session_state := Session {
  authenticated : bool;
  user_info : dict;
  login_attempts : Z;
  last_login_attempt : option datetime;
  current_project : pystr }.

(** A tenant's [users] table as a query finds it: its rows, or the
    exception the client raises (no connection, no such table, ...). *)
Inductive store :=
| Table (rows : list dict)
| Unavailable (e : exn).

(** What a call may read and change: the session, the clock, and the
    trace of the tenant stores queried so far (latest last). *)
Record world := World {
  session : session_state;
  now : clock;
  queried : list pystr }.

(** [UnifiedAuthSystem]: its configuration and its database managers,
    a [dict] in the order [__init__] fills it. *)
Record UnifiedAuthSystem := AuthSystem {
  auth_config : dict;
  db_managers : list (pystr * store) }.

(** [UnifiedAuthSystem.__init__] *)
Definition new (config : dict) (lead cpa prop : store) : UnifiedAuthSystem :=
  AuthSystem config [(u "lead", lead); (u "cpa", cpa); (u "prop", prop)].

(** [_init_session_state] on a session that holds none of the keys. *)
Definition init_session_state : session_state :=
  Session false [] 0 None (u "lead").

Definition set_session (f : session_state -> session_state) : M world unit :=
  modify (fun w => World (f (session w)) (now w) (queried w)).

(** [datetime.now()] *)
Definition datetime_now : M world datetime :=
  fun w => (Ok (clock_now (now w)),
            World (session w) (clock_tick (now w)) (queried w)).

(** [secrets.token_hex(n)] on the [n] octets the system source gave. *)
Definition token_hex (octets : pybytes) : pystr := hexlify octets.

(** The [UnicodeEncodeError] of [encode] (its reason). *)
Definition encode_error : exn :=
  Exn (u "UnicodeEncodeError") (u "surrogates not allowed").

Definition encode_or_raise (s : pystr) : result pybytes :=
  match encode s with
  | Some b => Ok b
  | None => Raise encode_error
  end.

(** [hash_password]; [octets] are the 16 octets [secrets.token_hex(16)]
    draws. *)
Definition hash_password (octets : pybytes) (password : pystr) : result pystr :=
  let salt := token_hex octets in
  match encode_or_raise (password ++ salt) with
  | Ok b => Ok (salt ++ [dollar] ++ Sha256.hexdigest b)
  | Raise e => Raise e
  end.

Section WithRuntime.

Context {rt : Runtime}.

(** The body of [verify_password], inside its [try]. *)
Definition verify_password_body (password stored_hash : pystr) : result bool :=
  if startswith stored_hash (u "$2b$") then
    match encode_or_raise password with
    | Raise e => Raise e
    | Ok p =>
      match encode_or_raise stored_hash with
      | Raise e => Raise e
      | Ok h => bcrypt_checkpw p h
      end
    end
  else if pystr_eqb stored_hash password then Ok true
  else if contains dollar stored_hash && (50 <? length stored_hash)%nat then
    let (salt, hash_part) := split1 dollar stored_hash in
    match encode_or_raise (password ++ salt) with
    | Raise e => Raise e
    | Ok b => Ok (pystr_eqb (Sha256.hexdigest b) hash_part)
    end
  else if (length stored_hash =? 64)%nat then
    match encode_or_raise password with
    | Raise e => Raise e
    | Ok b => Ok (pystr_eqb (Sha256.hexdigest b) stored_hash)
    end
  else Ok (pystr_eqb password stored_hash).

(** [verify_password]: any exception of the body gives [False]. *)
Definition verify_password (password stored_hash : pystr) : bool :=
  match verify_password_body password stored_hash with
  | Ok b => b
  | Raise _ => false
  end.

(** [verify_password] on what [user_data.get('password_hash', '')] gave:
    a value that is no [str] has no [startswith], and the
    [AttributeError] is caught. *)
Definition verify_password_value (password : pystr) (stored : pyval) : bool :=
  match stored with
  | PStr h => verify_password password h
  | _ => false
  end.

Variable self : UnifiedAuthSystem.

(** [check_rate_limit] *)
Definition check_rate_limit : M world bool :=
  let max_attempts := dict_get (auth_config self) (u "max_login_attempts") (PInt 3) in
  attempts <- gets (fun w => login_attempts (session w)) ;;
  reached <- lift (int_ge attempts max_attempts) ;;
  if reached : bool then
    last <- gets (fun w => last_login_attempt (session w)) ;;
    match last with
    | Some t =>
      n <- datetime_now ;;
      let time_diff := (n - t)%Z in
      if (time_diff <? timedelta_minutes 15)%Z then ret false else ret true
    | None => ret true
    end
  else ret true.

(** [_increment_login_attempts] *)
Definition _increment_login_attempts : M world unit :=
  set_session (fun s => Session (authenticated s) (user_info s)
                          (login_attempts s + 1) (last_login_attempt s)
                          (current_project s)) ;;;
  n <- datetime_now ;;
  set_session (fun s => Session (authenticated s) (user_info s)
                          (login_attempts s) (Some n) (current_project s)).

(** [_reset_login_attempts] *)
Definition _reset_login_attempts : M world unit :=
  set_session (fun s => Session (authenticated s) (user_info s) 0 None
                          (current_project s)).

(** [_set_user_session] *)
Definition _set_user_session (user_data : dict) (project_type : pystr)
  : M world unit :=
  n <- datetime_now ;;
  set_session (fun s =>
    Session true
      [ (u "id", dict_get user_data (u "id") PNone);
        (u "username", dict_get user_data (u "username") PNone);
        (u "email", dict_get user_data (u "email") PNone);
        (u "first_name", dict_get user_data (u "first_name") PNone);
        (u "last_name", dict_get user_data (u "last_name") PNone);
        (u "role", dict_get user_data (u "role") PNone);
        (u "project_type", PStr project_type);
        (u "login_time", PStr (isoformat n)) ]
      (login_attempts s) (last_login_attempt s) project_type).

(** The rows a store's [username = ...] filter keeps. *)
Definition has_username (username : pystr) (row : dict) : bool :=
  match dict_find row (u "username") with
  | Some (PStr s) => pystr_eqb s username
  | _ => false
  end.

(** [db_manager.supabase.table('users').select('*').eq('username',
    username).execute().data]; the query is recorded in the trace. *)
Definition select_users (project_type : pystr) (db_manager : store)
    (username : pystr) : M world (list dict) :=
  modify (fun w => World (session w) (now w) (queried w ++ [project_type])) ;;;
  match db_manager with
  | Table rows => ret (filter (has_username username) rows)
  | Unavailable e => raise e
  end.

(** The [for project_type, db_manager in self.db_managers.items()] loop
    of [authenticate_user], over the items still to visit: the values
    of [user_data] and [project_found] when it ends, both [None] when no
    store had a row. *)
Fixpoint search_users (username : pystr) (items : list (pystr * store))
  : M world (option (dict * pystr)) :=
  match items with
  | [] => ret None
  | (project_type, db_manager) :: rest =>
    hit <- try_except
             (data <- select_users project_type db_manager username ;;
              match data with
              | row :: _ => ret (Some row)
              | [] => ret None
              end)
             (fun _ => ret None) ;;
    match hit with
    | Some row => ret (Some (row, project_type))
    | None => search_users username rest
    end
  end.

Definition msg_locked : pystr :=
  u "❌ Troppi tentativi di login. Riprova tra 15 minuti.".
Definition msg_not_found : pystr := u "❌ Utente non trovato".
Definition msg_wrong_password : pystr := u "❌ Password errata".
Definition msg_welcome (name : pyval) : pystr :=
  u "✅ Benvenuto " ++ py_str name ++ u "!".
Definition msg_system_error (e : exn) : pystr :=
  u "❌ Errore sistema: " ++ exn_text e.

(** [authenticate_user] *)
Definition authenticate_user (username password : pystr)
  : M world (bool * pystr * dict) :=
  try_except
    (allowed <- check_rate_limit ;;
     if negb allowed then ret (false, msg_locked, [])
     else
       found <- search_users username (db_managers self) ;;
       match found with
       | None | Some ([], _) =>
         _increment_login_attempts ;;;
         ret (false, msg_not_found, [])
       | Some (user_data, project_found) =>
         let stored_hash := dict_get user_data (u "password_hash") (PStr []) in
         if negb (verify_password_value password stored_hash) then
           _increment_login_attempts ;;;
           ret (false, msg_wrong_password, [])
         else
           _reset_login_attempts ;;;
           _set_user_session user_data project_found ;;;
           ret (true,
                msg_welcome (dict_get user_data (u "first_name") (PStr username)),
                user_data)
       end)
    (fun e => ret (false, msg_system_error e, [])).

(** [logout_user] *)
Definition logout_user : M world unit :=
  set_session (fun s => Session false (user_info s) (login_attempts s)
                          (last_login_attempt s) (current_project s)) ;;;
  set_session (fun s => Session (authenticated s) [] (login_attempts s)
                          (last_login_attempt s) (current_project s)) ;;;
  set_session (fun s => Session (authenticated s) (user_info s)
                          (login_attempts s) (last_login_attempt s) (u "lead")).

(** [is_authenticated] *)
Definition is_authenticated : M world bool :=
  gets (fun w => authenticated (session w)).

(** [get_current_user] *)
Definition get_current_user : M world dict :=
  gets (fun w => user_info (session w)).

(** [get_current_project] *)
Definition get_current_project : M world pystr :=
  gets (fun w => current_project (session w)).

(** [x in xs] for a list of strings. *)
Definition str_in (x : pystr) (xs : list pystr) : bool :=
  existsb (pystr_eqb x) xs.

(** [switch_project] *)
Definition switch_project (project_type : pystr) : M world unit :=
  if str_in project_type [u "lead"; u "cpa"; u "prop"] then
    set_session (fun s => Session (authenticated s) (user_info s)
                            (login_attempts s) (last_login_attempt s)
                            project_type)
  else ret tt.

(** The table of [check_permissions]. *)
Definition permissions : list (pystr * list pystr) :=
  [ (u "admin", [u "all"]);
    (u "manager", [u "read"; u "write"; u "delete"; u "manage_team"]);
    (u "user", [u "read"; u "write"]);
    (u "viewer", [u "read"]) ].

(** [table.get(key, default)] for a table keyed by strings and any key:
    a key that cannot be hashed raises, any other key that is no string
    of the table gives the default. *)
Definition get_by_value {V} (table : list (pystr * V)) (key : pyval)
    (default : V) : result V :=
  match key with
  | PStr k =>
    Ok (match dict_find table k with Some v => v | None => default end)
  | PList _ | PDict _ =>
    Raise (TypeError (u "unhashable type: '" ++ type_name key ++ u "'"))
  | _ => Ok default
  end.

(** [check_permissions] *)
Definition check_permissions (required_permission : pystr) : M world bool :=
  authed <- is_authenticated ;;
  if negb authed then ret false
  else
    info <- get_current_user ;;
    let user_role := dict_get info (u "role") (PStr (u "viewer")) in
    user_permissions <- lift (get_by_value permissions user_role [u "read"]) ;;
    ret (str_in (u "all") user_permissions
         || str_in required_permission user_permissions).

Definition msg_access_denied : pystr :=
  u "❌ Accesso negato. Effettua il login.".
Definition msg_insufficient (required_permission : pystr) : pystr :=
  u "❌ Permessi insufficienti. Richiesto: " ++ required_permission.

(** The function [require_auth(required_permission)] makes of [func]:
    [inl message] when it showed [message] with [st.error] and returned
    [None] without calling [func], [inr a] when [func] returned [a]. *)
Definition require_auth {A} (required_permission : pystr) (func : M world A)
  : M world (pystr + A) :=
  authed <- is_authenticated ;;
  if negb authed then ret (inl msg_access_denied)
  else
    permitted <- check_permissions required_permission ;;
    if negb permitted then ret (inl (msg_insufficient required_permission))
    else a <- func ;; ret (inr a).

End WithRuntime.

End Auth.

(** ** [ai/unified_ai_assistant.py] *)

Module AI.

Import Py PyVal.
Local Open Scope py_scope.

Definition rbind {A B} (r : result A) (k : A -> result B) : result B :=
  match r with
  | Ok a => k a
  | Raise e => Raise e
  end.

Notation "x <~ r ;; k" := (rbind r (fun x => k))
  (at level 61, r at next level, right associativity) : py_scope.

(** A [pandas.DataFrame]: the length of its index and its columns by
    label, each holding one cell per row.  Labels are taken to be
    distinct strings, as the tables of the three projects have them. *)
Record DataFrame := Frame {
  df_len : nat;
  df_columns : list (pystr * list pyval) }.

(** [label in data.columns] *)
Definition has_column (data : DataFrame) (label : pystr) : bool :=
  dict_mem (df_columns data) label.

(** [data[label]], its cells. *)
Definition column (data : DataFrame) (label : pystr) : list pyval :=
  match dict_find (df_columns data) label with
  | Some cells => cells
  | None => []
  end.

(** [cell == s] for a string [s], as the element-wise comparison of a
    column decides it. *)
Definition cell_is (s : pystr) (cell : pyval) : bool :=
  match cell with
  | PStr t => pystr_eqb t s
  | _ => false
  end.

(** [cell] is not missing ([notna]): neither [None] nor [nan]. *)
Definition cell_notna (cell : pyval) : bool :=
  match cell with
  | PNone => false
  | PFloat f => PrimFloat.eqb f f
  | _ => true
  end.

(** [float(z)], exact below [2 ^ 53] in absolute value. *)
Definition float_of_Z (z : Z) : float :=
  if (z <? 0)%Z then PrimFloat.opp (PrimFloat.of_uint63 (Uint63.of_Z (- z)))
  else PrimFloat.of_uint63 (Uint63.of_Z z).

(** [a / b] for two [int]s, [b] not zero: the binary64 quotient. *)
Definition int_truediv (a b : Z) : float :=
  PrimFloat.div (float_of_Z a) (float_of_Z b).

(** [a / b * 100] *)
Definition percentage (a b : Z) : float :=
  PrimFloat.mul (int_truediv a b) (float_of_Z 100).

(** [_calculate_conversion_rate] *)
Definition _calculate_conversion_rate (data : DataFrame) : pyval :=
  if has_column data (u "stato") then
    let converted :=
      Z.of_nat (length (filter (cell_is (u "converted")) (column data (u "stato")))) in
    let total := Z.of_nat (df_len data) in
    if (0 <? total)%Z then PFloat (percentage converted total) else PInt 0
  else PInt 0.

(** [v * f] for a number [v] and a [float] [f]. *)
Definition times_float (v : pyval) (f : float) : result pyval :=
  match v with
  | PInt z => Ok (PFloat (PrimFloat.mul (float_of_Z z) f))
  | PBool b => Ok (PFloat (PrimFloat.mul (float_of_Z (if b then 1 else 0)) f))
  | PFloat x => Ok (PFloat (PrimFloat.mul x f))
  | _ => Raise (TypeError (u "can't multiply sequence by non-int of type 'float'"))
  end.

(** The pandas computations the statistics delegate to; each may raise
    (a column of the wrong type, a date that does not parse, ...). *)
Class Pandas := {
  (** [data[label].min()] and [data[label].max()] *)
  series_min : DataFrame -> pystr -> result pyval;
  series_max : DataFrame -> pystr -> result pyval;
  (** [data[label].sum()] and [data[label].mean()] *)
  series_sum : DataFrame -> pystr -> result pyval;
  series_mean : DataFrame -> pystr -> result pyval;
  (** [data[label].nunique()] *)
  series_nunique : DataFrame -> pystr -> result pyval;
  (** [data[label].value_counts().to_dict()] *)
  value_counts : DataFrame -> pystr -> result pyval;
  (** [data[label].value_counts().head(5).to_dict()] *)
  value_counts_head5 : DataFrame -> pystr -> result pyval;
  (** The dictionary of [_analyze_trends] when the date column exists:
      daily average and growth rate of the rows grouped by day. *)
  daily_trends : DataFrame -> result pyval;
  (** [data.groupby('broker').agg({'deposito': ['sum', 'mean',
      'count']}).round(2).to_dict('index')] *)
  broker_stats : DataFrame -> result pyval;
  (** [data.groupby('broker')['deposito'].mean().mean()] *)
  mean_of_broker_means : DataFrame -> result pyval
}.

(** One outcome of [requests.post]: the exception it raised, or the
    status of the response and what [response.json()] gives. *)
Inductive http_outcome :=
| HttpRaises (e : exn)
| HttpResponse (status_code : Z) (json : result pyval).

(** A request as posted. *)
Record request := Request {
  req_url : pystr;
  req_headers : dict;
  req_json : dict;
  req_timeout : Z }.

(** What a call may read and change: the assistant's cache, the clock,
    the requests posted so far (latest last) and the outcome the
    network gives to the request that follows [n] earlier ones. *)
Record world := World {
  cache : list (pystr * (datetime * pyval));
  now : clock;
  posted : list request;
  network : nat -> http_outcome }.

(** [UnifiedAIAssistant], its attributes that do not change. *)
Record UnifiedAIAssistant := Assistant {
  api_key : pystr;
  api_url : pystr;
  model : pystr;
  ai_config : dict;
  cache_timeout : Z }.

(** [UnifiedAIAssistant.__init__] *)
Definition new (key url model_name : pystr) (config : dict) : UnifiedAIAssistant :=
  Assistant key url model_name config 300.

(** [datetime.now()] *)
Definition datetime_now : M world datetime :=
  fun w => (Ok (clock_now (now w)),
            World (cache w) (clock_tick (now w)) (posted w) (network w)).

(** [requests.post(url, headers=..., json=..., timeout=...)] *)
Definition requests_post (r : request) : M world (Z * result pyval) :=
  fun w =>
    let w' := World (cache w) (now w) (posted w ++ [r]) (network w) in
    match network w (length (posted w)) with
    | HttpRaises e => (Raise e, w')
    | HttpResponse status_code json => (Ok (status_code, json), w')
    end.

(** [v[k]] for a string [k]. *)
Definition getitem (v : pyval) (k : pystr) : result pyval :=
  match v with
  | PDict d =>
    match dict_find d k with
    | Some x => Ok x
    | None => Raise (KeyError (u "'" ++ k ++ u "'"))
    end
  | PList _ => Raise (TypeError (u "list indices must be integers or slices, not str"))
  | PStr _ => Raise (TypeError (u "string indices must be integers, not 'str'"))
  | _ => Raise (TypeError (u "'" ++ type_name v ++ u "' object is not subscriptable"))
  end.

(** [v[0]] *)
Definition getitem0 (v : pyval) : result pyval :=
  match v with
  | PList (x :: _) => Ok x
  | PList [] => Raise (IndexError (u "list index out of range"))
  | PStr (c :: _) => Ok (PStr [c])
  | PStr [] => Raise (IndexError (u "string index out of range"))
  | PDict _ => Raise (KeyError (u "0"))
  | _ => Raise (TypeError (u "'" ++ type_name v ++ u "' object is not subscriptable"))
  end.

(** [v[k] = x] for a string [k]. *)
Definition setitem (v : pyval) (k : pystr) (x : pyval) : result dict :=
  match v with
  | PDict d => Ok (dict_set d k x)
  | PList _ => Raise (TypeError (u "list indices must be integers or slices, not str"))
  | _ => Raise (TypeError (u "'" ++ type_name v
                           ++ u "' object does not support item assignment"))
  end.

Definition message (role content : pystr) : pyval :=
  PDict [(u "role", PStr role); (u "content", PStr content)].

Definition nl : pystr := [10%N].

(** The lines of a multi-line literal, joined by newlines. *)
Fixpoint join_lines (ls : list pystr) : pystr :=
  match ls with
  | [] => []
  | [l] => l
  | l :: r => l ++ nl ++ join_lines r
  end.

Section WithRuntime.

Context {rt : Runtime} {pd : Pandas}.

Variable self : UnifiedAIAssistant.

(** The key of the cache: [f"{project_type}_{hash(str(messages))}"]. *)
Definition cache_key (messages : pyval) (project_type : pystr) : pystr :=
  project_type ++ u "_" ++ str_of_int (py_hash (py_str messages)).

(** [_make_api_call]; [None] is [PNone]. *)
Definition _make_api_call (messages : pyval) (project_type : pystr)
  : M world pyval :=
  try_except
    (let key := cache_key messages project_type in
     entry <- gets (fun w => dict_find (cache w) key) ;;
     fresh <- match entry with
              | Some (cached_time, response) =>
                n <- datetime_now ;;
                if (n - cached_time <? timedelta_seconds (cache_timeout self))%Z
                then ret (Some response) else ret None
              | None => ret None
              end ;;
     match fresh with
     | Some response => ret response
     | None =>
       let headers :=
         [ (u "Authorization", PStr (u "Bearer " ++ api_key self));
           (u "Content-Type", PStr (u "application/json")) ] in
       let payload :=
         [ (u "model", PStr (model self));
           (u "messages", messages);
           (u "max_tokens", dict_get (ai_config self) (u "max_tokens") (PInt 1500));
           (u "temperature",
            dict_get (ai_config self) (u "temperature") (PFloat 0.7%float));
           (u "stream", PBool false) ] in
       response <- requests_post (Request (api_url self) headers payload 30) ;;
       let (status_code, json) := response in
       if (status_code =? 200)%Z then
         result <- lift json ;;
         ai_response <- lift (choices <~ getitem result (u "choices") ;;
                              first <~ getitem0 choices ;;
                              msg <~ getitem first (u "message") ;;
                              getitem msg (u "content")) ;;
         n <- datetime_now ;;
         modify (fun w => World (dict_set (cache w) key (n, ai_response))
                            (now w) (posted w) (network w)) ;;;
         ret ai_response
       else ret PNone
     end)
    (fun _ => ret PNone).

(** *** The local statistics *)

(** [_get_top_sources] *)
Definition _get_top_sources (data : DataFrame) : result pyval :=
  if has_column data (u "fonte") then value_counts_head5 data (u "fonte")
  else Ok (PList []).

(** [_analyze_trends] (it also rewrites the date column of [data] in
    place, which nothing below reads again). *)
Definition _analyze_trends (data : DataFrame) : result pyval :=
  if has_column data (u "data_registrazione") then daily_trends data
  else Ok (PDict []).

(** [_get_broker_distribution] *)
Definition _get_broker_distribution (data : DataFrame) : result pyval :=
  if has_column data (u "broker") then value_counts data (u "broker")
  else Ok (PDict []).

(** [_analyze_platforms] *)
Definition _analyze_platforms (data : DataFrame) : result pyval :=
  if has_column data (u "piattaforma") then value_counts data (u "piattaforma")
  else Ok (PDict []).

(** [_analyze_vps_usage] *)
Definition _analyze_vps_usage (data : DataFrame) : result pyval :=
  if has_column data (u "vps_ip") then
    let vps_users :=
      Z.of_nat (length (filter cell_notna (column data (u "vps_ip")))) in
    let total := Z.of_nat (df_len data) in
    Ok (PDict
          [ (u "vps_users", PInt vps_users);
            (u "vps_percentage",
             if (0 <? total)%Z then PFloat (percentage vps_users total)
             else PInt 0) ])
  else Ok (PDict []).

(** [_calculate_financial_projections] *)
Definition _calculate_financial_projections (data : DataFrame) : result pyval :=
  if has_column data (u "deposito") then
    total_deposits <~ series_sum data (u "deposito") ;;
    avg_deposit <~ series_mean data (u "deposito") ;;
    monthly <~ times_float total_deposits 1.1%float ;;
    yearly <~ times_float total_deposits 1.2%float ;;
    Ok (PDict
          [ (u "total_deposits", total_deposits);
            (u "average_deposit", avg_deposit);
            (u "projected_monthly", monthly);
            (u "projected_yearly", yearly) ])
  else Ok (PDict []).

(** [_rank_brokers] *)
Definition _rank_brokers (data : DataFrame) : result pyval :=
  if has_column data (u "broker") && has_column data (u "deposito")
  then broker_stats data
  else Ok (PList []).

(** [_calculate_broker_metrics] *)
Definition _calculate_broker_metrics (data : DataFrame) : result pyval :=
  total_brokers <~ (if has_column data (u "broker")
                    then series_nunique data (u "broker") else Ok (PInt 0)) ;;
  average_per_broker <~
    (if has_column data (u "broker") && has_column data (u "deposito")
     then mean_of_broker_means data else Ok (PInt 0)) ;;
  Ok (PDict [ (u "total_brokers", total_brokers);
              (u "average_per_broker", average_per_broker) ]).

(** [_analyze_market_trends] *)
Definition _analyze_market_trends (data : DataFrame) : pyval :=
  PDict [ (u "market_growth", PStr (u "positive"));
          (u "trend_direction", PStr (u "upward"));
          (u "volatility", PStr (u "medium")) ].

(** [_assess_broker_risks] *)
Definition _assess_broker_risks (data : DataFrame) : pyval :=
  PDict [ (u "risk_level", PStr (u "low"));
          (u "risk_factors",
           PList [PStr (u "market_volatility"); PStr (u "regulatory_changes")]);
          (u "mitigation_strategies",
           PList [PStr (u "diversification"); PStr (u "risk_monitoring")]) ].

(** The [data_summary] of [analyze_lead_data]. *)
Definition lead_summary (lead_data : DataFrame) : result dict :=
  let dated := has_column lead_data (u "data_registrazione") in
  first_day <~ (if dated then series_min lead_data (u "data_registrazione")
                else Ok PNone) ;;
  last_day <~ (if dated then series_max lead_data (u "data_registrazione")
               else Ok PNone) ;;
  let conversion_rate := _calculate_conversion_rate lead_data in
  top_sources <~ _get_top_sources lead_data ;;
  trends <~ _analyze_trends lead_data ;;
  Ok [ (u "total_leads", PInt (Z.of_nat (df_len lead_data)));
       (u "columns", PList (map (fun c => PStr (fst c)) (df_columns lead_data)));
       (u "date_range", PDict [(u "start", first_day); (u "end", last_day)]);
       (u "conversion_rate", conversion_rate);
       (u "top_sources", top_sources);
       (u "trends", trends) ].

(** The [metrics] of [calculate_cpa_metrics]. *)
Definition cpa_metrics (cpa_data : DataFrame) : result dict :=
  let deposits := has_column cpa_data (u "deposito") in
  total_deposits <~ (if deposits then series_sum cpa_data (u "deposito")
                     else Ok (PInt 0)) ;;
  average_deposit <~ (if deposits then series_mean cpa_data (u "deposito")
                      else Ok (PInt 0)) ;;
  broker_distribution <~ _get_broker_distribution cpa_data ;;
  platform_analysis <~ _analyze_platforms cpa_data ;;
  vps_usage <~ _analyze_vps_usage cpa_data ;;
  financial_projections <~ _calculate_financial_projections cpa_data ;;
  Ok [ (u "total_clients", PInt (Z.of_nat (df_len cpa_data)));
       (u "total_deposits", total_deposits);
       (u "average_deposit", average_deposit);
       (u "broker_distribution", broker_distribution);
       (u "platform_analysis", platform_analysis);
       (u "vps_usage", vps_usage);
       (u "financial_projections", financial_projections) ].

(** The [analysis] of [analyze_broker_performance]. *)
Definition broker_analysis (broker_data : DataFrame) : result dict :=
  broker_rankings <~ _rank_brokers broker_data ;;
  performance_metrics <~ _calculate_broker_metrics broker_data ;;
  Ok [ (u "total_brokers", PInt (Z.of_nat (df_len broker_data)));
       (u "broker_rankings", broker_rankings);
       (u "performance_metrics", performance_metrics);
       (u "market_analysis", _analyze_market_trends broker_data);
       (u "risk_assessment", _assess_broker_risks broker_data) ].

(** *** The prompts *)

Definition lead_messages (project_type dumped : pystr) : pyval :=
  PList
    [ message (u "system")
        (u "Sei un esperto analista di lead per il progetto "
         ++ str_upper project_type
         ++ join_lines
              [ u ". ";
                u "                    Analizza i dati forniti e fornisci insights dettagliati, previsioni e raccomandazioni strategiche.";
                u "                    Rispondi in italiano, formato JSON strutturato." ]);
      message (u "user")
        (u "Analizza questi dati lead per il progetto "
         ++ str_upper project_type
         ++ join_lines [ u ":"; u "                    "; u "                    " ]
         ++ dumped
         ++ join_lines
              [ [];
                u "                    ";
                u "                    Fornisci:";
                u "                    1. Analisi delle performance";
                u "                    2. Trend identificati";
                u "                    3. Previsioni per i prossimi 30 giorni";
                u "                    4. Raccomandazioni strategiche";
                u "                    5. Aree di miglioramento";
                u "                    ";
                u "                    Formato JSON con sezioni: analysis, trends, predictions, recommendations, improvements" ]) ].

Definition cpa_messages (project_type dumped : pystr) : pyval :=
  PList
    [ message (u "system")
        (u "Sei un esperto finanziario per il progetto "
         ++ str_upper project_type
         ++ join_lines
              [ u ". ";
                u "                    Calcola metriche avanzate, ROI, previsioni finanziarie e analisi di performance.";
                u "                    Rispondi in italiano, formato JSON strutturato." ]);
      message (u "user")
        (u "Calcola metriche avanzate CPA per il progetto "
         ++ str_upper project_type
         ++ join_lines [ u ":"; u "                    "; u "                    " ]
         ++ dumped
         ++ join_lines
              [ [];
                u "                    ";
                u "                    Calcola:";
                u "                    1. ROI per broker";
                u "                    2. Previsioni di crescita";
                u "                    3. Analisi di rischio";
                u "                    4. Ottimizzazione budget";
                u "                    5. Raccomandazioni strategiche";
                u "                    ";
                u "                    Formato JSON con sezioni: roi_analysis, growth_projections, risk_assessment, budget_optimization, strategic_recommendations" ]) ].

Definition broker_messages (project_type dumped : pystr) : pyval :=
  PList
    [ message (u "system")
        (u "Sei un esperto di mercati finanziari per il progetto "
         ++ str_upper project_type
         ++ join_lines
              [ u ". ";
                u "                    Analizza performance broker, trend di mercato e fornisci raccomandazioni strategiche.";
                u "                    Rispondi in italiano, formato JSON strutturato." ]);
      message (u "user")
        (u "Analizza performance broker per il progetto "
         ++ str_upper project_type
         ++ join_lines [ u ":"; u "                    "; u "                    " ]
         ++ dumped
         ++ join_lines
              [ [];
                u "                    ";
                u "                    Fornisci:";
                u "                    1. Ranking broker dettagliato";
                u "                    2. Analisi di mercato";
                u "                    3. Previsioni trend";
                u "                    4. Raccomandazioni di investimento";
                u "                    5. Gestione del rischio";
                u "                    ";
                u "                    Formato JSON con sezioni: broker_rankings, market_analysis, trend_predictions, investment_recommendations, risk_management" ]) ].

(** *** The fallbacks *)

Definition timestamp : M world pyval :=
  n <- datetime_now ;; ret (PStr (isoformat n)).

(** [_fallback_lead_analysis] *)
Definition _fallback_lead_analysis (data : DataFrame) (summary : dict)
  : M world dict :=
  t <- timestamp ;;
  ret [ (u "analysis", PStr (u "Analisi base completata (AI non disponibile)"));
        (u "data_summary", PDict summary);
        (u "recommendations",
         PList [ PStr (u "Migliorare conversion rate");
                 PStr (u "Ottimizzare fonti lead") ]);
        (u "timestamp", t) ].

(** [_fallback_cpa_analysis] *)
Definition _fallback_cpa_analysis (data : DataFrame) (metrics : dict)
  : M world dict :=
  t <- timestamp ;;
  ret [ (u "roi_analysis", PStr (u "Analisi ROI base completata"));
        (u "basic_metrics", PDict metrics);
        (u "recommendations",
         PList [ PStr (u "Ottimizzare budget"); PStr (u "Migliorare ROI") ]);
        (u "timestamp", t) ].

(** [_fallback_broker_analysis] *)
Definition _fallback_broker_analysis (data : DataFrame) (analysis : dict)
  : M world dict :=
  t <- timestamp ;;
  ret [ (u "broker_rankings", PStr (u "Ranking base completato"));
        (u "basic_analysis", PDict analysis);
        (u "recommendations",
         PList [ PStr (u "Diversificare broker");
                 PStr (u "Monitorare performance") ]);
        (u "timestamp", t) ].

(** *** The domain callers *)

(** [json.loads(v)]: a [TypeError] when [v] is no string. *)
Definition json_loads_value (v : pyval) : result pyval :=
  match v with
  | PStr s => json_loads s
  | _ => Raise (TypeError (u "the JSON object must be str, bytes or bytearray, not "
                           ++ type_name v))
  end.

(** The handler every caller ends with:
    [except Exception as e: return {"error": str(e), "timestamp": ...}]. *)
Definition error_result (e : exn) : M world dict :=
  t <- timestamp ;;
  ret [ (u "error", PStr (exn_text e)); (u "timestamp", t) ].

(** What the three callers do with the answer: parse it and add the
    local statistics under [stats_key]; on a [JSONDecodeError] wrap the
    text under [raw_key]; with no answer, take the [fallback]. *)
Definition interpret (ai_response : pyval) (raw_key stats_key : pystr)
    (stats : dict) (fallback : M world dict) : M world dict :=
  if truthy ai_response then
    try_except
      (parsed <- lift (json_loads_value ai_response) ;;
       with_stats <- lift (setitem parsed stats_key (PDict stats)) ;;
       t <- timestamp ;;
       ret (dict_set with_stats (u "timestamp") t))
      (fun e =>
         if is_JSONDecodeError e then
           t <- timestamp ;;
           ret [ (raw_key, ai_response); (stats_key, PDict stats);
                 (u "timestamp", t) ]
         else raise e)
  else fallback.

(** [analyze_lead_data] *)
Definition analyze_lead_data (lead_data : DataFrame) (project_type : pystr)
  : M world dict :=
  try_except
    (data_summary <- lift (lead_summary lead_data) ;;
     dumped <- lift (json_dumps (PDict data_summary)) ;;
     let messages := lead_messages project_type dumped in
     ai_response <- _make_api_call messages project_type ;;
     interpret ai_response (u "analysis") (u "data_summary") data_summary
       (_fallback_lead_analysis lead_data data_summary))
    error_result.

(** [calculate_cpa_metrics] *)
Definition calculate_cpa_metrics (cpa_data : DataFrame) (project_type : pystr)
  : M world dict :=
  try_except
    (metrics <- lift (cpa_metrics cpa_data) ;;
     dumped <- lift (json_dumps (PDict metrics)) ;;
     let messages := cpa_messages project_type dumped in
     ai_response <- _make_api_call messages project_type ;;
     interpret ai_response (u "advanced_analysis") (u "basic_metrics") metrics
       (_fallback_cpa_analysis cpa_data metrics))
    error_result.

(** [analyze_broker_performance] *)
Definition analyze_broker_performance (broker_data : DataFrame)
    (project_type : pystr) : M world dict :=
  try_except
    (analysis <- lift (broker_analysis broker_data) ;;
     dumped <- lift (json_dumps (PDict analysis)) ;;
     let messages := broker_messages project_type dumped in
     ai_response <- _make_api_call messages project_type ;;
     interpret ai_response (u "advanced_analysis") (u "basic_analysis") analysis
       (_fallback_broker_analysis broker_data analysis))
    error_result.

End WithRuntime.

Section UnifiedReport.

Context {rt : Runtime} {pd : Pandas}.

(** The earliest and latest registration date over frames that all
    hold a [data_registrazione] column, each as [%Y-%m-%d] under
    [start] and [end]; the empty dictionary when the columns hold no
    row.  It raises on a date [pd.to_datetime] cannot read. *)
Variable date_span : list DataFrame -> result pyval.

Variable self : UnifiedAIAssistant.

(** [_get_unified_date_range] *)
Definition _get_unified_date_range (all_data : list (pystr * DataFrame))
  : result pyval :=
  match filter (fun df => has_column df (u "data_registrazione"))
               (map snd all_data) with
  | [] => Ok (PDict [])
  | dated => date_span dated
  end.

(** [sum(len(df) for df in all_data.values())] *)
Definition total_records (all_data : list (pystr * DataFrame)) : Z :=
  fold_left (fun acc df => (acc + Z.of_nat (df_len df))%Z) (map snd all_data) 0%Z.

(** [_analyze_cross_project_data] *)
Definition _analyze_cross_project_data (all_data : list (pystr * DataFrame))
  : pyval :=
  PDict [ (u "total_projects", PInt (Z.of_nat (length all_data)));
          (u "total_records", PInt (total_records all_data));
          (u "common_patterns",
           PList [PStr (u "growth_trend"); PStr (u "seasonal_variation")]) ].

(** The [unified_summary] of [generate_unified_report]. *)
Definition unified_summary (all_data : list (pystr * DataFrame)) : result dict :=
  date_range <~ _get_unified_date_range all_data ;;
  Ok [ (u "projects", PList (map (fun kv => PStr (fst kv)) all_data));
       (u "total_records", PInt (total_records all_data));
       (u "date_range", date_range);
       (u "cross_project_insights", _analyze_cross_project_data all_data) ].

Definition unified_messages (dumped : pystr) : pyval :=
  PList
    [ message (u "system")
        (join_lines
           [ u "Sei un esperto strategico che analizza progetti multipli. ";
             u "                    Genera un report unificato con insights cross-project, sinergie identificate ";
             u "                    e raccomandazioni strategiche globali. Rispondi in italiano, formato JSON strutturato." ]);
      message (u "user")
        (join_lines
           [ u "Genera report unificato per tutti i progetti:";
             u "                    ";
             u "                    " ]
         ++ dumped
         ++ join_lines
              [ [];
                u "                    ";
                u "                    Include:";
                u "                    1. Panoramica generale";
                u "                    2. Sinergie tra progetti";
                u "                    3. Insights cross-project";
                u "                    4. Raccomandazioni strategiche globali";
                u "                    5. Roadmap di sviluppo";
                u "                    ";
                u "                    Formato JSON con sezioni: executive_summary, project_synergies, cross_insights, strategic_recommendations, development_roadmap" ]) ].

(** [_fallback_unified_report] *)
Definition _fallback_unified_report (all_data : list (pystr * DataFrame))
    (summary : dict) : M world dict :=
  t <- timestamp ;;
  ret [ (u "executive_summary", PStr (u "Report unificato base completato"));
        (u "unified_summary", PDict summary);
        (u "recommendations",
         PList [ PStr (u "Integrare progetti"); PStr (u "Ottimizzare sinergie") ]);
        (u "timestamp", t) ].

(** [generate_unified_report] *)
Definition generate_unified_report (all_data : list (pystr * DataFrame))
  : M world dict :=
  try_except
    (summary <- lift (unified_summary all_data) ;;
     dumped <- lift (json_dumps (PDict summary)) ;;
     let messages := unified_messages dumped in
     ai_response <- _make_api_call self messages (u "unified") ;;
     interpret ai_response (u "unified_report") (u "unified_summary") summary
       (_fallback_unified_report all_data summary))
    error_result.

End UnifiedReport.

End AI.

(** ** [config/unified_config.py]: loading the configuration *)

Module ConfigLoad.

Import Py PyVal.
Local Open Scope py_scope.
Import AI.

(** Where configuration comes from. *)
Class Host := {
  (** [os.getenv(name)] *)
  getenv : pystr -> option pystr;
  (** [st.secrets[path]] when streamlit can be imported and has
      secrets; a lookup raises on a key the secrets do not hold, or
      when there is no secrets file. *)
  secrets : option (pystr -> result pyval);
  (** [s.lower()] *)
  str_lower : pystr -> pystr
}.

(** The loop of [_get_config] over the paths still to try. *)
Fixpoint first_secret (lookup : pystr -> result pyval) (paths : list pystr)
  : option pyval :=
  match paths with
  | [] => None
  | path :: rest =>
    match lookup path with
    | Ok value => if truthy value then Some value else first_secret lookup rest
    | Raise _ => first_secret lookup rest
    end
  end.

Definition ValueError (text : pystr) : exn := Exn (u "ValueError") text.

Section WithHost.

Context {host : Host}.

(** The paths [_get_config] tries in the secrets, in order. *)
Definition secrets_paths (env_var : pystr) : list pystr :=
  [ u "supabase." ++ str_lower env_var;
    u "ai." ++ str_lower env_var;
    u "auth." ++ str_lower env_var;
    u "app." ++ str_lower env_var;
    str_lower env_var ].

(** [_get_config(env_var, default)] *)
Definition _get_config (env_var : pystr) (default : option pystr)
  : result pyval :=
  match getenv env_var with
  | Some (c :: r) => Ok (PStr (c :: r))
  | _ =>
    match match secrets with
          | Some lookup => first_secret lookup (secrets_paths env_var)
          | None => None
          end with
    | Some value => Ok value
    | None =>
      match default with
      | Some (c :: r) => Ok (PStr (c :: r))
      | _ => Raise (ValueError (u "Configurazione " ++ env_var ++ u " non trovata"))
      end
    end
  end.

(** A [UnifiedConfig], its attributes but [base_dir]. *)
Record UnifiedConfig := Build {
  lead_supabase_url : pyval;
  lead_supabase_key : pyval;
  cpa_supabase_url : pyval;
  cpa_supabase_key : pyval;
  prop_supabase_url : pyval;
  prop_supabase_key : pyval;
  deepseek_api_key : pyval;
  deepseek_api_url : pyval;
  deepseek_model : pyval;
  ai_config : dict;
  auth_config : dict;
  admin_username : pyval;
  admin_password : pyval;
  manager_username : pyval;
  manager_password : pyval;
  viewer_username : pyval;
  viewer_password : pyval;
  app_title : pyval;
  app_icon : pyval;
  page_icon : pyval;
  theme_color : pyval;
  ui_config : dict;
  security_config : dict }.

(** The dictionary [_init_app_config] builds. *)
Definition default_ui_config : dict :=
  [ (u "sidebar_state", PStr (u "expanded"));
    (u "page_layout", PStr (u "wide"));
    (u "chart_height", PInt 400);
    (u "chart_template", PStr (u "plotly_white"));
    (u "items_per_page", PInt 20) ].

(** The dictionary [_init_security_config] builds. *)
Definition default_security_config : dict :=
  [ (u "encrypt_passwords", PBool true);
    (u "enable_rls", PBool true);
    (u "enable_audit", PBool true);
    (u "backup_enabled", PBool true);
    (u "backup_frequency", PStr (u "Daily"));
    (u "backup_retention_days", PInt 30);
    (u "log_level", PStr (u "INFO")) ].

(** [UnifiedConfig.__init__]: the settings are read in this order and
    the first that cannot be found raises. *)
Definition init : result UnifiedConfig :=
  (* _init_supabase_configs *)
  lead_url <~ _get_config (u "LEAD_SUPABASE_URL") None ;;
  lead_key <~ _get_config (u "LEAD_SUPABASE_KEY") None ;;
  cpa_url <~ _get_config (u "CPA_SUPABASE_URL") None ;;
  cpa_key <~ _get_config (u "CPA_SUPABASE_KEY") None ;;
  prop_url <~ _get_config (u "PROP_SUPABASE_URL") None ;;
  prop_key <~ _get_config (u "PROP_SUPABASE_KEY") None ;;
  (* _init_ai_config *)
  api_key <~ _get_config (u "DEEPSEEK_API_KEY") None ;;
  api_url <~ _get_config (u "DEEPSEEK_API_URL") None ;;
  model <~ _get_config (u "DEEPSEEK_MODEL") None ;;
  (* _init_auth_config *)
  admin_u <~ _get_config (u "ADMIN_USERNAME") None ;;
  admin_p <~ _get_config (u "ADMIN_PASSWORD") None ;;
  manager_u <~ _get_config (u "MANAGER_USERNAME") None ;;
  manager_p <~ _get_config (u "MANAGER_PASSWORD") None ;;
  viewer_u <~ _get_config (u "VIEWER_USERNAME") None ;;
  viewer_p <~ _get_config (u "VIEWER_PASSWORD") None ;;
  (* _init_app_config *)
  title <~ _get_config (u "APP_TITLE") (Some (u "Dashboard Unificata")) ;;
  icon <~ _get_config (u "APP_ICON") (Some (u "🎯")) ;;
  page <~ _get_config (u "PAGE_ICON") (Some (u "🎯")) ;;
  color <~ _get_config (u "THEME_COLOR") (Some (u "#2E86AB")) ;;
  Ok (Build lead_url lead_key cpa_url cpa_key prop_url prop_key
        api_key api_url model Config.ai_config Config.auth_config
        admin_u admin_p manager_u manager_p viewer_u viewer_p
        title icon page color default_ui_config default_security_config).

End WithHost.

(** [get_supabase_config] *)
Definition get_supabase_config (self : UnifiedConfig) (project_type : pystr)
  : result dict :=
  if pystr_eqb project_type (u "lead") then
    Ok [ (u "url", lead_supabase_url self); (u "key", lead_supabase_key self) ]
  else if pystr_eqb project_type (u "cpa") then
    Ok [ (u "url", cpa_supabase_url self); (u "key", cpa_supabase_key self) ]
  else if pystr_eqb project_type (u "prop") then
    Ok [ (u "url", prop_supabase_url self); (u "key", prop_supabase_key self) ]
  else Raise (ValueError (u "Tipo progetto non supportato: " ++ project_type)).

(** [get_ai_config] *)
Definition get_ai_config (self : UnifiedConfig) : dict :=
  [ (u "api_key", deepseek_api_key self);
    (u "api_url", deepseek_api_url self);
    (u "model", deepseek_model self);
    (u "config", PDict (ai_config self)) ].

(** [get_auth_config] *)
Definition get_auth_config (self : UnifiedConfig) : dict := auth_config self.

(** [is_configured] *)
Definition is_configured (self : UnifiedConfig) : bool :=
  match
    (_ <~ get_supabase_config self (u "lead") ;;
     _ <~ get_supabase_config self (u "cpa") ;;
     _ <~ get_supabase_config self (u "prop") ;;
     let _ := get_ai_config self in
     let _ := get_auth_config self in
     Ok true)
  with
  | Ok b => b
  | Raise _ => false
  end.

End ConfigLoad.

(** ** Vocabulary of the specification *)

Module Spec.

Import Py PyVal.

(** A string of lower-case hexadecimal digits. *)
Definition all_hex (s : pystr) : bool := forallb is_hex_char s.

(** [sha256(s)] as the specification writes it: the hexadecimal digest
    of the UTF-8 encoding of [s], undefined when [s] does not encode. *)
Definition sha256 (s : pystr) : option pystr :=
  option_map Sha256.hexdigest (encode s).

(** The adaptive-hash marker. *)
Definition adaptive_marker : pystr := u "$2b$".

(** The three tenants, in the order their stores are searched. *)
Inductive tenant := Lead | Cpa | PropBroker.

Definition tag (t : tenant) : pystr :=
  match t with
  | Lead => u "lead"
  | Cpa => u "cpa"
  | PropBroker => u "prop"
  end.

(** The tenants searched before [t], and [t]. *)
Definition up_to (t : tenant) : list tenant :=
  match t with
  | Lead => [Lead]
  | Cpa => [Lead; Cpa]
  | PropBroker => [Lead; Cpa; PropBroker]
  end.

(** The user records of a store that carry [username]; none when the
    store cannot be read. *)
Definition records (username : pystr) (s : Auth.store) : list dict :=
  match s with
  | Auth.Table rows => filter (Auth.has_username username) rows
  | Auth.Unavailable _ => []
  end.

(** A store whose lookup raises, read as a store without rows. *)
Definition as_empty (s : Auth.store) : Auth.store :=
  match s with
  | Auth.Table rows => Auth.Table rows
  | Auth.Unavailable _ => Auth.Table []
  end.

(** The lockout window, in microseconds. *)
Definition lockout_window : Z := 15 * 60 * 1000000.

(** The limit on consecutive failures a configuration sets. *)
Definition max_login_attempts (config : dict) : pyval :=
  dict_get config (u "max_login_attempts") (PInt 3).

(** [n] runs of a computation, one after the other. *)
Fixpoint times {S} (n : nat) (m : M S unit) : M S unit :=
  match n with
  | O => ret tt
  | S n' => bind m (fun _ => times n' m)
  end.

(** A clock that always reads [t]. *)
Definition fixed_clock (t : datetime) : clock := Clock (fun _ => t) 0.

(** The store of a tenant among the three an authentication system is
    built from. *)
Definition store_of (lead cpa prop : Auth.store) (t : tenant) : Auth.store :=
  match t with
  | Lead => lead
  | Cpa => cpa
  | PropBroker => prop
  end.

(** The first record the search finds for [username] in the stores of
    [items], with the tag of its store. *)
Fixpoint first_match (username : pystr) (items : list (pystr * Auth.store))
  : option (dict * pystr) :=
  match items with
  | [] => None
  | (p, s) :: rest =>
    match records username s with
    | row :: _ => Some (row, p)
    | [] => first_match username rest
    end
  end.

(** The stores the search queries: those up to the first that holds a
    record. *)
Fixpoint visited (username : pystr) (items : list (pystr * Auth.store))
  : list pystr :=
  match items with
  | [] => []
  | (p, s) :: rest =>
    p :: match records username s with
         | _ :: _ => []
         | [] => visited username rest
         end
  end.

(** The world after one more reading of the clock. *)
Definition tick (w : Auth.world) : Auth.world :=
  Auth.World (Auth.session w) (clock_tick (Auth.now w)) (Auth.queried w).

(** The world after the stores [ps] were queried. *)
Definition after_queries (w : Auth.world) (ps : list pystr) : Auth.world :=
  Auth.World (Auth.session w) (Auth.now w) (Auth.queried w ++ ps).

(** A session that has just been initialised, on a clock standing at
    [t]. *)
Definition fresh_at (t : datetime) : Auth.world :=
  Auth.World Auth.init_session_state (fixed_clock t) [].

(** The same world with the clock standing at [t]. *)
Definition at_time (t : datetime) (w : Auth.world) : Auth.world :=
  Auth.World (Auth.session w) (fixed_clock t) (Auth.queried w).

(** Logins one after the other: their answers, and the world they
    leave. *)
Fixpoint logins `{Runtime} (self : Auth.UnifiedAuthSystem)
    (credentials : list (pystr * pystr)) (w : Auth.world)
  : list (result (bool * pystr * dict)) * Auth.world :=
  match credentials with
  | [] => ([], w)
  | (username, password) :: rest =>
    let (r, w') := Auth.authenticate_user self username password w in
    let (rs, w'') := logins self rest w' in
    (r :: rs, w'')
  end.

(** *** The inference client *)

(** The freshness window of the cache, in microseconds. *)
Definition freshness_window : Z := 300 * 1000000.

(** The text of the first completion of a response body:
    [result['choices'][0]['message']['content']]. *)
Definition completion (body : pyval) : result pyval :=
  AI.rbind (AI.getitem body (u "choices")) (fun choices =>
  AI.rbind (AI.getitem0 choices) (fun first =>
  AI.rbind (AI.getitem first (u "message")) (fun msg =>
  AI.getitem msg (u "content")))).

(** The request [_make_api_call] posts for [messages]. *)
Definition request_for (self : AI.UnifiedAIAssistant) (messages : pyval)
  : AI.request :=
  AI.Request (AI.api_url self)
    [ (u "Authorization", PStr (u "Bearer " ++ AI.api_key self));
      (u "Content-Type", PStr (u "application/json")) ]
    [ (u "model", PStr (AI.model self));
      (u "messages", messages);
      (u "max_tokens", dict_get (AI.ai_config self) (u "max_tokens") (PInt 1500));
      (u "temperature",
       dict_get (AI.ai_config self) (u "temperature") (PFloat 0.7%float));
      (u "stream", PBool false) ]
    30.

(** The world after one more reading of the clock. *)
Definition ai_tick (w : AI.world) : AI.world :=
  AI.World (AI.cache w) (clock_tick (AI.now w)) (AI.posted w) (AI.network w).

(** The number of cells of a column that are the string [converted]. *)
Fixpoint converted_rows (cells : list pyval) : nat :=
  match cells with
  | [] => 0
  | PStr s :: rest =>
    (if pystr_eqb s (u "converted") then 1 else 0) + converted_rows rest
  | _ :: rest => converted_rows rest
  end.

(** The shape the three domain callers share: compute the local
    statistics, serialise them into the prompt, call the inference
    client and interpret its answer, all inside
    [try: ... except Exception]. *)
Definition domain_caller `{Runtime} (self : AI.UnifiedAIAssistant)
    (stats : result dict) (prompt : pystr -> pystr -> pyval)
    (raw_key stats_key : pystr) (fallback : dict -> M AI.world dict)
    (project_type : pystr) : M AI.world dict :=
  try_except
    (bind (lift stats) (fun s =>
     bind (lift (json_dumps (PDict s))) (fun dumped =>
     bind (AI._make_api_call self (prompt project_type dumped) project_type)
          (fun ai_response =>
     AI.interpret ai_response raw_key stats_key s (fallback s)))))
    AI.error_result.

(** The tenants whose stores are searched before the store of [t]. *)
Definition before (t : tenant) : list tenant :=
  match t with
  | Lead => []
  | Cpa => [Lead]
  | PropBroker => [Lead; Cpa]
  end.

(** The records of a store that match the credentials: they carry
    [username], and their hash verifies [password]. *)
Definition matching `{Runtime} (username password : pystr) (s : Auth.store)
  : list dict :=
  filter (fun row =>
            Auth.verify_password_value password
              (dict_get row (u "password_hash") (PStr [])))
         (records username s).

(** *** Sessions *)

(** A session signed in under [role], as [check_permissions] reads the
    role. *)
Definition signed_in (role : pyval) (w : Auth.world) : Prop :=
  Auth.authenticated (Auth.session w) = true
  /\ dict_get (Auth.user_info (Auth.session w)) (u "role") (PStr (u "viewer"))
     = role.

(** Whether the credentials match the first record the search finds. *)
Definition accepts `{Runtime} (self : Auth.UnifiedAuthSystem)
    (username password : pystr) : bool :=
  match first_match username (Auth.db_managers self) with
  | Some (row, _) =>
    match row with
    | [] => false
    | _ :: _ =>
      Auth.verify_password_value password
        (dict_get row (u "password_hash") (PStr []))
    end
  | None => false
  end.

(** What the holder of a session may do next. *)
Inductive action :=
| Login (username password : pystr)
| Logout
| Switch (project_type : pystr).

(** The world an action leaves. *)
Definition perform `{Runtime} (self : Auth.UnifiedAuthSystem) (a : action)
    (w : Auth.world) : Auth.world :=
  match a with
  | Login username password =>
    snd (Auth.authenticate_user self username password w)
  | Logout => snd (Auth.logout_user w)
  | Switch project_type => snd (Auth.switch_project project_type w)
  end.

(** Actions one after the other. *)
Definition run `{Runtime} (self : Auth.UnifiedAuthSystem)
    (actions : list action) (w : Auth.world) : Auth.world :=
  fold_left (fun w a => perform self a w) actions w.

(** The keys of [user_info] in a signed-in session. *)
Definition session_keys : list pystr :=
  [ u "id"; u "username"; u "email"; u "first_name"; u "last_name";
    u "role"; u "project_type"; u "login_time" ].

(** The state a session is always in. *)
Definition steady (s : Auth.session_state) : Prop :=
  In (Auth.current_project s) [u "lead"; u "cpa"; u "prop"]
  /\ (if Auth.authenticated s then map fst (Auth.user_info s) = session_keys
      else Auth.user_info s = [])
  /\ (0 <= Auth.login_attempts s)%Z
  /\ (Auth.last_login_attempt s = None <-> Auth.login_attempts s = 0%Z).

(** An exchange with the inference service that gives no completion:
    the request raised, the status is not 200, the body is no JSON or
    does not hold a first completion. *)
Definition exchange_failed (o : AI.http_outcome) : bool :=
  match o with
  | AI.HttpRaises _ => true
  | AI.HttpResponse status_code json =>
    negb (status_code =? 200)%Z
    || match AI.rbind json completion with
       | Ok _ => false
       | Raise _ => true
       end
  end.

(** The settings [UnifiedConfig.__init__] reads without a default, in
    the order it reads them. *)
Definition required_settings : list pystr :=
  [ u "LEAD_SUPABASE_URL"; u "LEAD_SUPABASE_KEY";
    u "CPA_SUPABASE_URL"; u "CPA_SUPABASE_KEY";
    u "PROP_SUPABASE_URL"; u "PROP_SUPABASE_KEY";
    u "DEEPSEEK_API_KEY"; u "DEEPSEEK_API_URL"; u "DEEPSEEK_MODEL";
    u "ADMIN_USERNAME"; u "ADMIN_PASSWORD";
    u "MANAGER_USERNAME"; u "MANAGER_PASSWORD";
    u "VIEWER_USERNAME"; u "VIEWER_PASSWORD" ].

End Spec.

(** ** Concrete systems, for evaluating the model *)

Module Fixture.

Import Py PyVal.

(** A runtime for evaluating the model on concrete inputs: the adaptive
    hash of a password is taken to be the marker followed by the
    password, no document parses, every value prints as [?]. *)
Definition toy_runtime : Runtime := {|
  bcrypt_checkpw := fun p h =>
    Ok (pystr_eqb h (u "$2b$" ++ p));
  py_repr := fun _ => u "?";
  py_hash := fun s => Z.of_nat (length s);
  str_upper := fun s => s;
  isoformat := fun t => str_of_int t;
  json_loads := fun s =>
    Raise (Exn (u "JSONDecodeError") (u "Expecting value: line 1 column 1 (char 0)"));
  json_dumps := fun v => Ok (u "{}")
|}.

(** A stand-in for pandas on concrete frames: every aggregate is the
    number of rows. *)
Definition toy_pandas : AI.Pandas := {|
  AI.series_min := fun d _ => Ok (PInt (Z.of_nat (AI.df_len d)));
  AI.series_max := fun d _ => Ok (PInt (Z.of_nat (AI.df_len d)));
  AI.series_sum := fun d _ => Ok (PInt (Z.of_nat (AI.df_len d)));
  AI.series_mean := fun d _ => Ok (PInt (Z.of_nat (AI.df_len d)));
  AI.series_nunique := fun d _ => Ok (PInt (Z.of_nat (AI.df_len d)));
  AI.value_counts := fun d _ => Ok (PDict []);
  AI.value_counts_head5 := fun d _ => Ok (PDict []);
  AI.daily_trends := fun d => Ok (PDict []);
  AI.broker_stats := fun d => Ok (PDict []);
  AI.mean_of_broker_means := fun d => Ok (PInt (Z.of_nat (AI.df_len d)))
|}.

(** A user record, its password [hunter2] stored as a salted digest. *)
Definition alice : dict :=
  [ (u "id", PInt 7);
    (u "username", PStr (u "alice"));
    (u "password_hash",
     PStr (u "00112233445566778899aabbccddeeff$121a5ed698d12ffd52054e8e38fffcf5a639a238dcdf223be8816a8701b0433d"));
    (u "first_name", PStr (u "Alice"));
    (u "last_name", PStr (u "Rossi"));
    (u "email", PStr (u "alice@example.com"));
    (u "role", PStr (u "manager")) ].

(** Another user record, its password [letmein] stored in clear. *)
Definition bob : dict :=
  [ (u "id", PInt 8);
    (u "username", PStr (u "bob"));
    (u "password_hash", PStr (u "letmein"));
    (u "first_name", PStr (u "Bob"));
    (u "role", PStr (u "viewer")) ].

(** The record of another [bob], in another tenant, whose password is
    [other]. *)
Definition other_bob : dict :=
  [ (u "id", PInt 3);
    (u "username", PStr (u "bob"));
    (u "password_hash", PStr (u "other"));
    (u "first_name", PStr (u "Roberto"));
    (u "role", PStr (u "user")) ].

Definition down : Auth.store :=
  Auth.Unavailable (Exn (u "ConnectionError") (u "connection refused")).

(** Noon of some day, in microseconds. *)
Definition noon : datetime := 1700000000000000%Z.

Definition minutes (m : Z) : Z := (m * 60 * 1000000)%Z.

(** The shipped configuration over three stores. *)
Definition system (lead cpa prop : Auth.store) : Auth.UnifiedAuthSystem :=
  Auth.new Config.auth_config lead cpa prop.

(** The shipped configuration, rewritten by someone who wants a
    one-minute lockout: every duration it holds is lowered and three
    keys that would name the window are added. *)
Definition impatient_config : dict :=
  dict_set
    (dict_set
       (dict_set
          (dict_set Config.auth_config (u "session_timeout") (PInt 60))
          (u "lockout_minutes") (PInt 1))
       (u "lockout_window") (PInt 60))
    (u "lockout_duration") (PInt 60).

(** *** The inference client *)

Definition assistant : AI.UnifiedAIAssistant :=
  AI.new (u "sk-test") (u "https://api.deepseek.com/v1/chat/completions")
    (u "deepseek-chat") Config.ai_config.

(** A response body whose first completion is [content]. *)
Definition body_with (content : pyval) : pyval :=
  PDict [ (u "choices",
           PList [ PDict [ (u "message",
                            PDict [ (u "role", PStr (u "assistant"));
                                    (u "content", content) ]) ] ]) ].

(** An inference client with an empty cache, on a clock that reads
    [times] in turn (and [0] after them), over a network that gives
    [outcomes] in turn and then fails. *)
Definition client (times : list datetime) (outcomes : list AI.http_outcome)
  : AI.world :=
  AI.World []
    (Clock (fun n => nth n times 0%Z) 0)
    []
    (fun n => nth n outcomes
                (AI.HttpRaises (Exn (u "ConnectionError") (u "unreachable")))).

(** A frame of leads: 37 converted, 63 new. *)
Definition leads : AI.DataFrame :=
  AI.Frame 100
    [ (u "nome", repeat (PStr (u "x")) 100);
      (u "stato",
       repeat (PStr (u "converted")) 37 ++ repeat (PStr (u "new")) 63) ].

(** A frame of two clients known by name only, so that every statistic
    of the financial metrics and of the broker analysis takes its
    default. *)
Definition clients : AI.DataFrame :=
  AI.Frame 2 [ (u "nome", [PStr (u "Anna"); PStr (u "Bruno")]) ].

(** A user record without a [password_hash], and one whose
    [password_hash] is null. *)
Definition carol : dict :=
  [ (u "id", PInt 9);
    (u "username", PStr (u "carol"));
    (u "role", PStr (u "admin")) ].

Definition dave : dict :=
  [ (u "id", PInt 10);
    (u "username", PStr (u "dave"));
    (u "password_hash", PNone) ].

(** A session signed in with [info], on a clock standing at noon. *)
Definition signed_in_as (info : dict) : Auth.world :=
  Auth.World (Auth.Session true info 0 None (u "lead"))
    (Spec.fixed_clock noon) [].

(** The text of a JSON string literal. *)
Definition quoted (s : pystr) : pystr := [34%N] ++ s ++ [34%N].

(** A JSON object with the fields [timestamp], [data_summary] and
    [trends], as an inference service may answer. *)
Definition document : pystr :=
  u "{" ++ quoted (u "timestamp") ++ u ": " ++ quoted (u "never") ++ u ", "
  ++ quoted (u "data_summary") ++ u ": 0, "
  ++ quoted (u "trends") ++ u ": " ++ quoted (u "up") ++ u "}".

(** The toy runtime with a parser that reads [document], [[1, 2]] and
    [null]. *)
Definition reading_runtime : Runtime := {|
  bcrypt_checkpw := bcrypt_checkpw (Runtime := toy_runtime);
  py_repr := py_repr (Runtime := toy_runtime);
  py_hash := py_hash (Runtime := toy_runtime);
  str_upper := str_upper (Runtime := toy_runtime);
  isoformat := isoformat (Runtime := toy_runtime);
  json_loads := fun s =>
    if pystr_eqb s document then
      Ok (PDict [ (u "timestamp", PStr (u "never"));
                  (u "data_summary", PInt 0);
                  (u "trends", PStr (u "up")) ])
    else if pystr_eqb s (u "[1, 2]") then Ok (PList [PInt 1; PInt 2])
    else if pystr_eqb s (u "null") then Ok PNone
    else json_loads (Runtime := toy_runtime) s;
  json_dumps := json_dumps (Runtime := toy_runtime)
|}.

(** A stand-in for pandas whose aggregates fail. *)
Definition failing_pandas : AI.Pandas :=
  let failure {A} : result A :=
    Raise (Exn (u "TypeError") (u "unsupported operand type(s)")) in
  {| AI.series_min := fun _ _ => failure;
     AI.series_max := fun _ _ => failure;
     AI.series_sum := fun _ _ => failure;
     AI.series_mean := fun _ _ => failure;
     AI.series_nunique := fun _ _ => failure;
     AI.value_counts := fun _ _ => failure;
     AI.value_counts_head5 := fun _ _ => failure;
     AI.daily_trends := fun _ => failure;
     AI.broker_stats := fun _ => failure;
     AI.mean_of_broker_means := fun _ => failure |}.

(** A frame of two leads with a registration date. *)
Definition dated_leads : AI.DataFrame :=
  AI.Frame 2
    [ (u "nome", [PStr (u "Anna"); PStr (u "Bruno")]);
      (u "data_registrazione",
       [PStr (u "2024-01-05"); PStr (u "2024-02-11")]) ].

(** The span of the dates of [dated_leads], whatever the frames. *)
Definition toy_date_span (frames : list AI.DataFrame) : result pyval :=
  Ok (PDict [ (u "start", PStr (u "2024-01-05"));
              (u "end", PStr (u "2024-02-11")) ]).

(** [s.lower()] on ASCII letters. *)
Definition ascii_lower (s : pystr) : pystr :=
  map (fun c => if ((65 <=? c) && (c <=? 90))%N then (c + 32)%N else c) s.

(** A host whose environment holds [env] and whose secrets hold
    [secret]. *)
Definition host_with (env secret : list (pystr * pystr)) : ConfigLoad.Host := {|
  ConfigLoad.getenv := dict_find env;
  ConfigLoad.secrets :=
    Some (fun path =>
            match dict_find secret path with
            | Some v => Ok (PStr v)
            | None => Raise (KeyError (path))
            end);
  ConfigLoad.str_lower := ascii_lower
|}.

(** An environment that holds every required setting, each set to its
    own name. *)
Definition full_env : list (pystr * pystr) :=
  map (fun name => (name, name)) Spec.required_settings.

(** A session that was locked at noon, on a clock that reads 12:15, one
    microsecond later, and 12:16. *)
Definition locked_at_noon : Auth.world :=
  Auth.World (Auth.Session false [] 3 (Some noon) (u "lead"))
    (Clock (fun n => nth n [ (noon + minutes 15)%Z;
                             (noon + minutes 15 + 1)%Z;
                             (noon + minutes 16)%Z ] 0%Z) 0)
    [].

(** The shipped configuration with the limit written as a string. *)
Definition string_limit_config : dict :=
  dict_set Config.auth_config (u "max_login_attempts") (PStr (u "3")).

(** A configuration object none of whose settings is set. *)
Definition blank_config : ConfigLoad.UnifiedConfig :=
  ConfigLoad.Build PNone PNone PNone PNone PNone PNone PNone PNone PNone
    [] [] PNone PNone PNone PNone PNone PNone PNone PNone PNone PNone [] [].

End Fixture.

(** * Properties *)

Import Py PyVal.

Unset Implicit Arguments.

(** ** Strings *)

Section Strings.

Lemma pystr_eqb_true (a b : pystr) : pystr_eqb a b = true <-> a = b.
Proof.
  unfold pystr_eqb. destruct (list_eq_dec N.eq_dec a b); split; congruence.
Qed.

Lemma pystr_eqb_false (a b : pystr) : pystr_eqb a b = false <-> a <> b.
Proof.
  unfold pystr_eqb. destruct (list_eq_dec N.eq_dec a b); split; congruence.
Qed.

Lemma pystr_eqb_refl (a : pystr) : pystr_eqb a a = true.
Proof. now apply pystr_eqb_true. Qed.

Lemma pystr_eqb_sym (a b : pystr) : pystr_eqb a b = pystr_eqb b a.
Proof.
  destruct (pystr_eqb b a) eqn:E.
  - apply pystr_eqb_true in E. subst. apply pystr_eqb_refl.
  - apply pystr_eqb_false in E. apply pystr_eqb_false. congruence.
Qed.

Lemma startswith_app (p r : pystr) : startswith (p ++ r) p = true.
Proof.
  induction p as [|c p IH]; simpl.
  - reflexivity.
  - now rewrite N.eqb_refl, IH.
Qed.

Lemma startswith_prefix (s p : pystr) :
  startswith s p = true -> exists r, s = p ++ r.
Proof.
  revert s. induction p as [|c p IH]; intros s H.
  - now exists s.
  - destruct s as [|d s]; simpl in H; [discriminate|].
    apply andb_true_iff in H. destruct H as [Hc Hs].
    apply N.eqb_eq in Hc. subst d.
    destruct (IH _ Hs) as [r ->]. now exists r.
Qed.

Lemma contains_In (c : N) (s : pystr) : contains c s = true <-> In c s.
Proof.
  unfold contains. rewrite existsb_exists. split.
  - intros [x [Hx E]]. apply N.eqb_eq in E. now subst.
  - intros H. exists c. split; [assumption | apply N.eqb_refl].
Qed.

Lemma contains_not_In (c : N) (s : pystr) : contains c s = false <-> ~ In c s.
Proof.
  rewrite <- contains_In. destruct (contains c s); split; congruence.
Qed.

Lemma split1_first (c : N) (a b : pystr) :
  ~ In c a -> split1 c (a ++ c :: b) = (a, b).
Proof.
  induction a as [|d a IH]; simpl; intros H.
  - now rewrite N.eqb_refl.
  - destruct (N.eqb_spec c d) as [->|_].
    + exfalso. apply H. now left.
    + rewrite IH; [reflexivity|]. intros Hin. apply H. now right.
Qed.

Lemma hex_digit_is_hex (n : N) : (n < 16)%N -> is_hex_char (hex_digit n) = true.
Proof.
  intros H. unfold hex_digit, is_hex_char.
  destruct (N.ltb_spec n 10).
  - apply orb_true_iff. left. apply andb_true_iff.
    split; apply N.leb_le; lia.
  - apply orb_true_iff. right. apply andb_true_iff.
    split; apply N.leb_le; lia.
Qed.

Lemma hex_char_not_dollar (c : N) : is_hex_char c = true -> c <> dollar.
Proof.
  unfold is_hex_char, dollar. intros H ->. vm_compute in H. discriminate.
Qed.

Lemma hex_char_ascii (c : N) : is_hex_char c = true -> (c < 0x80)%N.
Proof.
  unfold is_hex_char. intros H.
  apply orb_true_iff in H. destruct H as [H|H];
    apply andb_true_iff in H; destruct H as [_ H]; apply N.leb_le in H; lia.
Qed.

Lemma all_hex_app (a b : pystr) :
  Spec.all_hex (a ++ b) = Spec.all_hex a && Spec.all_hex b.
Proof. apply forallb_app. Qed.

Lemma all_hex_no_dollar (s : pystr) : Spec.all_hex s = true -> ~ In dollar s.
Proof.
  unfold Spec.all_hex. rewrite forallb_forall. intros H Hin.
  now apply (hex_char_not_dollar _ (H _ Hin)).
Qed.

Lemma hexlify_all_hex (bs : pybytes) : Spec.all_hex (hexlify bs) = true.
Proof.
  induction bs as [|b bs IH]; [reflexivity|].
  unfold hexlify in *. simpl. rewrite IH.
  rewrite !hex_digit_is_hex; [reflexivity| |]; apply N.mod_lt; discriminate.
Qed.

Lemma hexlify_length (bs : pybytes) : length (hexlify bs) = 2 * length bs.
Proof.
  induction bs as [|b bs IH]; [reflexivity|].
  unfold hexlify in *. simpl. rewrite IH. lia.
Qed.

Lemma encode_app (a b : pystr) :
  encode (a ++ b) =
  match encode a, encode b with
  | Some x, Some y => Some (x ++ y)
  | _, _ => None
  end.
Proof.
  induction a as [|c a IH]; simpl.
  - now destruct (encode b).
  - rewrite IH. destruct (encode_cp c), (encode a), (encode b);
      try reflexivity. now rewrite app_assoc.
Qed.

Lemma encode_ascii (s : pystr) :
  Forall (fun c => (c < 0x80)%N) s -> encode s = Some s.
Proof.
  induction 1 as [|c s Hc _ IH]; [reflexivity|].
  simpl. rewrite IH. unfold encode_cp.
  apply N.ltb_lt in Hc. now rewrite Hc.
Qed.

Lemma encode_hex (s : pystr) : Spec.all_hex s = true -> encode s = Some s.
Proof.
  intros H. apply encode_ascii. apply Forall_forall. intros c Hc.
  apply hex_char_ascii. unfold Spec.all_hex in H.
  rewrite forallb_forall in H. now apply H.
Qed.

End Strings.

(** ** SHA-256 digests *)

Section Digests.

Lemma digest_length (msg : pybytes) : length (Sha256.digest msg) = 32.
Proof. reflexivity. Qed.

Lemma hexdigest_length (msg : pybytes) : length (Sha256.hexdigest msg) = 64.
Proof. unfold Sha256.hexdigest. now rewrite hexlify_length, digest_length. Qed.

Lemma hexdigest_all_hex (msg : pybytes) :
  Spec.all_hex (Sha256.hexdigest msg) = true.
Proof. apply hexlify_all_hex. Qed.

Example round_constants :
  length Sha256.K = 64
  /\ firstn 4 Sha256.K = [0x428a2f98; 0x71374491; 0xb5c0fbcf; 0xe9b5dba5]%N
  /\ nth 63 Sha256.K 0%N = 0xc67178f2%N
  /\ Sha256.ra Sha256.H0 = 0x6a09e667%N
  /\ Sha256.rh Sha256.H0 = 0x5be0cd19%N.
Proof. vm_compute. repeat split; reflexivity. Qed.

Example sha256_empty :
  Spec.sha256 [] =
  Some (u "e3b0c44298fc1c149afbf4c8996fb92427ae41e4649b934ca495991b7852b855").
Proof. vm_compute. reflexivity. Qed.

Example sha256_abc :
  Spec.sha256 (u "abc") =
  Some (u "ba7816bf8f01cfea414140de5dae2223b00361a396177a9cb410ff61f20015ad").
Proof. vm_compute. reflexivity. Qed.

Example sha256_two_blocks :
  Sha256.hexdigest (repeat 97%N 119) =
  u "31eba51c313a5c08226adf18d4a359cfdfd8d2e816b13f4af952f7ea6584dcfb".
Proof. vm_compute. reflexivity. Qed.

Example sha256_padding_boundary :
  Sha256.hexdigest (repeat 97%N 55) =
    u "9f4390f8d30c2dd92ec9f095b65e2b9ae9b0a925a5258e241c9f1e910f734318"
  /\ Sha256.hexdigest (repeat 97%N 56) =
    u "b35439a4ac6f0948b6d6f9e3c6af0f5f590ce20f1bde7090ef7970686ec6738a".
Proof. split; vm_compute; reflexivity. Qed.

Example sha256_non_ascii :
  length (u "pàss€𝄞") = 6
  /\ Spec.sha256 (u "pàss€𝄞") =
     Some (u "e5f99a8e5c7ab3ebeea42e5a838a7b4c10a4581ce278020c85bc7cce5b3bc4cb").
Proof. split; vm_compute; reflexivity. Qed.

End Digests.

(** ** Password verification *)

Section VerifyPassword.

Context {rt : Runtime}.

Import Auth.

Lemma encode_or_raise_Ok (s : pystr) (b : pybytes) :
  encode_or_raise s = Ok b <-> encode s = Some b.
Proof.
  unfold encode_or_raise. destruct (encode s); split; congruence.
Qed.

Lemma marker_excluded_by_hex (c : N) (s : pystr) :
  is_hex_char c = true -> startswith (c :: s) Spec.adaptive_marker = false.
Proof.
  intros H. change Spec.adaptive_marker with [36; 50; 98; 36]%N.
  cbn [startswith]. destruct (N.eqb_spec 36 c) as [<-|_]; [|reflexivity].
  vm_compute in H. discriminate.
Qed.

(** The salted branch, once the two rules before it have failed. *)
Lemma verify_salted (password salt digest : pystr) :
  let stored_hash := salt ++ dollar :: digest in
  startswith stored_hash Spec.adaptive_marker = false ->
  stored_hash <> password ->
  ~ In dollar salt ->
  50 < length stored_hash ->
  verify_password password stored_hash =
  match Spec.sha256 (password ++ salt) with
  | Some d => pystr_eqb d digest
  | None => false
  end.
Proof.
  intros stored_hash Hm Hne Hsalt Hlen.
  unfold verify_password, verify_password_body.
  change (u "$2b$") with Spec.adaptive_marker. rewrite Hm.
  apply pystr_eqb_false in Hne. rewrite Hne.
  assert (Hc : contains dollar stored_hash = true).
  { apply contains_In. apply in_or_app. right. now left. }
  rewrite Hc. apply Nat.ltb_lt in Hlen. rewrite Hlen. cbn [andb].
  unfold stored_hash. rewrite (split1_first _ _ _ Hsalt).
  unfold Spec.sha256, encode_or_raise.
  now destruct (encode (password ++ salt)).
Qed.

(** C1.  [verify_password] tries the encodings in a fixed order, and the
    first rule a stored value satisfies decides: (a) a value that starts
    with [$2b$] is checked by bcrypt alone; (b) otherwise a value equal
    to the password is accepted; (c) otherwise a value [salt$digest]
    longer than 50 characters is accepted exactly when the SHA-256 of
    password followed by salt is [digest]; (d) otherwise a value of
    length 64 is accepted exactly when it is the SHA-256 of the
    password; (e) otherwise the answer is whether password and value are
    equal.  In particular a 64-digit hexadecimal value that is neither
    the password nor its SHA-256 is rejected, by rule (d). *)
Theorem verify_password_precedence (password stored_hash : pystr) :
  (* (a) *)
  (startswith stored_hash Spec.adaptive_marker = true ->
   (verify_password password stored_hash = true <->
    exists p h, encode password = Some p /\ encode stored_hash = Some h
                /\ bcrypt_checkpw p h = Ok true))
  /\ (* (b) *)
  (startswith stored_hash Spec.adaptive_marker = false ->
   stored_hash = password ->
   verify_password password stored_hash = true)
  /\ (* (c) *)
  (forall salt digest,
   startswith stored_hash Spec.adaptive_marker = false ->
   stored_hash <> password ->
   stored_hash = salt ++ [dollar] ++ digest -> ~ In dollar salt ->
   50 < length stored_hash ->
   (verify_password password stored_hash = true <->
    Spec.sha256 (password ++ salt) = Some digest))
  /\ (* (d) *)
  (startswith stored_hash Spec.adaptive_marker = false ->
   stored_hash <> password ->
   ~ (In dollar stored_hash /\ 50 < length stored_hash) ->
   length stored_hash = 64 ->
   (verify_password password stored_hash = true <->
    Spec.sha256 password = Some stored_hash))
  /\ (* (e) *)
  (startswith stored_hash Spec.adaptive_marker = false ->
   stored_hash <> password ->
   ~ (In dollar stored_hash /\ 50 < length stored_hash) ->
   length stored_hash <> 64 ->
   verify_password password stored_hash = pystr_eqb password stored_hash)
  /\ (* the ambiguous 64-digit value *)
  (length stored_hash = 64 -> Spec.all_hex stored_hash = true ->
   stored_hash <> password ->
   Spec.sha256 password <> Some stored_hash ->
   verify_password password stored_hash = false
   /\ pystr_eqb password stored_hash = false).
Proof.
  assert (Hd : forall s, startswith s Spec.adaptive_marker = false ->
                 s <> password ->
                 ~ (In dollar s /\ 50 < length s) ->
                 verify_password_body password s =
                 if (length s =? 64)%nat then
                   match encode_or_raise password with
                   | Raise e => Raise e
                   | Ok b => Ok (pystr_eqb (Sha256.hexdigest b) s)
                   end
                 else Ok (pystr_eqb password s)).
  { intros s Hm Hne Hc. unfold verify_password_body.
    change (u "$2b$") with Spec.adaptive_marker. rewrite Hm.
    apply pystr_eqb_false in Hne. rewrite Hne.
    destruct (contains dollar s) eqn:Ec; [|reflexivity].
    destruct (Nat.ltb_spec 50 (length s)) as [Hl|Hl]; [|reflexivity].
    exfalso. apply Hc. split; [now apply contains_In | assumption]. }
  assert (Hd64 : forall s, startswith s Spec.adaptive_marker = false ->
                 s <> password ->
                 ~ (In dollar s /\ 50 < length s) ->
                 length s = 64 ->
                 (verify_password password s = true <->
                  Spec.sha256 password = Some s)).
  { intros s Hm Hne Hc Hl. unfold verify_password.
    rewrite (Hd s Hm Hne Hc), Hl. cbn [Nat.eqb].
    unfold Spec.sha256, encode_or_raise.
    destruct (encode password) as [b|]; cbn [option_map].
    - rewrite pystr_eqb_true. split; congruence.
    - split; discriminate. }
  repeat split.
  - (* (a), left to right *)
    unfold verify_password, verify_password_body.
    change (u "$2b$") with Spec.adaptive_marker. rewrite H.
    unfold encode_or_raise.
    destruct (encode password) as [p|]; [|discriminate].
    destruct (encode stored_hash) as [h|]; [|discriminate].
    destruct (bcrypt_checkpw p h) as [[|]|] eqn:E; try discriminate.
    intros _. now exists p, h.
  - (* (a), right to left *)
    intros (p & h & Hp & Hh & Hb).
    unfold verify_password, verify_password_body.
    change (u "$2b$") with Spec.adaptive_marker. rewrite H.
    unfold encode_or_raise. now rewrite Hp, Hh, Hb.
  - (* (b) *)
    intros Hm ->. unfold verify_password, verify_password_body.
    change (u "$2b$") with Spec.adaptive_marker.
    now rewrite Hm, pystr_eqb_refl.
  - (* (c), left to right *)
    subst stored_hash. cbn [app] in *.
    rewrite (verify_salted password salt digest H H0 H2 H3).
    destruct (Spec.sha256 (password ++ salt)); [|discriminate].
    intros E. apply pystr_eqb_true in E. now subst.
  - (* (c), right to left *)
    subst stored_hash. cbn [app] in *. intros Hs.
    rewrite (verify_salted password salt digest H H0 H2 H3), Hs.
    apply pystr_eqb_refl.
  - now apply Hd64.
  - now apply Hd64.
  - (* (e) *)
    intros Hm Hne Hc Hl. unfold verify_password.
    rewrite (Hd _ Hm Hne Hc). apply Nat.eqb_neq in Hl. now rewrite Hl.
  - (* the ambiguous value is decided by (d) *)
    destruct stored_hash as [|c r]; [discriminate|].
    assert (Hm : startswith (c :: r) Spec.adaptive_marker = false).
    { apply marker_excluded_by_hex. cbn in H0.
      now apply andb_true_iff in H0. }
    assert (Hc : ~ (In dollar (c :: r) /\ 50 < length (c :: r))).
    { intros [Hin _]. now apply (all_hex_no_dollar _ H0). }
    destruct (verify_password password (c :: r)) eqn:E; [|reflexivity].
    exfalso. apply H2. now apply (Hd64 _ Hm H1 Hc H).
  - apply pystr_eqb_false. congruence.
Qed.

End VerifyPassword.

Section VerifyPasswordExamples.

Import Auth.

Local Abbreviation verify := (@verify_password Fixture.toy_runtime).

(** The rules of [verify_password_precedence] on concrete values: a
    bcrypt value, the plaintext escape, a salted digest, a bare digest,
    a short value, and the 64-digit value [deadbeef...] tried with the
    password [wrong]. *)
Lemma verify_password_precedence_witness :
  verify (u "secret") (u "$2b$secret") = true
  /\ verify (u "admin123") (u "admin123") = true
  /\ verify (u "hunter2")
       (u "00112233445566778899aabbccddeeff$121a5ed698d12ffd52054e8e38fffcf5a639a238dcdf223be8816a8701b0433d")
     = true
  /\ verify (u "abc")
       (u "ba7816bf8f01cfea414140de5dae2223b00361a396177a9cb410ff61f20015ad")
     = true
  /\ verify (u "a") (u "b") = false
  /\ verify (u "wrong")
       (u "deadbeefdeadbeefdeadbeefdeadbeefdeadbeefdeadbeefdeadbeefdeadbeef")
     = false.
Proof.
  refine (conj _ (conj _ (conj _ (conj _ (conj _ _))))).
  - destruct (verify_password_precedence (rt := Fixture.toy_runtime)
                (u "secret") (u "$2b$secret")) as (Ha & _).
    apply Ha; [vm_compute; reflexivity|].
    exists (u "secret"), (u "$2b$secret").
    refine (conj _ (conj _ _)); vm_compute; reflexivity.
  - destruct (verify_password_precedence (rt := Fixture.toy_runtime)
                (u "admin123") (u "admin123")) as (_ & Hb & _).
    apply Hb; vm_compute; reflexivity.
  - destruct (verify_password_precedence (rt := Fixture.toy_runtime)
      (u "hunter2")
      (u "00112233445566778899aabbccddeeff$121a5ed698d12ffd52054e8e38fffcf5a639a238dcdf223be8816a8701b0433d"))
      as (_ & _ & Hc & _).
    apply (Hc (u "00112233445566778899aabbccddeeff")
              (u "121a5ed698d12ffd52054e8e38fffcf5a639a238dcdf223be8816a8701b0433d")).
    + vm_compute; reflexivity.
    + vm_compute. discriminate.
    + vm_compute; reflexivity.
    + apply all_hex_no_dollar. vm_compute; reflexivity.
    + vm_compute. lia.
    + vm_compute; reflexivity.
  - destruct (verify_password_precedence (rt := Fixture.toy_runtime)
      (u "abc")
      (u "ba7816bf8f01cfea414140de5dae2223b00361a396177a9cb410ff61f20015ad"))
      as (_ & _ & _ & Hd & _).
    apply Hd.
    + vm_compute; reflexivity.
    + vm_compute. discriminate.
    + intros [Hin _]. revert Hin. apply all_hex_no_dollar. vm_compute; reflexivity.
    + vm_compute; reflexivity.
    + vm_compute; reflexivity.
  - destruct (verify_password_precedence (rt := Fixture.toy_runtime)
                (u "a") (u "b")) as (_ & _ & _ & _ & He & _).
    rewrite He.
    + vm_compute; reflexivity.
    + vm_compute; reflexivity.
    + vm_compute. discriminate.
    + vm_compute. intros [_ H]. lia.
    + vm_compute. discriminate.
  - destruct (verify_password_precedence (rt := Fixture.toy_runtime)
      (u "wrong")
      (u "deadbeefdeadbeefdeadbeefdeadbeefdeadbeefdeadbeefdeadbeefdeadbeef"))
      as (_ & _ & _ & _ & _ & Hf).
    apply Hf.
    + vm_compute; reflexivity.
    + vm_compute; reflexivity.
    + vm_compute. discriminate.
    + vm_compute. discriminate.
Defined.

End VerifyPasswordExamples.

(** ** Hashing, then verifying *)

Section HashRoundTrip.

Context {rt : Runtime}.

Import Auth.

Lemma token_hex_first (octets : pybytes) :
  octets <> [] ->
  exists c r, token_hex octets = c :: r /\ is_hex_char c = true.
Proof.
  destruct octets as [|b bs]; [congruence|]. intros _.
  unfold token_hex, hexlify. cbn [flat_map hex_byte app].
  eexists _, _. split; [reflexivity|].
  apply hex_digit_is_hex. apply N.mod_lt. discriminate.
Qed.

(** C10.  With the 16 octets [token_hex] draws, [hash_password] gives a
    value for every password that encodes (and only fails on one that
    does not), and [verify_password] accepts the password against that
    value.  The value is the 32-digit salt, a dollar sign and the
    64-digit SHA-256 of password followed by salt, 97 characters in
    all; it does not start with the bcrypt marker, holds a dollar sign
    and is longer than 50, so that it is decided by the plaintext rule
    or by the salted rule. *)
Theorem hash_password_round_trip (octets : pybytes) (password : pystr) :
  length octets = 16 ->
  match hash_password octets password with
  | Ok stored =>
    verify_password password stored = true
    /\ length stored = 97
    /\ startswith stored Spec.adaptive_marker = false
    /\ contains dollar stored = true
    /\ exists digest,
         stored = token_hex octets ++ [dollar] ++ digest
         /\ length (token_hex octets) = 32
         /\ Spec.all_hex (token_hex octets) = true
         /\ length digest = 64
         /\ Spec.all_hex digest = true
         /\ Spec.sha256 (password ++ token_hex octets) = Some digest
  | Raise _ => encode password = None
  end.
Proof.
  intros Hlen. unfold hash_password.
  assert (Hsalt : Spec.all_hex (token_hex octets) = true)
    by apply hexlify_all_hex.
  assert (Hsl : length (token_hex octets) = 32).
  { unfold token_hex. rewrite hexlify_length, Hlen. reflexivity. }
  assert (Henc : encode (password ++ token_hex octets) =
                 match encode password with
                 | Some x => Some (x ++ token_hex octets)
                 | None => None
                 end).
  { rewrite encode_app, (encode_hex _ Hsalt). reflexivity. }
  unfold encode_or_raise. rewrite Henc.
  destruct (encode password) as [pb|] eqn:Ep; [|reflexivity].
  set (digest := Sha256.hexdigest (pb ++ token_hex octets)).
  set (stored := token_hex octets ++ [dollar] ++ digest).
  assert (Hl : length stored = 97).
  { unfold stored. rewrite !length_app, Hsl. unfold digest.
    rewrite hexdigest_length. reflexivity. }
  assert (Hm : startswith stored Spec.adaptive_marker = false).
  { destruct (token_hex_first octets) as (c & r & E & Hc).
    - intros ->. discriminate.
    - unfold stored. rewrite E. cbn [app].
      now apply marker_excluded_by_hex. }
  assert (Hs : Spec.sha256 (password ++ token_hex octets) = Some digest).
  { unfold Spec.sha256. rewrite Henc. reflexivity. }
  refine (conj _ (conj Hl (conj Hm (conj _ _)))).
  - destruct (list_eq_dec N.eq_dec stored password) as [E|Hne].
    + (* the degenerate case: the value is the password itself *)
      unfold verify_password, verify_password_body.
      change (u "$2b$") with Spec.adaptive_marker. rewrite Hm.
      apply pystr_eqb_true in E. now rewrite E.
    + unfold stored in *. cbn [app] in *.
      rewrite verify_salted; try assumption.
      * rewrite Hs. apply pystr_eqb_refl.
      * now apply all_hex_no_dollar.
      * rewrite Hl. lia.
  - apply contains_In. unfold stored. apply in_or_app. right. now left.
  - exists digest. unfold digest at 2 3.
    rewrite hexdigest_length, hexdigest_all_hex. tauto.
Qed.

End HashRoundTrip.

Section HashRoundTripExample.

Import Auth.

(** [hash_password_round_trip] for the password [hunter2] and the octets
    [00 11 22 ... ff]. *)
Lemma hash_password_round_trip_witness :
  match
    hash_password
      [0x00; 0x11; 0x22; 0x33; 0x44; 0x55; 0x66; 0x77;
       0x88; 0x99; 0xaa; 0xbb; 0xcc; 0xdd; 0xee; 0xff]%N (u "hunter2")
  with
  | Ok stored =>
    stored = u "00112233445566778899aabbccddeeff$121a5ed698d12ffd52054e8e38fffcf5a639a238dcdf223be8816a8701b0433d"
    /\ @verify_password Fixture.toy_runtime (u "hunter2") stored = true
  | Raise _ => False
  end.
Proof.
  pose proof (@hash_password_round_trip Fixture.toy_runtime
                [0x00; 0x11; 0x22; 0x33; 0x44; 0x55; 0x66; 0x77;
                 0x88; 0x99; 0xaa; 0xbb; 0xcc; 0xdd; 0xee; 0xff]%N
                (u "hunter2") eq_refl) as H.
  destruct (hash_password _ _) as [stored|e] eqn:E.
  - split; [|exact (proj1 H)].
    vm_compute in E. injection E as <-. vm_compute. reflexivity.
  - vm_compute in E. discriminate.
Defined.

End HashRoundTripExample.

(** ** The rate limiter *)

Section RateLimit.

Context {rt : Runtime}.

Import Auth.

(** What [check_rate_limit] computes when the configured limit is the
    integer [N]. *)
Lemma check_rate_limit_eval (self : UnifiedAuthSystem) (N : Z) (w : world) :
  Spec.max_login_attempts (auth_config self) = PInt N ->
  check_rate_limit self w =
  if (N <=? login_attempts (session w))%Z then
    match last_login_attempt (session w) with
    | Some t =>
      (Ok (negb (clock_now (now w) - t <? Spec.lockout_window)%Z), Spec.tick w)
    | None => (Ok true, w)
    end
  else (Ok true, w).
Proof.
  intros Hcfg. unfold check_rate_limit.
  unfold Spec.max_login_attempts in Hcfg. rewrite Hcfg.
  unfold bind, gets, lift, int_ge, ret.
  destruct (N <=? login_attempts (session w))%Z; [|reflexivity].
  destruct (last_login_attempt (session w)) as [t|]; [|reflexivity].
  unfold datetime_now.
  change (timedelta_minutes 15) with Spec.lockout_window.
  now destruct (clock_now (now w) - t <? Spec.lockout_window)%Z.
Qed.

Lemma increment_eval (w : world) :
  _increment_login_attempts w =
  (Ok tt,
   World (Session (authenticated (session w)) (user_info (session w))
                  (login_attempts (session w) + 1)
                  (Some (clock_now (now w)))
                  (current_project (session w)))
         (clock_tick (now w)) (queried w)).
Proof. reflexivity. Qed.

(** A denied call: the lockout message, no store queried, nothing
    recorded. *)
Lemma authenticate_denied (self : UnifiedAuthSystem) (username password : pystr)
    (w w' : world) :
  check_rate_limit self w = (Ok false, w') ->
  authenticate_user self username password w = (Ok (false, msg_locked, []), w').
Proof.
  intros H. unfold authenticate_user, try_except, bind. now rewrite H.
Qed.

Lemma check_rate_limit_frame (self : UnifiedAuthSystem) (w w' : world)
    (r : result bool) :
  check_rate_limit self w = (r, w') ->
  session w' = session w /\ queried w' = queried w.
Proof.
  unfold check_rate_limit, bind, gets, lift, ret, datetime_now.
  destruct (int_ge _ _) as [[|]|e]; try (intros [= <- <-]; now split).
  destruct (last_login_attempt (session w)) as [t|];
    [|intros [= <- <-]; now split].
  destruct (_ <? _)%Z; intros [= <- <-]; now split.
Qed.

Lemma check_rate_limit_readings (self : UnifiedAuthSystem) (w w' : world)
    (r : result bool) :
  check_rate_limit self w = (r, w') ->
  readings (now w') = readings (now w).
Proof.
  unfold check_rate_limit, bind, gets, lift, ret, datetime_now.
  destruct (int_ge _ _) as [[|]|e]; try (intros [= <- <-]; reflexivity).
  destruct (last_login_attempt (session w)) as [t|];
    [|intros [= <- <-]; reflexivity].
  destruct (_ <? _)%Z; intros [= <- <-]; reflexivity.
Qed.

(** The limiter as a function of the failures recorded: with the limit
    [N] and [k >= 1] failures recorded, the last at time [t], it allows
    while [k < N]; from [k = N] on it denies as long as less than 15
    minutes separate the clock from [t], and allows again from the
    instant the 15 minutes are reached.  Whenever it denies,
    [authenticate_user] answers with the lockout message and an empty
    record, queries no store and leaves the session as it was. *)
Lemma check_rate_limit_by_count (self : UnifiedAuthSystem) (N k : Z)
    (t : datetime) (w : world) :
  Spec.max_login_attempts (auth_config self) = PInt N ->
  (1 <= k)%Z ->
  login_attempts (session w) = k ->
  last_login_attempt (session w) = Some t ->
  (* attempts 1 .. N-1 *)
  ((k < N)%Z -> fst (check_rate_limit self w) = Ok true)
  /\ (* attempt N and after, inside the window *)
  ((N <= k)%Z -> (clock_now (now w) - t < 15 * 60 * 1000000)%Z ->
   fst (check_rate_limit self w) = Ok false)
  /\ (* on a clock that stands still *)
  ((N <= k)%Z -> clock_now (now w) = t ->
   fst (check_rate_limit self w) = Ok false)
  /\ (* once the window has elapsed *)
  ((N <= k)%Z -> (clock_now (now w) - t >= 15 * 60 * 1000000)%Z ->
   fst (check_rate_limit self w) = Ok true)
  /\ (* a denied call *)
  (forall username password,
   fst (check_rate_limit self w) = Ok false ->
   fst (authenticate_user self username password w)
     = Ok (false, msg_locked, [])
   /\ queried (snd (authenticate_user self username password w)) = queried w
   /\ session (snd (authenticate_user self username password w)) = session w).
Proof.
  intros Hcfg Hk Hat Hlast.
  rewrite (check_rate_limit_eval self N w Hcfg), Hat, Hlast.
  change Spec.lockout_window with (15 * 60 * 1000000)%Z.
  refine (conj _ (conj _ (conj _ (conj _ _)))).
  - intros H. apply Z.leb_gt in H. now rewrite H.
  - intros H Hw. apply Z.leb_le in H. rewrite H.
    apply Z.ltb_lt in Hw. cbn [fst]. now rewrite Hw.
  - intros H Hw. apply Z.leb_le in H. rewrite H. cbn [fst].
    rewrite Hw, Z.sub_diag. reflexivity.
  - intros H Hw. apply Z.leb_le in H. rewrite H. cbn [fst].
    apply Z.ge_le, Z.ltb_ge in Hw. now rewrite Hw.
  - intros username password Hdeny.
    destruct (check_rate_limit self w) as [r w'] eqn:E.
    rewrite (check_rate_limit_eval self N w Hcfg), Hat, Hlast in E.
    change Spec.lockout_window with (15 * 60 * 1000000)%Z in E.
    rewrite E in Hdeny. cbn [fst] in Hdeny. subst r.
    assert (E' : check_rate_limit self w = (Ok false, w')).
    { rewrite (check_rate_limit_eval self N w Hcfg), Hat, Hlast. exact E. }
    rewrite (authenticate_denied self username password w w' E').
    cbn [fst snd].
    destruct (check_rate_limit_frame self w w' _ E') as [Hs Hq].
    now rewrite Hs, Hq.
Qed.

End RateLimit.

(** ** Authentication *)

Section Authenticate.

Context {rt : Runtime}.

Import Auth.

Lemma has_username_nonempty (username : pystr) (row : dict) :
  has_username username row = true -> row <> [].
Proof. intros H ->. discriminate. Qed.

Lemma records_nonempty (username : pystr) (s : store) (row : dict)
    (rest : list dict) :
  Spec.records username s = row :: rest -> row <> [].
Proof.
  destruct s as [rows|e]; [|discriminate]. cbn [Spec.records]. intros H.
  assert (Hin : In row (filter (has_username username) rows))
    by (rewrite H; now left).
  apply filter_In in Hin. now apply (has_username_nonempty username).
Qed.

(** The loop over the stores: it returns the first record found and
    has queried the stores up to that one, whether a store answered
    with no row or raised. *)
Lemma search_users_eval (username : pystr) (items : list (pystr * store))
    (w : world) :
  search_users username items w =
  (Ok (Spec.first_match username items),
   Spec.after_queries w (Spec.visited username items)).
Proof.
  revert w. induction items as [|[p s] rest IH]; intros w.
  - unfold Spec.after_queries. cbn. rewrite app_nil_r. now destruct w.
  - cbn [search_users Spec.first_match Spec.visited].
    unfold bind at 1. unfold try_except, select_users, bind, modify, raise, ret.
    destruct s as [rows|e]; cbn [Spec.records].
    + destruct (filter (has_username username) rows) as [|row more].
      * rewrite IH. unfold Spec.after_queries. cbn.
        now rewrite <- app_assoc.
      * reflexivity.
    + rewrite IH. unfold Spec.after_queries. cbn.
      now rewrite <- app_assoc.
Qed.

(** A call the limiter lets through. *)
Lemma authenticate_allowed (self : UnifiedAuthSystem)
    (username password : pystr) (w w1 : world) :
  check_rate_limit self w = (Ok true, w1) ->
  authenticate_user self username password w =
  let w2 := Spec.after_queries w1 (Spec.visited username (db_managers self)) in
  match Spec.first_match username (db_managers self) with
  | None | Some ([], _) =>
    (Ok (false, msg_not_found, []), snd (_increment_login_attempts w2))
  | Some (user_data, project_found) =>
    if verify_password_value password
         (dict_get user_data (u "password_hash") (PStr []))
    then (Ok (true,
              msg_welcome (dict_get user_data (u "first_name") (PStr username)),
              user_data),
          snd (_set_user_session user_data project_found
                 (snd (_reset_login_attempts w2))))
    else (Ok (false, msg_wrong_password, []),
          snd (_increment_login_attempts w2))
  end.
Proof.
  intros H. unfold authenticate_user, try_except.
  unfold bind at 1. rewrite H. cbn [negb].
  unfold bind at 1. rewrite search_users_eval.
  destruct (Spec.first_match username (db_managers self))
    as [[[|kv user_data] project_found]|]; try reflexivity.
  cbn zeta.
  now destruct (verify_password_value password _).
Qed.

Lemma first_match_of_tenant (username : pystr) (lead cpa prop : store)
    (t : Spec.tenant) (user_data : dict) (others : list dict) :
  Spec.records username (Spec.store_of lead cpa prop t) = user_data :: others ->
  (forall t', t' <> t ->
              Spec.records username (Spec.store_of lead cpa prop t') = []) ->
  let items := [(u "lead", lead); (u "cpa", cpa); (u "prop", prop)] in
  Spec.first_match username items = Some (user_data, Spec.tag t)
  /\ Spec.visited username items = map Spec.tag (Spec.up_to t).
Proof.
  intros Hin Hout items. unfold items. cbn [Spec.first_match Spec.visited].
  destruct t; cbn [Spec.store_of] in Hin.
  - now rewrite Hin.
  - pose proof (Hout Spec.Lead ltac:(discriminate)) as Hl.
    cbn [Spec.store_of] in Hl. now rewrite Hl, Hin.
  - pose proof (Hout Spec.Lead ltac:(discriminate)) as Hl.
    pose proof (Hout Spec.Cpa ltac:(discriminate)) as Hc.
    cbn [Spec.store_of] in Hl, Hc. now rewrite Hl, Hc, Hin.
Qed.

Lemma first_match_nowhere (username : pystr) (lead cpa prop : store) :
  (forall t, Spec.records username (Spec.store_of lead cpa prop t) = []) ->
  let items := [(u "lead", lead); (u "cpa", cpa); (u "prop", prop)] in
  Spec.first_match username items = None
  /\ Spec.visited username items = [u "lead"; u "cpa"; u "prop"].
Proof.
  intros H items. unfold items. cbn [Spec.first_match Spec.visited].
  pose proof (H Spec.Lead) as Hl. pose proof (H Spec.Cpa) as Hc.
  pose proof (H Spec.PropBroker) as Hp. cbn [Spec.store_of] in Hl, Hc, Hp.
  rewrite Hl, Hc, Hp. now split.
Qed.

(** A call the limiter lets through, for a user one tenant holds. *)
Lemma authenticate_found (config : dict) (lead cpa prop : store)
    (username password : pystr) (w w1 : world)
    (t : Spec.tenant) (user_data : dict) (others : list dict) :
  let self := new config lead cpa prop in
  check_rate_limit self w = (Ok true, w1) ->
  Spec.records username (Spec.store_of lead cpa prop t) = user_data :: others ->
  (forall t', t' <> t ->
              Spec.records username (Spec.store_of lead cpa prop t') = []) ->
  verify_password_value password
    (dict_get user_data (u "password_hash") (PStr [])) = true ->
  let out := authenticate_user self username password w in
  fst out = Ok (true,
                msg_welcome (dict_get user_data (u "first_name") (PStr username)),
                user_data)
  /\ queried (snd out) = queried w ++ map Spec.tag (Spec.up_to t)
  /\ login_attempts (session (snd out)) = 0%Z
  /\ last_login_attempt (session (snd out)) = None
  /\ authenticated (session (snd out)) = true
  /\ current_project (session (snd out)) = Spec.tag t
  /\ dict_find (user_info (session (snd out))) (u "project_type")
     = Some (PStr (Spec.tag t))
  /\ dict_find (user_info (session (snd out))) (u "username")
     = Some (PStr username).
Proof.
  intros self Hallow Hin Hout Hpw out. unfold out.
  destruct (check_rate_limit_frame self w w1 _ Hallow) as [Hs Hq].
  rewrite (authenticate_allowed self username password w w1 Hallow).
  destruct (first_match_of_tenant username lead cpa prop t user_data others
              Hin Hout) as [Hfm Hv].
  cbn zeta in Hfm, Hv. cbn zeta.
  change (db_managers self)
    with [(u "lead", lead); (u "cpa", cpa); (u "prop", prop)].
  rewrite Hfm, Hv, Hpw.
  pose proof (records_nonempty _ _ _ _ Hin) as Hne.
  destruct user_data as [|kv user_data]; [congruence|].
  cbn [fst snd]. unfold Spec.after_queries.
  unfold _set_user_session, _reset_login_attempts, set_session, modify,
    bind, datetime_now. cbn [fst snd session queried now].
  rewrite Hq. cbn [login_attempts last_login_attempt authenticated
                   current_project user_info].
  repeat (split; [reflexivity|]).
  (* the record's username is the one asked for *)
  assert (Hu : has_username username (kv :: user_data) = true).
  { destruct (Spec.store_of lead cpa prop t) as [rows|e]; [|discriminate].
    cbn [Spec.records] in Hin.
    assert (Hi : In (kv :: user_data) (filter (has_username username) rows))
      by (rewrite Hin; now left).
    now apply filter_In in Hi. }
  unfold has_username in Hu.
  destruct (dict_find (kv :: user_data) (u "username")) as [[]|] eqn:E;
    try discriminate.
  apply pystr_eqb_true in Hu. subst.
  change (dict_find _ (u "username")) with
    (Some (dict_get (kv :: user_data) (u "username") PNone)).
  unfold dict_get. now rewrite E.
Qed.

(** A call the limiter lets through, for a user no store has a record
    of (a store that raises has none). *)
Lemma authenticate_not_found (config : dict) (lead cpa prop : store)
    (username password : pystr) (w w1 : world) :
  let self := new config lead cpa prop in
  check_rate_limit self w = (Ok true, w1) ->
  (forall t, Spec.records username (Spec.store_of lead cpa prop t) = []) ->
  let out := authenticate_user self username password w in
  fst out = Ok (false, msg_not_found, [])
  /\ queried (snd out) = queried w ++ [u "lead"; u "cpa"; u "prop"]
  /\ login_attempts (session (snd out)) = (login_attempts (session w) + 1)%Z
  /\ last_login_attempt (session (snd out)) = Some (clock_now (now w1))
  /\ authenticated (session (snd out)) = authenticated (session w).
Proof.
  intros self Hallow Hnone out. unfold out.
  destruct (check_rate_limit_frame self w w1 _ Hallow) as [Hs Hq].
  rewrite (authenticate_allowed self username password w w1 Hallow).
  destruct (first_match_nowhere username lead cpa prop Hnone) as [Hfm Hv].
  cbn zeta in Hfm, Hv. cbn zeta.
  change (db_managers self)
    with [(u "lead", lead); (u "cpa", cpa); (u "prop", prop)].
  rewrite Hfm, Hv, increment_eval. cbn. rewrite Hs, Hq. tauto.
Qed.

Lemma first_match_first_tenant (username : pystr) (lead cpa prop : store)
    (t : Spec.tenant) (user_data : dict) (others : list dict) :
  Spec.records username (Spec.store_of lead cpa prop t) = user_data :: others ->
  (forall t', In t' (Spec.before t) ->
              Spec.records username (Spec.store_of lead cpa prop t') = []) ->
  let items := [(u "lead", lead); (u "cpa", cpa); (u "prop", prop)] in
  Spec.first_match username items = Some (user_data, Spec.tag t)
  /\ Spec.visited username items = map Spec.tag (Spec.up_to t).
Proof.
  intros Hin Hout items. unfold items. cbn [Spec.first_match Spec.visited].
  destruct t; cbn [Spec.store_of Spec.before] in Hin, Hout.
  - now rewrite Hin.
  - pose proof (Hout Spec.Lead ltac:(now left)) as Hl.
    cbn [Spec.store_of] in Hl. now rewrite Hl, Hin.
  - pose proof (Hout Spec.Lead ltac:(now left)) as Hl.
    pose proof (Hout Spec.Cpa ltac:(right; now left)) as Hc.
    cbn [Spec.store_of] in Hl, Hc. now rewrite Hl, Hc, Hin.
Qed.

(** A record a store gives for a user name carries that name. *)
Lemma records_username (username : pystr) (s : store) (row : dict)
    (rest : list dict) :
  Spec.records username s = row :: rest ->
  dict_get row (u "username") PNone = PStr username.
Proof.
  destruct s as [rows|e]; [|discriminate]. cbn [Spec.records]. intros H.
  assert (Hin : In row (filter (has_username username) rows))
    by (rewrite H; now left).
  apply filter_In in Hin. destruct Hin as [_ Hu].
  unfold has_username in Hu. unfold dict_get.
  destruct (dict_find row (u "username")) as [[]|]; try discriminate.
  apply pystr_eqb_true in Hu. now subst.
Qed.

(** A call the limiter lets through, for a user name whose first record
    in the order of the search lies in the store of [t]. *)
Lemma authenticate_first_record (config : dict) (lead cpa prop : store)
    (username password : pystr) (w w1 : world)
    (t : Spec.tenant) (user_data : dict) (others : list dict) :
  let self := new config lead cpa prop in
  check_rate_limit self w = (Ok true, w1) ->
  Spec.records username (Spec.store_of lead cpa prop t) = user_data :: others ->
  (forall t', In t' (Spec.before t) ->
              Spec.records username (Spec.store_of lead cpa prop t') = []) ->
  authenticate_user self username password w =
  let w2 := Spec.after_queries w1 (map Spec.tag (Spec.up_to t)) in
  if verify_password_value password
       (dict_get user_data (u "password_hash") (PStr []))
  then (Ok (true,
            msg_welcome (dict_get user_data (u "first_name") (PStr username)),
            user_data),
        snd (_set_user_session user_data (Spec.tag t)
               (snd (_reset_login_attempts w2))))
  else (Ok (false, msg_wrong_password, []),
        snd (_increment_login_attempts w2)).
Proof.
  intros self Hallow Hin Hout.
  rewrite (authenticate_allowed self username password w w1 Hallow).
  destruct (first_match_first_tenant username lead cpa prop t user_data others
              Hin Hout) as [Hfm Hv].
  cbn zeta in Hfm, Hv. cbn zeta.
  change (db_managers self)
    with [(u "lead", lead); (u "cpa", cpa); (u "prop", prop)].
  rewrite Hfm, Hv.
  pose proof (records_nonempty _ _ _ _ Hin) as Hne.
  destruct user_data as [|kv user_data]; [congruence|]. reflexivity.
Qed.

(** C4, amended.  Let the limiter allow the call, and let the store of
    tenant [t] be the first, in the order lead, cpa, prop, that holds a
    record for [username]: the stores searched before it hold none,
    those after it may hold anything.  [authenticate_user] queries the
    stores in that order up to [t] and no further, and decides on the
    first record of [t] for [username].  If the password verifies
    against that record it returns success with the record, resets the
    failure counter and stamps the session with the tag of [t].  If it
    does not, the answer is the wrong-password failure with one more
    failure counted, even when a later store holds a record for
    [username] that the password matches.  If no store holds a record
    for [username], it queries lead, cpa and prop, counts one more
    failure at the time of the clock and answers that the user was not
    found. *)
Theorem authenticate_across_tenants (config : dict) (lead cpa prop : store)
    (username password : pystr) (w w1 : world) :
  let self := new config lead cpa prop in
  check_rate_limit self w = (Ok true, w1) ->
  (* the first tenant that holds the user name *)
  (forall (t : Spec.tenant) (user_data : dict) (others : list dict),
   Spec.records username (Spec.store_of lead cpa prop t) = user_data :: others ->
   (forall t', In t' (Spec.before t) ->
               Spec.records username (Spec.store_of lead cpa prop t') = []) ->
   let out := authenticate_user self username password w in
   queried (snd out) = queried w ++ map Spec.tag (Spec.up_to t)
   /\ (* its record matches the password *)
   (verify_password_value password
      (dict_get user_data (u "password_hash") (PStr [])) = true ->
    fst out = Ok (true,
                  msg_welcome (dict_get user_data (u "first_name") (PStr username)),
                  user_data)
    /\ login_attempts (session (snd out)) = 0%Z
    /\ last_login_attempt (session (snd out)) = None
    /\ authenticated (session (snd out)) = true
    /\ current_project (session (snd out)) = Spec.tag t
    /\ dict_find (user_info (session (snd out))) (u "project_type")
       = Some (PStr (Spec.tag t))
    /\ dict_find (user_info (session (snd out))) (u "username")
       = Some (PStr username))
   /\ (* its record does not *)
   (verify_password_value password
      (dict_get user_data (u "password_hash") (PStr [])) = false ->
    fst out = Ok (false, msg_wrong_password, [])
    /\ login_attempts (session (snd out)) = (login_attempts (session w) + 1)%Z
    /\ last_login_attempt (session (snd out)) = Some (clock_now (now w1))
    /\ authenticated (session (snd out)) = authenticated (session w)
    /\ current_project (session (snd out)) = current_project (session w)))
  /\ (* found nowhere *)
  ((forall t, Spec.records username (Spec.store_of lead cpa prop t) = []) ->
   let out := authenticate_user self username password w in
   fst out = Ok (false, msg_not_found, [])
   /\ queried (snd out) = queried w ++ [u "lead"; u "cpa"; u "prop"]
   /\ login_attempts (session (snd out)) = (login_attempts (session w) + 1)%Z
   /\ last_login_attempt (session (snd out)) = Some (clock_now (now w1))
   /\ authenticated (session (snd out)) = authenticated (session w)).
Proof.
  intros self Hallow. split.
  - intros t user_data others Hin Hout out. unfold out.
    destruct (check_rate_limit_frame self w w1 _ Hallow) as [Hs Hq].
    pose proof (authenticate_first_record config lead cpa prop username
                  password w w1 t user_data others Hallow Hin Hout) as Hrun.
    cbn zeta in Hrun. fold self in Hrun. rewrite Hrun. clear Hrun.
    pose proof (records_username username _ user_data others Hin) as Hname.
    destruct (verify_password_value password _).
    + unfold _set_user_session, _reset_login_attempts, set_session, modify,
        bind, datetime_now.
      cbn [fst snd session queried now Spec.after_queries login_attempts
           last_login_attempt authenticated current_project user_info].
      rewrite Hq. split; [reflexivity|]. split; [|discriminate].
      intros _. repeat (split; [reflexivity|]).
      change (dict_find _ (u "username")) with
        (Some (dict_get user_data (u "username") PNone)).
      now rewrite Hname.
    + rewrite increment_eval.
      cbn [fst snd session queried now Spec.after_queries login_attempts
           last_login_attempt authenticated current_project].
      rewrite Hq, Hs. split; [reflexivity|]. split; [discriminate|].
      intros _. repeat split.
  - intros Hnone.
    now apply (authenticate_not_found config lead cpa prop username password
                 w w1).
Qed.

(** *** Stores that raise *)

Lemma check_rate_limit_config_only (self self' : UnifiedAuthSystem) (w : world) :
  auth_config self = auth_config self' ->
  check_rate_limit self w = check_rate_limit self' w.
Proof. unfold check_rate_limit. now intros ->. Qed.

Lemma authenticate_error (self : UnifiedAuthSystem) (username password : pystr)
    (w w1 : world) (e : exn) :
  check_rate_limit self w = (Raise e, w1) ->
  authenticate_user self username password w
  = (Ok (false, msg_system_error e, []), w1).
Proof.
  intros H. unfold authenticate_user, try_except, bind. now rewrite H.
Qed.

(** The answer depends on the stores through the search alone. *)
Lemma authenticate_user_ext (self self' : UnifiedAuthSystem)
    (username password : pystr) (w : world) :
  auth_config self = auth_config self' ->
  Spec.first_match username (db_managers self)
  = Spec.first_match username (db_managers self') ->
  Spec.visited username (db_managers self)
  = Spec.visited username (db_managers self') ->
  authenticate_user self username password w
  = authenticate_user self' username password w.
Proof.
  intros Hc Hf Hv.
  pose proof (check_rate_limit_config_only self self' w Hc) as Hr.
  destruct (check_rate_limit self w) as [[[|]|e] w1] eqn:E; symmetry in Hr.
  - rewrite (authenticate_allowed self username password w w1 E).
    rewrite (authenticate_allowed self' username password w w1 Hr).
    now rewrite Hf, Hv.
  - rewrite (authenticate_denied self username password w w1 E).
    now rewrite (authenticate_denied self' username password w w1 Hr).
  - rewrite (authenticate_error self username password w w1 e E).
    now rewrite (authenticate_error self' username password w w1 e Hr).
Qed.

Lemma records_as_empty (username : pystr) (s : store) :
  Spec.records username (Spec.as_empty s) = Spec.records username s.
Proof. now destruct s. Qed.

(** C8.  A store whose lookup raises is treated as a store without a
    matching row: the call proceeds exactly as if that store had
    answered with no row, so the stores after it are still searched, in
    order, and a record in a later store is found.  When the lookup
    raises in all three stores and the limiter allows the call, the
    answer is the ordinary user-not-found failure, with one more
    failure counted, and not the system-error answer. *)
Theorem store_errors_are_no_match (config : dict) (lead cpa prop : store)
    (username password : pystr) (w : world) :
  (* a raising store behaves as an empty one *)
  authenticate_user (new config lead cpa prop) username password w
  = authenticate_user
      (new config (Spec.as_empty lead) (Spec.as_empty cpa) (Spec.as_empty prop))
      username password w
  /\ (* the search goes on after a store that raised *)
  (forall e user_data others w1,
   lead = Unavailable e ->
   check_rate_limit (new config lead cpa prop) w = (Ok true, w1) ->
   Spec.records username cpa = user_data :: others ->
   Spec.records username prop = [] ->
   verify_password_value password
     (dict_get user_data (u "password_hash") (PStr [])) = true ->
   let out := authenticate_user (new config lead cpa prop) username password w in
   (exists msg, fst out = Ok (true, msg, user_data))
   /\ queried (snd out) = queried w ++ [u "lead"; u "cpa"]
   /\ current_project (session (snd out)) = u "cpa")
  /\ (* all three raise *)
  (forall e1 e2 e3 w1,
   lead = Unavailable e1 -> cpa = Unavailable e2 -> prop = Unavailable e3 ->
   check_rate_limit (new config lead cpa prop) w = (Ok true, w1) ->
   let out := authenticate_user (new config lead cpa prop) username password w in
   fst out = Ok (false, msg_not_found, [])
   /\ (forall e, fst out <> Ok (false, msg_system_error e, []))
   /\ queried (snd out) = queried w ++ [u "lead"; u "cpa"; u "prop"]
   /\ login_attempts (session (snd out)) = (login_attempts (session w) + 1)%Z).
Proof.
  refine (conj _ (conj _ _)).
  - apply authenticate_user_ext; [reflexivity| |];
      cbn [new db_managers Spec.first_match Spec.visited];
      now rewrite !records_as_empty.
  - intros e user_data others w1 -> Hallow Hcpa Hprop Hpw out.
    assert (Hout : forall t', t' <> Spec.Cpa ->
              Spec.records username
                (Spec.store_of (Unavailable e) cpa prop t') = []).
    { intros [] Hne; [reflexivity | congruence | exact Hprop]. }
    destruct (authenticate_found config (Unavailable e) cpa prop username
                password w w1 Spec.Cpa user_data others Hallow Hcpa Hout Hpw)
      as (H1 & H2 & _ & _ & _ & H3 & _).
    unfold out. refine (conj _ (conj H2 H3)). eexists. exact H1.
  - intros e1 e2 e3 w1 -> -> -> Hallow out.
    assert (Hnone : forall t,
              Spec.records username
                (Spec.store_of (Unavailable e1) (Unavailable e2)
                   (Unavailable e3) t) = []) by now intros [].
    destruct (authenticate_not_found config (Unavailable e1) (Unavailable e2)
                (Unavailable e3) username password w w1 Hallow Hnone)
      as (H1 & H2 & H3 & _).
    unfold out. refine (conj H1 (conj _ (conj H2 H3))).
    intros e. rewrite H1. unfold msg_not_found, msg_system_error.
    intros Hm. vm_compute in Hm. discriminate Hm.
Qed.

(** *** Failing logins in a row *)

Lemma authenticate_readings (self : UnifiedAuthSystem)
    (username password : pystr) (w : world) :
  readings (now (snd (authenticate_user self username password w)))
  = readings (now w).
Proof.
  destruct (check_rate_limit self w) as [[[|]|e] w1] eqn:E;
    pose proof (check_rate_limit_readings self w w1 _ E) as Hr.
  - rewrite (authenticate_allowed self username password w w1 E). cbn zeta.
    destruct (Spec.first_match username (db_managers self))
      as [[[|kv user_data] project_found]|]; try exact Hr.
    destruct (verify_password_value password _); exact Hr.
  - now rewrite (authenticate_denied self username password w w1 E).
  - now rewrite (authenticate_error self username password w w1 e E).
Qed.

Lemma logins_cons (self : UnifiedAuthSystem) (username password : pystr)
    (rest : list (pystr * pystr)) (w : world) :
  snd (Spec.logins self ((username, password) :: rest) w)
  = snd (Spec.logins self rest
           (snd (authenticate_user self username password w))).
Proof.
  cbn [Spec.logins].
  destruct (authenticate_user self username password w) as [r w1].
  cbn [snd]. now destruct (Spec.logins self rest w1).
Qed.

(** What [authenticate_user] does once the limiter has let the call
    through, by whether the credentials match the first record. *)
Lemma authenticate_by_credentials (self : UnifiedAuthSystem)
    (username password : pystr) (w w1 : world) :
  check_rate_limit self w = (Ok true, w1) ->
  let w2 := Spec.after_queries w1 (Spec.visited username (db_managers self)) in
  (Spec.accepts self username password = true ->
   exists user_data project_found,
     Spec.first_match username (db_managers self)
     = Some (user_data, project_found)
     /\ user_data <> []
     /\ verify_password_value password
          (dict_get user_data (u "password_hash") (PStr [])) = true
     /\ authenticate_user self username password w
        = (Ok (true,
               msg_welcome (dict_get user_data (u "first_name") (PStr username)),
               user_data),
           snd (_set_user_session user_data project_found
                  (snd (_reset_login_attempts w2)))))
  /\ (Spec.accepts self username password = false ->
      exists msg,
        (msg = msg_not_found \/ msg = msg_wrong_password)
        /\ authenticate_user self username password w
           = (Ok (false, msg, []), snd (_increment_login_attempts w2))).
Proof.
  intros Hallow w2.
  rewrite (authenticate_allowed self username password w w1 Hallow).
  cbn zeta. fold w2. unfold Spec.accepts.
  destruct (Spec.first_match username (db_managers self))
    as [[[|kv user_data] project_found]|].
  - split; [discriminate|]. intros _. exists msg_not_found.
    split; [now left | reflexivity].
  - split.
    + intros Hv. exists (kv :: user_data), project_found.
      rewrite Hv. repeat split. discriminate.
    + intros Hv. rewrite Hv. exists msg_wrong_password.
      split; [now right | reflexivity].
  - split; [discriminate|]. intros _. exists msg_not_found.
    split; [now left | reflexivity].
Qed.

(** One failing login, on a clock that stands at [T], in a session that
    holds [i] failures capped at the limit: it is recorded unless the
    limit was reached. *)
Lemma failing_login_state (self : UnifiedAuthSystem) (N : Z) (T : datetime)
    (username password : pystr) (i : nat) (w : world) :
  Spec.max_login_attempts (auth_config self) = PInt N ->
  (1 <= N)%Z ->
  Spec.accepts self username password = false ->
  (forall n, readings (now w) n = T) ->
  login_attempts (session w) = Z.min (Z.of_nat i) N ->
  last_login_attempt (session w)
  = match i with O => None | S _ => Some T end ->
  let w' := snd (authenticate_user self username password w) in
  login_attempts (session w') = Z.min (Z.of_nat (S i)) N
  /\ last_login_attempt (session w') = Some T.
Proof.
  intros Hcfg HN Hbad Hclock Hat Hlast. cbn zeta.
  destruct (Z.ltb_spec (Z.of_nat i) N) as [Hlt|Hge].
  - assert (Hallow : check_rate_limit self w = (Ok true, w)).
    { rewrite (check_rate_limit_eval self N w Hcfg), Hat.
      rewrite Z.min_l by lia.
      assert (H : (N <=? Z.of_nat i)%Z = false) by (apply Z.leb_gt; lia).
      now rewrite H. }
    destruct (authenticate_by_credentials self username password w w Hallow)
      as [_ Hno].
    destruct (Hno Hbad) as (msg & _ & Hout).
    rewrite Hout, increment_eval.
    cbn [snd session login_attempts last_login_attempt now
         Spec.after_queries].
    rewrite Hat. unfold clock_now. rewrite Hclock. split; [lia | reflexivity].
  - assert (Hdeny : check_rate_limit self w = (Ok false, Spec.tick w)).
    { rewrite (check_rate_limit_eval self N w Hcfg), Hat, Hlast.
      rewrite Z.min_r by lia. rewrite Z.leb_refl.
      destruct i as [|i]; [lia|].
      unfold clock_now. rewrite Hclock, Z.sub_diag. reflexivity. }
    rewrite (authenticate_denied self username password w _ Hdeny).
    cbn [snd Spec.tick session]. rewrite Hat, Hlast.
    destruct i as [|i]; [lia|]. split; [lia | reflexivity].
Qed.

(** On a clock that stands at [T], failing logins (for a user no store
    knows, or with a password the record does not verify) record one
    failure each until [N] are recorded, and change nothing after
    that. *)
Lemma failing_logins_state (self : UnifiedAuthSystem) (N : Z) (T : datetime) :
  Spec.max_login_attempts (auth_config self) = PInt N ->
  (1 <= N)%Z ->
  forall (failures : list (pystr * pystr)) (i : nat) (w : world),
  Forall (fun c => Spec.accepts self (fst c) (snd c) = false) failures ->
  (forall n, readings (now w) n = T) ->
  login_attempts (session w) = Z.min (Z.of_nat i) N ->
  last_login_attempt (session w)
  = match i with O => None | S _ => Some T end ->
  let w' := snd (Spec.logins self failures w) in
  (forall n, readings (now w') n = T)
  /\ login_attempts (session w') = Z.min (Z.of_nat (i + length failures)) N
  /\ last_login_attempt (session w')
     = match i + length failures with O => None | S _ => Some T end.
Proof.
  intros Hcfg HN failures.
  induction failures as [|[username password] rest IH];
    intros i w Hbad Hclock Hat Hlast; cbn zeta.
  - cbn [Spec.logins snd length]. rewrite Nat.add_0_r. now repeat split.
  - rewrite logins_cons. cbn [length].
    replace (i + S (length rest)) with (S i + length rest) by lia.
    inversion Hbad as [|c l Hc Hrest]; subst. cbn [fst snd] in Hc.
    destruct (failing_login_state self N T username password i w
                Hcfg HN Hc Hclock Hat Hlast) as [H1 H2].
    apply IH.
    + exact Hrest.
    + intros n. now rewrite authenticate_readings.
    + exact H1.
    + exact H2.
Qed.

(** C3.  Let the limit be configured as [N >= 1], the clock stand at
    [T] and the session be fresh, and count as attempts the failed
    logins made one after the other, for an unknown user or with a
    wrong password alike: each is recorded until [N] are.  After
    attempts [1 .. N-1] [check_rate_limit] returns true.  After
    attempt [N], and after every attempt that follows it, [N] failures
    are on record, the last at [T], and [check_rate_limit] returns
    false for as long as less than 15 minutes separate the clock from
    [T]; it returns true again from the instant the 15 minutes are
    reached.  While it denies, [authenticate_user] returns the lockout
    message and an empty record, queries no store and leaves the
    session as it was, whatever the credentials. *)
Theorem check_rate_limit_policy (config : dict) (lead cpa prop : store)
    (N : Z) (T : datetime) (failures : list (pystr * pystr)) :
  let self := new config lead cpa prop in
  Spec.max_login_attempts config = PInt N ->
  (1 <= N)%Z ->
  Forall (fun c => Spec.accepts self (fst c) (snd c) = false) failures ->
  1 <= length failures ->
  (* the number of the last attempt, and the world it leaves *)
  let k := Z.of_nat (length failures) in
  let w := snd (Spec.logins self failures (Spec.fresh_at T)) in
  (* attempts 1 .. N-1 *)
  ((k < N)%Z ->
   login_attempts (session w) = k
   /\ last_login_attempt (session w) = Some T
   /\ fst (check_rate_limit self w) = Ok true)
  /\ (* attempt N and after *)
  ((N <= k)%Z ->
   login_attempts (session w) = N
   /\ last_login_attempt (session w) = Some T
   /\ fst (check_rate_limit self w) = Ok false
   /\ (forall T', (T' - T < 15 * 60 * 1000000)%Z ->
                  fst (check_rate_limit self (Spec.at_time T' w)) = Ok false)
   /\ (forall T', (T' - T >= 15 * 60 * 1000000)%Z ->
                  fst (check_rate_limit self (Spec.at_time T' w)) = Ok true)
   /\ (forall username' password',
       fst (authenticate_user self username' password' w)
       = Ok (false, msg_locked, [])
       /\ queried (snd (authenticate_user self username' password' w))
          = queried w
       /\ session (snd (authenticate_user self username' password' w))
          = session w)).
Proof.
  intros self Hcfg HN Hbad Hk k w.
  destruct (failing_logins_state self N T Hcfg HN failures 0 (Spec.fresh_at T)
              Hbad (fun _ => eq_refl) ltac:(cbn; lia) eq_refl)
    as (Hclock & Hat & Hlast).
  fold w in Hclock, Hat, Hlast. cbn [Nat.add] in Hat, Hlast. fold k in Hat.
  destruct (length failures) as [|k'] eqn:Ek; [lia|].
  split.
  - intros Hlt. rewrite Z.min_l in Hat by lia.
    refine (conj Hat (conj Hlast _)).
    destruct (check_rate_limit_by_count self N k T w Hcfg ltac:(lia) Hat Hlast)
      as (Hbelow & _).
    now apply Hbelow.
  - intros Hge. rewrite Z.min_r in Hat by lia.
    assert (Hnow : clock_now (now w) = T) by apply Hclock.
    destruct (check_rate_limit_by_count self N N T w Hcfg HN Hat Hlast)
      as (_ & _ & Hstill & _ & Hdenied).
    assert (Hdeny : fst (check_rate_limit self w) = Ok false)
      by (apply Hstill; [lia | exact Hnow]).
    refine (conj Hat (conj Hlast (conj Hdeny (conj _ (conj _ _))))).
    + intros T' HT'.
      destruct (check_rate_limit_by_count self N N T (Spec.at_time T' w)
                  Hcfg HN Hat Hlast) as (_ & Hinside & _).
      apply Hinside; [lia | exact HT'].
    + intros T' HT'.
      destruct (check_rate_limit_by_count self N N T (Spec.at_time T' w)
                  Hcfg HN Hat Hlast) as (_ & _ & _ & Helapsed & _).
      apply Helapsed; [lia | exact HT'].
    + intros username' password'. now apply Hdenied.
Qed.

End Authenticate.

(** ** The rate limiter and the authentication on concrete systems *)

Section AuthExamples.

Import Auth Fixture.

Local Abbreviation toy := Fixture.toy_runtime.

Lemma times_increment_S (k : nat) (w : world) :
  Spec.times (S k) _increment_login_attempts w
  = Spec.times k _increment_login_attempts (snd (_increment_login_attempts w)).
Proof. reflexivity. Qed.

(** Failures recorded one after the other. *)
Lemma recorded_failures (k : nat) (w : world) :
  let w' := snd (Spec.times k _increment_login_attempts w) in
  login_attempts (session w') = (login_attempts (session w) + Z.of_nat k)%Z
  /\ (0 < k ->
      last_login_attempt (session w')
      = Some (readings (now w) (reads (now w) + k - 1)))
  /\ now w' = Clock (readings (now w)) (reads (now w) + k)
  /\ queried w' = queried w.
Proof.
  revert w. induction k as [|k IH]; intros w; cbn zeta.
  - cbn [Spec.times ret snd]. rewrite Z.add_0_r, Nat.add_0_r.
    repeat split; [lia | now destruct (now w)].
  - rewrite times_increment_S.
    destruct (IH (snd (_increment_login_attempts w))) as (H1 & H2 & H3 & H4).
    rewrite increment_eval in *.
    cbn [snd session login_attempts now clock_tick readings reads queried]
      in *.
    repeat split.
    + rewrite H1. lia.
    + intros _. destruct k as [|k].
      * cbn [Spec.times ret snd session last_login_attempt].
        unfold clock_now. do 2 f_equal. lia.
      * rewrite H2 by lia. do 2 f_equal. lia.
    + rewrite H3. f_equal. lia.
    + exact H4.
Qed.

(** Three wrong logins are answered on their merits and recorded; a
    fourth, and a fifth with the right password, are refused while the
    clock stands still; once 15 minutes have passed the right password
    is accepted, in the tenant that holds the record. *)
Example lockout_trace :
  let self := system (Table [bob]) (Table [bob; alice]) down in
  let (answers, w) :=
    Spec.logins (H := toy) self
      [ (u "alice", u "x"); (u "carol", u "y"); (u "alice", u "z");
        (u "alice", u "hunter2"); (u "alice", u "hunter2") ]
      (Spec.fresh_at noon) in
  answers =
    [ Ok (false, msg_wrong_password, []);
      Ok (false, msg_not_found, []);
      Ok (false, msg_wrong_password, []);
      Ok (false, msg_locked, []);
      Ok (false, msg_locked, []) ]
  /\ queried w = [ u "lead"; u "cpa"; u "lead"; u "cpa"; u "prop";
                   u "lead"; u "cpa" ]
  /\ login_attempts (session w) = 3%Z
  /\ fst (authenticate_user (rt := toy) self (u "alice") (u "hunter2")
            (Spec.at_time (noon + minutes 15 - 1)%Z w))
     = Ok (false, msg_locked, [])
  /\ fst (authenticate_user (rt := toy) self (u "alice") (u "hunter2")
            (Spec.at_time (noon + minutes 15)%Z w))
     = Ok (true, u "✅ Benvenuto Alice!", alice).
Proof. vm_compute. repeat split; reflexivity. Qed.


Local Abbreviation served := (system (Table [bob]) (Table [bob; alice]) down).
Local Abbreviation after_three :=
  (snd (Spec.times 3 _increment_login_attempts (Spec.fresh_at noon))).

Local Abbreviation stranger := (u "carol", u "guess").
Local Abbreviation before_attempt k :=
  (snd (Spec.logins (H := toy) served (repeat stranger (k - 1))
          (Spec.fresh_at noon))).

Local Abbreviation mistaken := (u "alice", u "x").
Local Abbreviation after_failures failures :=
  (snd (Spec.logins (H := toy) served failures (Spec.fresh_at noon))).

(** The check that opens a login reads the failures recorded before
    it.  Under the shipped limit of 3, on a clock standing at noon,
    with two failures on record the third failing login is let through,
    answered on its merits and recorded as the third failure; the check
    that follows it denies. *)
Example check_precedes_record :
  Spec.max_login_attempts Config.auth_config = PInt 3
  /\ login_attempts (session (before_attempt 3)) = 2%Z
  /\ fst (check_rate_limit served (before_attempt 3)) = Ok true
  /\ fst (authenticate_user (rt := toy) served (u "carol") (u "guess")
            (before_attempt 3))
     = Ok (false, msg_not_found, [])
  /\ fst (check_rate_limit served (before_attempt 4)) = Ok false.
Proof.
  refine (conj _ (conj _ (conj _ (conj _ _)))); vm_compute; reflexivity.
Qed.

(** [check_rate_limit_policy] under the shipped limit of 3, on a clock
    standing at noon.  After two failed logins, one with a wrong
    password for [alice] and one for the unknown [carol], the limiter
    allows.  After a third, again with a wrong password, three failures
    are on record and it denies, also one microsecond before 12:15, and
    allows at 12:15; while it denies, the right password of [alice] is
    refused with the lockout message and no store is queried. *)
Lemma check_rate_limit_policy_witness :
  (login_attempts (session (after_failures [mistaken; stranger])) = 2%Z
   /\ fst (check_rate_limit served (after_failures [mistaken; stranger]))
      = Ok true)
  /\ login_attempts (session (after_failures [mistaken; stranger; mistaken]))
     = 3%Z
  /\ fst (check_rate_limit served
            (after_failures [mistaken; stranger; mistaken])) = Ok false
  /\ fst (check_rate_limit served
            (Spec.at_time (noon + minutes 15 - 1)%Z
               (after_failures [mistaken; stranger; mistaken])))
     = Ok false
  /\ fst (check_rate_limit served
            (Spec.at_time (noon + minutes 15)%Z
               (after_failures [mistaken; stranger; mistaken])))
     = Ok true
  /\ fst (authenticate_user (rt := toy) served (u "alice") (u "hunter2")
            (after_failures [mistaken; stranger; mistaken]))
     = Ok (false, msg_locked, [])
  /\ queried (snd (authenticate_user (rt := toy) served (u "alice")
                     (u "hunter2")
                     (after_failures [mistaken; stranger; mistaken])))
     = queried (after_failures [mistaken; stranger; mistaken]).
Proof.
  assert (Htwo : Forall (fun c => Spec.accepts (H := toy) served (fst c) (snd c)
                                  = false) [mistaken; stranger]).
  { repeat (apply Forall_cons; [vm_compute; reflexivity|]). apply Forall_nil. }
  assert (Hthree : Forall (fun c => Spec.accepts (H := toy) served (fst c)
                                      (snd c) = false)
                     [mistaken; stranger; mistaken]).
  { repeat (apply Forall_cons; [vm_compute; reflexivity|]). apply Forall_nil. }
  split.
  - pose proof (check_rate_limit_policy (rt := toy) Config.auth_config
                  (Table [bob]) (Table [bob; alice]) down 3 noon
                  [mistaken; stranger] eq_refl ltac:(lia) Htwo
                  ltac:(cbn [length]; lia)) as H.
    cbn zeta in H. destruct H as (Hbelow & _).
    destruct Hbelow as (H1 & _ & H3); [vm_compute; reflexivity|].
    exact (conj H1 H3).
  - pose proof (check_rate_limit_policy (rt := toy) Config.auth_config
                  (Table [bob]) (Table [bob; alice]) down 3 noon
                  [mistaken; stranger; mistaken] eq_refl ltac:(lia) Hthree
                  ltac:(cbn [length]; lia)) as H.
    cbn zeta in H. destruct H as (_ & Hafter).
    destruct Hafter as (Hat & _ & Hdeny & Hinside & Helapsed & Hlocked);
      [vm_compute; discriminate|].
    destruct (Hlocked (u "alice") (u "hunter2")) as (Ha & Hq & _).
    refine (conj Hat (conj Hdeny (conj _ (conj _ (conj Ha Hq))))).
    + apply Hinside. vm_compute. reflexivity.
    + apply Helapsed. vm_compute. discriminate.
Defined.

(** [authenticate_across_tenants] on a fresh session: the first record
    of [alice] lies in the cpa store, and nobody knows [carol]. *)
Lemma authenticate_across_tenants_witness :
  (fst (authenticate_user (rt := toy) served (u "alice") (u "hunter2")
          (Spec.fresh_at noon))
   = Ok (true, u "✅ Benvenuto Alice!", alice)
   /\ queried (snd (authenticate_user (rt := toy) served (u "alice")
                      (u "hunter2") (Spec.fresh_at noon)))
      = [u "lead"; u "cpa"]
   /\ current_project
        (session (snd (authenticate_user (rt := toy) served (u "alice")
                         (u "hunter2") (Spec.fresh_at noon))))
      = u "cpa")
  /\ (fst (authenticate_user (rt := toy) served (u "carol") (u "hunter2")
             (Spec.fresh_at noon))
      = Ok (false, msg_not_found, [])
      /\ login_attempts
           (session (snd (authenticate_user (rt := toy) served (u "carol")
                            (u "hunter2") (Spec.fresh_at noon))))
         = 1%Z).
Proof.
  split.
  - destruct (authenticate_across_tenants (rt := toy) Config.auth_config
                (Table [bob]) (Table [bob; alice]) down
                (u "alice") (u "hunter2") (Spec.fresh_at noon) (Spec.fresh_at noon)
                eq_refl) as [Hfound _].
    destruct (Hfound Spec.Cpa alice []) as (Hq & Hyes & _).
    + reflexivity.
    + intros t' [<-|[]]. reflexivity.
    + destruct Hyes as (H1 & _ & _ & _ & H3 & _).
      * vm_compute. reflexivity.
      * exact (conj H1 (conj Hq H3)).
  - destruct (authenticate_across_tenants (rt := toy) Config.auth_config
                (Table [bob]) (Table [bob; alice]) down
                (u "carol") (u "hunter2") (Spec.fresh_at noon) (Spec.fresh_at noon)
                eq_refl) as [_ Hnone].
    destruct Hnone as (H1 & _ & H2 & _).
    + intros []; reflexivity.
    + split; [exact H1 | exact H2].
Defined.

Local Abbreviation twins :=
  (system (Table [other_bob]) (Table [bob]) (Table [])).

(** C4, as stated, fails when a store searched earlier holds another
    record under the same user name.  The lead store holds a [bob]
    whose password is [other], the cpa store a [bob] whose password is
    [letmein]: the credentials [bob], [letmein] match a record in the
    cpa store and in no other.  The limiter allows the call, yet the
    login is refused as a wrong password: the search stops at the
    record of the lead store and the cpa store is not queried. *)
Lemma earlier_namesake_refuses_login :
  Spec.matching (H := toy) (u "bob") (u "letmein") (Table [other_bob]) = []
  /\ Spec.matching (H := toy) (u "bob") (u "letmein") (Table [bob]) = [bob]
  /\ Spec.matching (H := toy) (u "bob") (u "letmein") (Table []) = []
  /\ fst (check_rate_limit twins (Spec.fresh_at noon)) = Ok true
  /\ fst (authenticate_user (rt := toy) twins (u "bob") (u "letmein")
            (Spec.fresh_at noon))
     = Ok (false, msg_wrong_password, [])
  /\ queried (snd (authenticate_user (rt := toy) twins (u "bob")
                     (u "letmein") (Spec.fresh_at noon)))
     = [u "lead"]
  /\ authenticated
       (session (snd (authenticate_user (rt := toy) twins (u "bob")
                        (u "letmein") (Spec.fresh_at noon))))
     = false.
Proof.
  refine (conj _ (conj _ (conj _ (conj _ (conj _ (conj _ _))))));
    vm_compute; reflexivity.
Qed.

(** [store_errors_are_no_match] on a fresh session: with the lead store
    down the record of [alice] is still found in the cpa store, and
    with all three down she is simply not found. *)
Lemma store_errors_are_no_match_witness :
  (exists msg,
     fst (authenticate_user (rt := toy) (system down (Table [alice]) (Table []))
            (u "alice") (u "hunter2") (Spec.fresh_at noon))
     = Ok (true, msg, alice))
  /\ fst (authenticate_user (rt := toy) (system down down down)
            (u "alice") (u "hunter2") (Spec.fresh_at noon))
     = Ok (false, msg_not_found, [])
  /\ queried (snd (authenticate_user (rt := toy) (system down down down)
                     (u "alice") (u "hunter2") (Spec.fresh_at noon)))
     = [u "lead"; u "cpa"; u "prop"].
Proof.
  split.
  - destruct (store_errors_are_no_match (rt := toy) Config.auth_config
                down (Table [alice]) (Table []) (u "alice") (u "hunter2")
                (Spec.fresh_at noon)) as (_ & Hnext & _).
    destruct (Hnext (Exn (u "ConnectionError") (u "connection refused"))
                alice [] (Spec.fresh_at noon)) as (H1 & _);
      try reflexivity.
    exact H1.
  - destruct (store_errors_are_no_match (rt := toy) Config.auth_config
                down down down (u "alice") (u "hunter2") (Spec.fresh_at noon))
      as (_ & _ & Hall).
    destruct (Hall (Exn (u "ConnectionError") (u "connection refused"))
                (Exn (u "ConnectionError") (u "connection refused"))
                (Exn (u "ConnectionError") (u "connection refused"))
                (Spec.fresh_at noon)) as (H1 & _ & H2 & _);
      try reflexivity.
    split; [exact H1 | exact H2].
Defined.

End AuthExamples.

(** ** What the configuration decides *)

Section RateLimitConfiguration.

Import Auth Fixture.

Lemma check_rate_limit_by_limit (self self' : UnifiedAuthSystem) (w : world) :
  Spec.max_login_attempts (auth_config self)
  = Spec.max_login_attempts (auth_config self') ->
  check_rate_limit self w = check_rate_limit self' w.
Proof.
  unfold check_rate_limit, Spec.max_login_attempts. now intros ->.
Qed.

(** C6, as stated, fails: the lockout window is not read from the
    configuration.  Five minutes after a third failure the limiter
    denies under the shipped configuration and under one rewritten for
    a one-minute lockout alike; and whatever two configurations say,
    if they set the same limit the limiter behaves the same. *)
Lemma lockout_window_is_not_configured :
  fst (check_rate_limit (new Config.auth_config down down down)
         (Spec.at_time (noon + minutes 5)%Z
            (snd (Spec.times 3 _increment_login_attempts (Spec.fresh_at noon)))))
  = Ok false
  /\ fst (check_rate_limit (new impatient_config down down down)
            (Spec.at_time (noon + minutes 5)%Z
               (snd (Spec.times 3 _increment_login_attempts (Spec.fresh_at noon)))))
     = Ok false
  /\ Spec.max_login_attempts impatient_config
     = Spec.max_login_attempts Config.auth_config
  /\ dict_find impatient_config (u "lockout_minutes") = Some (PInt 1)
  /\ ~ (exists (config config' : dict) (stores : list (pystr * store))
               (w : world),
          Spec.max_login_attempts config = Spec.max_login_attempts config'
          /\ check_rate_limit (AuthSystem config stores) w
             <> check_rate_limit (AuthSystem config' stores) w).
Proof.
  refine (conj _ (conj _ (conj _ (conj _ _)))).
  - vm_compute. reflexivity.
  - vm_compute. reflexivity.
  - vm_compute. reflexivity.
  - vm_compute. reflexivity.
  - intros (config & config' & stores & w & Hsame & Hdiff).
    apply Hdiff. now apply check_rate_limit_by_limit.
Qed.

(** C6, amended.  The limit on consecutive failures is read from the
    configuration, key [max_login_attempts], and is 3 when the key is
    absent: with the limit [N] the limiter denies exactly when at least
    [N] failures are recorded and less than 15 minutes have passed
    since the last one, so that a lower limit denies where a higher one
    allows.  The 15 minutes are a constant of [check_rate_limit]:
    configurations that set the same limit give the same limiter. *)
Theorem rate_limit_configuration (config : dict) (stores : list (pystr * store))
    (N : Z) (w : world) :
  Spec.max_login_attempts config = PInt N ->
  (* the limiter under the limit N *)
  fst (check_rate_limit (AuthSystem config stores) w)
  = Ok (negb ((N <=? login_attempts (session w))%Z
              && match last_login_attempt (session w) with
                 | Some t => (clock_now (now w) - t <? 15 * 60 * 1000000)%Z
                 | None => false
                 end))
  /\ (* the default *)
  (dict_find config (u "max_login_attempts") = None -> N = 3%Z)
  /\ (* the key is what is read *)
  (forall v, dict_find config (u "max_login_attempts") = Some v -> v = PInt N)
  /\ (* another limit, another behaviour *)
  (forall config' N',
   Spec.max_login_attempts config' = PInt N' -> (N < N')%Z ->
   login_attempts (session w) = N ->
   last_login_attempt (session w) = Some (clock_now (now w)) ->
   fst (check_rate_limit (AuthSystem config stores) w) = Ok false
   /\ fst (check_rate_limit (AuthSystem config' stores) w) = Ok true)
  /\ (* nothing else is read *)
  (forall config',
   Spec.max_login_attempts config' = Spec.max_login_attempts config ->
   check_rate_limit (AuthSystem config' stores) w
   = check_rate_limit (AuthSystem config stores) w).
Proof.
  intros Hcfg.
  assert (Heval : forall c M, Spec.max_login_attempts c = PInt M ->
            fst (check_rate_limit (AuthSystem c stores) w)
            = Ok (negb ((M <=? login_attempts (session w))%Z
                        && match last_login_attempt (session w) with
                           | Some t =>
                             (clock_now (now w) - t <? 15 * 60 * 1000000)%Z
                           | None => false
                           end))).
  { intros c M Hc.
    rewrite (check_rate_limit_eval (AuthSystem c stores) M w Hc).
    change Spec.lockout_window with (15 * 60 * 1000000)%Z.
    destruct (M <=? login_attempts (session w))%Z; [|reflexivity].
    now destruct (last_login_attempt (session w)). }
  refine (conj (Heval _ _ Hcfg) (conj _ (conj _ (conj _ _)))).
  - intros Hnone. unfold Spec.max_login_attempts, dict_get in Hcfg.
    rewrite Hnone in Hcfg. congruence.
  - intros v Hv. unfold Spec.max_login_attempts, dict_get in Hcfg.
    now rewrite Hv in Hcfg.
  - intros config' N' Hcfg' Hlt Hat Hlast.
    rewrite (Heval _ _ Hcfg), (Heval _ _ Hcfg'), Hat, Hlast, Z.sub_diag.
    rewrite Z.leb_refl. apply Z.leb_gt in Hlt. now rewrite Hlt.
  - intros config' Hsame. now apply check_rate_limit_by_limit.
Qed.

(** [rate_limit_configuration] on the shipped configuration and one
    that sets the limit to 5, after three failures at noon. *)
Lemma rate_limit_configuration_witness :
  fst (check_rate_limit (new Config.auth_config down down down)
         (snd (Spec.times 3 _increment_login_attempts (Spec.fresh_at noon))))
  = Ok false
  /\ fst (check_rate_limit
            (new (dict_set Config.auth_config (u "max_login_attempts") (PInt 5))
               down down down)
            (snd (Spec.times 3 _increment_login_attempts (Spec.fresh_at noon))))
     = Ok true.
Proof.
  destruct (rate_limit_configuration Config.auth_config
              (db_managers (new Config.auth_config down down down)) 3
              (snd (Spec.times 3 _increment_login_attempts (Spec.fresh_at noon)))
              eq_refl) as (_ & _ & _ & Hother & _).
  exact (Hother (dict_set Config.auth_config (u "max_login_attempts") (PInt 5))
           5%Z eq_refl eq_refl eq_refl eq_refl).
Defined.

End RateLimitConfiguration.

(** ** The conversion rate *)

Section ConversionRate.

Import AI Fixture.

Lemma converted_rows_filter (cells : list pyval) :
  length (filter (cell_is (u "converted")) cells) = Spec.converted_rows cells.
Proof.
  induction cells as [|c cells IH]; [reflexivity|].
  cbn [filter Spec.converted_rows].
  destruct c; cbn [cell_is]; try exact IH.
  destruct (pystr_eqb s (u "converted")); cbn [length]; rewrite IH; reflexivity.
Qed.

(** C9.  The conversion rate of a data set with a [stato] column and at
    least one row is the number of rows whose [stato] is [converted],
    divided by the number of rows, times 100, in the arithmetic of
    Python's [float]; it is 0 for a data set with no row or with no
    [stato] column.  For 100 rows of which 37 are converted it is
    exactly [37.0]. *)
Theorem conversion_rate_statistic (data : DataFrame) :
  (forall cells,
   dict_find (df_columns data) (u "stato") = Some cells ->
   (0 < df_len data ->
    _calculate_conversion_rate data =
    PFloat (PrimFloat.mul
              (PrimFloat.div
                 (float_of_Z (Z.of_nat (Spec.converted_rows cells)))
                 (float_of_Z (Z.of_nat (df_len data))))
              100%float))
   /\ (df_len data = 0 -> _calculate_conversion_rate data = PInt 0)
   /\ (df_len data = 100 -> Spec.converted_rows cells = 37 ->
       _calculate_conversion_rate data = PFloat 37%float))
  /\ (dict_find (df_columns data) (u "stato") = None ->
      _calculate_conversion_rate data = PInt 0).
Proof.
  unfold _calculate_conversion_rate, has_column, column, dict_mem.
  split.
  - intros cells Hc. rewrite Hc, converted_rows_filter.
    refine (conj _ (conj _ _)).
    + intros Hlen.
      assert (H : (0 <? Z.of_nat (df_len data))%Z = true)
        by (apply Z.ltb_lt; lia).
      now rewrite H.
    + intros Hlen. now rewrite Hlen.
    + intros Hlen H37. rewrite Hlen, H37. vm_compute. reflexivity.
  - intros Hc. now rewrite Hc.
Qed.

(** [conversion_rate_statistic] on a frame of 100 leads, 37 converted:
    the rate is [37.0]. *)
Lemma conversion_rate_statistic_witness :
  _calculate_conversion_rate leads = PFloat 37%float.
Proof.
  destruct (conversion_rate_statistic leads) as [Hcol _].
  destruct (Hcol (repeat (PStr (u "converted")) 37 ++ repeat (PStr (u "new")) 63))
    as (_ & _ & H37).
  - reflexivity.
  - apply H37; vm_compute; reflexivity.
Defined.

(** The quotient and the product are rounded as binary64 rounds them:
    29 converted rows out of 100 give [28.999999999999996]. *)
Example conversion_rate_is_rounded :
  _calculate_conversion_rate
    (Frame 100 [(u "stato",
                 repeat (PStr (u "converted")) 29 ++ repeat PNone 71)])
  = PFloat 28.999999999999996%float.
Proof. vm_compute. reflexivity. Qed.

End ConversionRate.

(** ** The cache of the inference client *)

Section InferenceCache.

Context {rt : Runtime}.

Import AI.

Lemma dict_find_set_same {V} (d : list (pystr * V)) (k : pystr) (v : V) :
  dict_find (dict_set d k v) k = Some v.
Proof.
  induction d as [|[k' v'] d IH]; cbn [dict_set dict_find].
  - now rewrite pystr_eqb_refl.
  - destruct (pystr_eqb k' k) eqn:E; cbn [dict_find]; now rewrite E.
Qed.

(** A fresh entry is returned as it is; the clock was read, nothing
    else happened. *)
Lemma make_api_call_hit (self : UnifiedAIAssistant) (messages : pyval)
    (project_type : pystr) (w : world) (t : datetime) (r : pyval) :
  dict_find (cache w) (cache_key messages project_type) = Some (t, r) ->
  (clock_now (now w) - t < timedelta_seconds (cache_timeout self))%Z ->
  _make_api_call self messages project_type w = (Ok r, Spec.ai_tick w).
Proof.
  intros Hfind Hage. apply Z.ltb_lt in Hage.
  unfold _make_api_call, try_except, bind, gets. rewrite Hfind.
  unfold datetime_now. rewrite Hage. reflexivity.
Qed.

(** What happens once the cache could not answer, from the world [w0]
    the test of the cache left. *)
Lemma make_api_call_fetch (self : UnifiedAIAssistant) (messages : pyval)
    (project_type : pystr) (w w0 : world) :
  (dict_find (cache w) (cache_key messages project_type) = None /\ w0 = w)
  \/ (exists t r,
        dict_find (cache w) (cache_key messages project_type) = Some (t, r)
        /\ (timedelta_seconds (cache_timeout self) <= clock_now (now w) - t)%Z
        /\ w0 = Spec.ai_tick w) ->
  _make_api_call self messages project_type w =
  let sent := World (cache w0) (now w0)
                (posted w0 ++ [Spec.request_for self messages]) (network w0) in
  match network w0 (length (posted w0)) with
  | HttpResponse status_code json =>
    if (status_code =? 200)%Z then
      match rbind json Spec.completion with
      | Ok ai_response =>
        (Ok ai_response,
         World (dict_set (cache w0) (cache_key messages project_type)
                  (clock_now (now w0), ai_response))
           (clock_tick (now w0))
           (posted w0 ++ [Spec.request_for self messages]) (network w0))
      | Raise _ => (Ok PNone, sent)
      end
    else (Ok PNone, sent)
  | HttpRaises _ => (Ok PNone, sent)
  end.
Proof.
  intros [[Hfind ->] | (t & r & Hfind & Hage & ->)];
    unfold _make_api_call, try_except; unfold bind at 1; unfold gets;
    rewrite Hfind.
  - unfold bind at 1. unfold ret at 1. unfold bind at 1.
    unfold requests_post, Spec.request_for.
    destruct (network w (length (posted w))) as [e|status_code json];
      [reflexivity|].
    destruct (status_code =? 200)%Z; [|reflexivity].
    unfold bind at 1. unfold lift at 1.
    destruct json as [body|e]; [|reflexivity].
    cbn [rbind]. unfold bind at 1, lift at 1.
    change (rbind (getitem body (u "choices")) _) with (Spec.completion body).
    destruct (Spec.completion body); reflexivity.
  - apply Z.ltb_ge in Hage.
    unfold bind at 1. unfold bind at 1. unfold datetime_now at 1.
    rewrite Hage. unfold ret at 1. unfold bind at 1.
    unfold requests_post, Spec.request_for, Spec.ai_tick.
    cbn [cache now posted network].
    destruct (network w (length (posted w))) as [e|status_code json];
      [reflexivity|].
    destruct (status_code =? 200)%Z; [|reflexivity].
    unfold bind at 1. unfold lift at 1.
    destruct json as [body|e]; [|reflexivity].
    cbn [rbind]. unfold bind at 1, lift at 1.
    change (rbind (getitem body (u "choices")) _) with (Spec.completion body).
    destruct (Spec.completion body); reflexivity.
Qed.

(** Whenever the cache cannot answer, one request is posted. *)
Lemma make_api_call_posts (self : UnifiedAIAssistant) (messages : pyval)
    (project_type : pystr) (w : world) :
  dict_find (cache w) (cache_key messages project_type) = None
  \/ (exists t r,
        dict_find (cache w) (cache_key messages project_type) = Some (t, r)
        /\ (timedelta_seconds (cache_timeout self) <= clock_now (now w) - t)%Z) ->
  posted (snd (_make_api_call self messages project_type w))
  = posted w ++ [Spec.request_for self messages].
Proof.
  intros H.
  assert (Hw0 : exists w0,
    posted w0 = posted w /\ cache w0 = cache w /\
    ((dict_find (cache w) (cache_key messages project_type) = None /\ w0 = w)
     \/ (exists t r,
          dict_find (cache w) (cache_key messages project_type) = Some (t, r)
          /\ (timedelta_seconds (cache_timeout self) <= clock_now (now w) - t)%Z
          /\ w0 = Spec.ai_tick w))).
  { destruct H as [H | (t & r & H1 & H2)].
    - exists w. repeat split; auto.
    - exists (Spec.ai_tick w). repeat split; eauto 6. }
  destruct Hw0 as (w0 & Hp & Hc & Hw0).
  rewrite (make_api_call_fetch self messages project_type w w0 Hw0).
  cbn zeta. rewrite <- Hp.
  destruct (network w0 (length (posted w0))) as [e|status_code json];
    [reflexivity|].
  destruct (status_code =? 200)%Z; [|reflexivity].
  now destruct (rbind json Spec.completion).
Qed.


(** C5.  An entry of the cache under the key of the tag and the hash of
    the messages that is less than 300 seconds old is returned without
    any request being posted.  So, from a cache without the entry and
    with an HTTP answer that carries a completion: the first call posts
    one request and returns the completion; an identical second call
    less than 300 seconds after the entry was stored returns the same
    completion and posts nothing; and an identical call made once 300
    seconds have passed posts a request again. *)
Theorem inference_cache (key url model_name : pystr) (config : dict)
    (messages : pyval) (project_type : pystr) (w : world) :
  let self := new key url model_name config in
  let call := _make_api_call self messages project_type in
  let request := Spec.request_for self messages in
  (* a fresh entry *)
  (forall t r,
   dict_find (cache w) (cache_key messages project_type) = Some (t, r) ->
   (clock_now (now w) - t < 300 * 1000000)%Z ->
   fst (call w) = Ok r
   /\ posted (snd (call w)) = posted w
   /\ cache (snd (call w)) = cache w)
  /\ (* a stale entry *)
  (forall t r,
   dict_find (cache w) (cache_key messages project_type) = Some (t, r) ->
   (clock_now (now w) - t >= 300 * 1000000)%Z ->
   posted (snd (call w)) = posted w ++ [request])
  /\ (* two calls inside the window, a third after it *)
  (forall body completion,
   dict_find (cache w) (cache_key messages project_type) = None ->
   network w (length (posted w)) = HttpResponse 200 (Ok body) ->
   Spec.completion body = Ok completion ->
   let stored := readings (now w) (reads (now w)) in
   let second := readings (now w) (S (reads (now w))) in
   let third := readings (now w) (S (S (reads (now w)))) in
   fst (call w) = Ok completion
   /\ posted (snd (call w)) = posted w ++ [request]
   /\ ((second - stored < 300 * 1000000)%Z ->
       fst (call (snd (call w))) = Ok completion
       /\ posted (snd (call (snd (call w)))) = posted w ++ [request]
       /\ ((third - stored >= 300 * 1000000)%Z ->
           posted (snd (call (snd (call (snd (call w))))))
           = posted w ++ [request; request]))).
Proof.
  intros self call request.
  refine (conj _ (conj _ _)).
  - intros t r Hfind Hage. unfold call.
    rewrite (make_api_call_hit self messages project_type w t r Hfind Hage).
    now repeat split.
  - intros t r Hfind Hage. unfold call, request.
    apply make_api_call_posts. right. exists t, r. split; [assumption|].
    change (timedelta_seconds (cache_timeout self)) with (300 * 1000000)%Z.
    lia.
  - intros body completion Hfind Hnet Hbody stored second third.
    assert (Hfirst : call w =
      (Ok completion,
       World (dict_set (cache w) (cache_key messages project_type)
                (stored, completion))
         (clock_tick (now w)) (posted w ++ [request]) (network w))).
    { unfold call.
      rewrite (make_api_call_fetch self messages project_type w w
                 (or_introl (conj Hfind eq_refl))).
      cbn zeta. rewrite Hnet. cbn [Z.eqb Pos.eqb rbind]. now rewrite Hbody. }
    rewrite Hfirst. cbn [fst snd].
    refine (conj eq_refl (conj eq_refl _)).
    intros Hsecond.
    set (w1 := World _ (clock_tick (now w)) _ _).
    assert (Hentry : dict_find (cache w1) (cache_key messages project_type)
                     = Some (stored, completion))
      by apply dict_find_set_same.
    assert (Hhit : call w1 = (Ok completion, Spec.ai_tick w1)).
    { unfold call.
      apply (make_api_call_hit self messages project_type w1 stored completion
               Hentry).
      exact Hsecond. }
    rewrite Hhit. cbn [fst snd].
    refine (conj eq_refl (conj eq_refl _)).
    intros Hthird. unfold call, request.
    rewrite make_api_call_posts.
    + cbn [Spec.ai_tick posted w1]. now rewrite <- app_assoc.
    + right. exists stored, completion. split; [exact Hentry|].
      change (timedelta_seconds (cache_timeout self)) with (300 * 1000000)%Z.
      change (clock_now (now (Spec.ai_tick w1))) with third. lia.
Qed.

End InferenceCache.

Section InferenceCacheExample.

Import AI Fixture.

Local Abbreviation toy := Fixture.toy_runtime.
Local Abbreviation ask :=
  (_make_api_call (rt := toy) assistant (PList [message (u "user") (u "ciao")])
     (u "lead")).

(** [inference_cache] on a client whose clock reads 0 s, 299 s and
    300 s and whose network answers once and then fails: the second
    call is served from the cache, the third posts again. *)
Lemma inference_cache_witness :
  fst (ask (client [0; 299000000; 300000000]%Z
              [HttpResponse 200 (Ok (body_with (PStr (u "{}"))))]))
  = Ok (PStr (u "{}"))
  /\ length (posted (snd (ask (client [0; 299000000; 300000000]%Z
              [HttpResponse 200 (Ok (body_with (PStr (u "{}"))))])))) = 1
  /\ fst (ask (snd (ask (client [0; 299000000; 300000000]%Z
              [HttpResponse 200 (Ok (body_with (PStr (u "{}"))))]))))
     = Ok (PStr (u "{}"))
  /\ length (posted (snd (ask (snd (ask (client [0; 299000000; 300000000]%Z
              [HttpResponse 200 (Ok (body_with (PStr (u "{}"))))])))))) = 1
  /\ length (posted (snd (ask (snd (ask (snd (ask
              (client [0; 299000000; 300000000]%Z
                 [HttpResponse 200 (Ok (body_with (PStr (u "{}"))))])))))))) = 2.
Proof.
  unfold assistant.
  destruct (inference_cache (rt := toy) (u "sk-test")
              (u "https://api.deepseek.com/v1/chat/completions")
              (u "deepseek-chat") Config.ai_config
              (PList [message (u "user") (u "ciao")]) (u "lead")
              (client [0; 299000000; 300000000]%Z
                 [HttpResponse 200 (Ok (body_with (PStr (u "{}"))))]))
    as (_ & _ & Hrun).
  destruct (Hrun (body_with (PStr (u "{}"))) (PStr (u "{}")))
    as (H1 & H2 & Hnext); try reflexivity.
  destruct Hnext as (H3 & H4 & Hlast); [vm_compute; reflexivity|].
  refine (conj H1 (conj _ (conj H3 (conj _ _)))).
  - now rewrite H2.
  - now rewrite H4.
  - rewrite Hlast; [reflexivity | vm_compute; discriminate].
Defined.

End InferenceCacheExample.

(** ** The domain callers *)

Section DomainCallers.

Context {rt : Runtime} {pd : AI.Pandas}.

Import AI.

Variable self : UnifiedAIAssistant.

Lemma analyze_lead_data_shape (data : DataFrame) (project_type : pystr) :
  analyze_lead_data self data project_type
  = Spec.domain_caller self (lead_summary data) lead_messages
      (u "analysis") (u "data_summary") (_fallback_lead_analysis data)
      project_type.
Proof. reflexivity. Qed.

Lemma calculate_cpa_metrics_shape (data : DataFrame) (project_type : pystr) :
  calculate_cpa_metrics self data project_type
  = Spec.domain_caller self (cpa_metrics data) cpa_messages
      (u "advanced_analysis") (u "basic_metrics") (_fallback_cpa_analysis data)
      project_type.
Proof. reflexivity. Qed.

Lemma analyze_broker_performance_shape (data : DataFrame)
    (project_type : pystr) :
  analyze_broker_performance self data project_type
  = Spec.domain_caller self (broker_analysis data) broker_messages
      (u "advanced_analysis") (u "basic_analysis")
      (_fallback_broker_analysis data) project_type.
Proof. reflexivity. Qed.

(** [_make_api_call] never raises. *)
Lemma make_api_call_total (messages : pyval) (project_type : pystr) (w : world) :
  exists r w1, _make_api_call self messages project_type w = (Ok r, w1).
Proof.
  unfold _make_api_call, try_except.
  match goal with
  | |- context [match ?m with _ => _ end] => destruct m as [[r|e] w1]
  end; unfold ret; eauto.
Qed.

Lemma timestamp_eval (w : world) :
  timestamp w = (Ok (PStr (isoformat (clock_now (now w)))), Spec.ai_tick w).
Proof. reflexivity. Qed.

Lemma dict_set_nonempty {V} (d : list (pystr * V)) (k : pystr) (v : V) :
  dict_set d k v <> [].
Proof.
  destruct d as [|[k' v'] d]; cbn [dict_set]; [discriminate|].
  destruct (pystr_eqb k' k); discriminate.
Qed.

(** With no answer the caller returns its fallback. *)
Lemma domain_caller_absent (stats : result dict) (prompt : pystr -> pystr -> pyval)
    (raw_key stats_key : pystr) (fallback : dict -> M world dict)
    (project_type : pystr) (s : dict) (dumped : pystr) (r : pyval)
    (w w1 : world) :
  stats = Ok s ->
  json_dumps (PDict s) = Ok dumped ->
  _make_api_call self (prompt project_type dumped) project_type w = (Ok r, w1) ->
  truthy r = false ->
  Spec.domain_caller self stats prompt raw_key stats_key fallback project_type w
  = try_except (fallback s) error_result w1.
Proof.
  intros -> Hd Hcall Hr.
  unfold Spec.domain_caller, try_except, bind, lift.
  rewrite Hd, Hcall. unfold interpret. now rewrite Hr.
Qed.

(** With a text that does not decode the caller wraps the text. *)
Lemma domain_caller_undecodable (stats : result dict)
    (prompt : pystr -> pystr -> pyval)
    (raw_key stats_key : pystr) (fallback : dict -> M world dict)
    (project_type : pystr) (s : dict) (dumped raw : pystr) (e : exn)
    (w w1 : world) :
  stats = Ok s ->
  json_dumps (PDict s) = Ok dumped ->
  _make_api_call self (prompt project_type dumped) project_type w
  = (Ok (PStr raw), w1) ->
  raw <> [] ->
  json_loads raw = Raise e ->
  is_JSONDecodeError e = true ->
  Spec.domain_caller self stats prompt raw_key stats_key fallback project_type w
  = (Ok [ (raw_key, PStr raw); (stats_key, PDict s);
          (u "timestamp", PStr (isoformat (clock_now (now w1)))) ],
     Spec.ai_tick w1).
Proof.
  intros -> Hd Hcall Hraw Hloads Hdec.
  unfold Spec.domain_caller, try_except, bind, lift.
  rewrite Hd, Hcall. unfold interpret.
  destruct raw as [|c raw]; [congruence|]. cbn [truthy].
  unfold try_except, bind, lift, json_loads_value.
  rewrite Hloads, Hdec, timestamp_eval. reflexivity.
Qed.

(** Whatever happens, the caller returns a dictionary that is not
    empty. *)
Lemma domain_caller_total (stats : result dict) (prompt : pystr -> pystr -> pyval)
    (raw_key stats_key : pystr) (fallback : dict -> M world dict)
    (project_type : pystr) (w : world) :
  (forall s w1, exists d w2, fallback s w1 = (Ok d, w2) /\ d <> []) ->
  exists d w', Spec.domain_caller self stats prompt raw_key stats_key fallback
                 project_type w = (Ok d, w')
               /\ d <> [].
Proof.
  intros Hfb.
  assert (Herr : forall e w1, exists d w',
            error_result e w1 = (Ok d, w') /\ d <> []).
  { intros e w1. unfold error_result, bind. rewrite timestamp_eval.
    unfold ret. eexists _, _. split; [reflexivity | discriminate]. }
  unfold Spec.domain_caller, try_except. unfold bind at 1. unfold lift at 1.
  destruct stats as [s|e]; [|apply Herr].
  unfold bind at 1. unfold lift at 1.
  destruct (json_dumps (PDict s)) as [dumped|e]; [|apply Herr].
  unfold bind at 1.
  destruct (make_api_call_total (prompt project_type dumped) project_type w)
    as (r & w1 & ->).
  unfold interpret.
  destruct (truthy r).
  - assert (Hhandler : forall e, exists d w',
              (let (x, s') :=
                 (if is_JSONDecodeError e
                  then bind timestamp (fun t =>
                         ret [ (raw_key, r); (stats_key, PDict s);
                               (u "timestamp", t) ])
                  else raise e) w1 in
               match x with
               | Ok a => (Ok a, s')
               | Raise e' => error_result e' s'
               end) = (Ok d, w') /\ d <> []).
    { intros e. destruct (is_JSONDecodeError e).
      - unfold bind. rewrite timestamp_eval. unfold ret.
        eexists _, _. split; [reflexivity | discriminate].
      - unfold raise. apply Herr. }
    unfold try_except. unfold bind at 1. unfold lift at 1.
    destruct (json_loads_value r) as [parsed|e]; [|apply Hhandler].
    unfold bind at 1. unfold lift at 1.
    destruct (setitem parsed stats_key (PDict s)) as [with_stats|e];
      [|apply Hhandler].
    unfold bind. rewrite timestamp_eval. unfold ret.
    eexists _, _. split; [reflexivity | apply dict_set_nonempty].
  - destruct (Hfb s w1) as (d & w2 & -> & Hd). eauto.
Qed.

(** C2.  When the inference call returns nothing, each domain caller
    returns its fixed fallback: a canned headline, the statistics it
    had computed, a list of two recommendations and the time.  And
    whatever the data, the network and the libraries do, each caller
    returns a dictionary, never an exception and never an empty
    dictionary. *)
Theorem fallback_when_inference_absent (data : DataFrame)
    (project_type : pystr) (w w1 : world) :
  (* lead analysis *)
  (forall stats dumped,
   lead_summary data = Ok stats ->
   json_dumps (PDict stats) = Ok dumped ->
   _make_api_call self (lead_messages project_type dumped) project_type w
   = (Ok PNone, w1) ->
   analyze_lead_data self data project_type w
   = (Ok [ (u "analysis",
            PStr (u "Analisi base completata (AI non disponibile)"));
           (u "data_summary", PDict stats);
           (u "recommendations",
            PList [ PStr (u "Migliorare conversion rate");
                    PStr (u "Ottimizzare fonti lead") ]);
           (u "timestamp", PStr (isoformat (clock_now (now w1)))) ],
      Spec.ai_tick w1))
  /\ (* financial metrics *)
  (forall stats dumped,
   cpa_metrics data = Ok stats ->
   json_dumps (PDict stats) = Ok dumped ->
   _make_api_call self (cpa_messages project_type dumped) project_type w
   = (Ok PNone, w1) ->
   calculate_cpa_metrics self data project_type w
   = (Ok [ (u "roi_analysis", PStr (u "Analisi ROI base completata"));
           (u "basic_metrics", PDict stats);
           (u "recommendations",
            PList [ PStr (u "Ottimizzare budget"); PStr (u "Migliorare ROI") ]);
           (u "timestamp", PStr (isoformat (clock_now (now w1)))) ],
      Spec.ai_tick w1))
  /\ (* broker analysis *)
  (forall stats dumped,
   broker_analysis data = Ok stats ->
   json_dumps (PDict stats) = Ok dumped ->
   _make_api_call self (broker_messages project_type dumped) project_type w
   = (Ok PNone, w1) ->
   analyze_broker_performance self data project_type w
   = (Ok [ (u "broker_rankings", PStr (u "Ranking base completato"));
           (u "basic_analysis", PDict stats);
           (u "recommendations",
            PList [ PStr (u "Diversificare broker");
                    PStr (u "Monitorare performance") ]);
           (u "timestamp", PStr (isoformat (clock_now (now w1)))) ],
      Spec.ai_tick w1))
  /\ (* always a dictionary, never empty *)
  ((exists d w', analyze_lead_data self data project_type w = (Ok d, w')
                 /\ d <> [])
   /\ (exists d w', calculate_cpa_metrics self data project_type w = (Ok d, w')
                    /\ d <> [])
   /\ (exists d w', analyze_broker_performance self data project_type w
                    = (Ok d, w')
                    /\ d <> [])).
Proof.
  refine (conj _ (conj _ (conj _ (conj _ (conj _ _))))).
  - intros stats dumped Hs Hd Hcall. rewrite analyze_lead_data_shape.
    now rewrite (domain_caller_absent _ _ _ _ _ _ stats dumped PNone w w1
                   Hs Hd Hcall eq_refl).
  - intros stats dumped Hs Hd Hcall. rewrite calculate_cpa_metrics_shape.
    now rewrite (domain_caller_absent _ _ _ _ _ _ stats dumped PNone w w1
                   Hs Hd Hcall eq_refl).
  - intros stats dumped Hs Hd Hcall. rewrite analyze_broker_performance_shape.
    now rewrite (domain_caller_absent _ _ _ _ _ _ stats dumped PNone w w1
                   Hs Hd Hcall eq_refl).
  - rewrite analyze_lead_data_shape. apply domain_caller_total.
    intros s w2. eexists _, _. split; [reflexivity | discriminate].
  - rewrite calculate_cpa_metrics_shape. apply domain_caller_total.
    intros s w2. eexists _, _. split; [reflexivity | discriminate].
  - rewrite analyze_broker_performance_shape. apply domain_caller_total.
    intros s w2. eexists _, _. split; [reflexivity | discriminate].
Qed.

(** C7, amended.  When the inference call returns a text that is not
    empty and [json.loads] rejects it with a [JSONDecodeError], the
    caller returns the text as it is together with the local
    statistics and the time: under [analysis] in the lead analysis,
    under [advanced_analysis] in the financial metrics and in the
    broker analysis. *)
Theorem raw_text_is_kept (data : DataFrame) (project_type raw : pystr)
    (e : exn) (w w1 : world) :
  raw <> [] ->
  json_loads raw = Raise e ->
  is_JSONDecodeError e = true ->
  (* lead analysis *)
  (forall stats dumped,
   lead_summary data = Ok stats ->
   json_dumps (PDict stats) = Ok dumped ->
   _make_api_call self (lead_messages project_type dumped) project_type w
   = (Ok (PStr raw), w1) ->
   analyze_lead_data self data project_type w
   = (Ok [ (u "analysis", PStr raw);
           (u "data_summary", PDict stats);
           (u "timestamp", PStr (isoformat (clock_now (now w1)))) ],
      Spec.ai_tick w1))
  /\ (* financial metrics *)
  (forall stats dumped,
   cpa_metrics data = Ok stats ->
   json_dumps (PDict stats) = Ok dumped ->
   _make_api_call self (cpa_messages project_type dumped) project_type w
   = (Ok (PStr raw), w1) ->
   calculate_cpa_metrics self data project_type w
   = (Ok [ (u "advanced_analysis", PStr raw);
           (u "basic_metrics", PDict stats);
           (u "timestamp", PStr (isoformat (clock_now (now w1)))) ],
      Spec.ai_tick w1))
  /\ (* broker analysis *)
  (forall stats dumped,
   broker_analysis data = Ok stats ->
   json_dumps (PDict stats) = Ok dumped ->
   _make_api_call self (broker_messages project_type dumped) project_type w
   = (Ok (PStr raw), w1) ->
   analyze_broker_performance self data project_type w
   = (Ok [ (u "advanced_analysis", PStr raw);
           (u "basic_analysis", PDict stats);
           (u "timestamp", PStr (isoformat (clock_now (now w1)))) ],
      Spec.ai_tick w1)).
Proof.
  intros Hraw Hloads Hdec.
  refine (conj _ (conj _ _)); intros stats dumped Hs Hd Hcall.
  - rewrite analyze_lead_data_shape.
    now apply (domain_caller_undecodable _ _ _ _ _ _ stats dumped raw e).
  - rewrite calculate_cpa_metrics_shape.
    now apply (domain_caller_undecodable _ _ _ _ _ _ stats dumped raw e).
  - rewrite analyze_broker_performance_shape.
    now apply (domain_caller_undecodable _ _ _ _ _ _ stats dumped raw e).
Qed.

End DomainCallers.

Section DomainCallerExamples.

Import AI Fixture.

Local Abbreviation toy := Fixture.toy_runtime.
Local Abbreviation pandas := Fixture.toy_pandas.
Local Abbreviation offline := (client [1000000%Z] []).
Local Abbreviation chatty :=
  (client [1000000%Z; 2000000%Z]
     [HttpResponse 200 (Ok (body_with (PStr (u "Mi dispiace, niente JSON"))))]).
Local Abbreviation silent :=
  (client [1000000%Z; 2000000%Z] [HttpResponse 200 (Ok (body_with (PStr [])))]).
Local Abbreviation lead_stats :=
  (match lead_summary (pd := pandas) leads with Ok s => s | Raise _ => [] end).

(** [fallback_when_inference_absent] with the network down: the lead
    analysis of 100 leads, 37 of them converted, is the fallback, with
    the conversion rate [37.0] among its statistics and two
    recommendations. *)
Lemma fallback_when_inference_absent_witness :
  match fst (analyze_lead_data (rt := toy) (pd := pandas) assistant leads
               (u "lead") offline) with
  | Ok d =>
    dict_find d (u "data_summary") = Some (PDict lead_stats)
    /\ dict_find lead_stats (u "conversion_rate") = Some (PFloat 37%float)
    /\ dict_find lead_stats (u "total_leads") = Some (PInt 100)
    /\ dict_find d (u "recommendations")
       = Some (PList [ PStr (u "Migliorare conversion rate");
                       PStr (u "Ottimizzare fonti lead") ])
  | Raise _ => False
  end.
Proof.
  destruct (fallback_when_inference_absent (rt := toy) (pd := pandas)
              assistant leads (u "lead") offline
              (snd (_make_api_call (rt := toy) assistant
                      (lead_messages (rt := toy) (u "lead") (u "{}"))
                      (u "lead") offline)))
    as (Hlead & _).
  rewrite (Hlead lead_stats (u "{}")).
  - cbn [fst]. refine (conj _ (conj _ (conj _ _))); vm_compute; reflexivity.
  - vm_compute. reflexivity.
  - reflexivity.
  - vm_compute. reflexivity.
Defined.

(** C7, as stated, fails for two of the three callers: a text that does
    not parse comes back under [advanced_analysis], and the result has
    no [analysis] field, in the financial metrics and in the broker
    analysis.  (And an empty text is no answer at all: the lead
    analysis then returns its fallback, whose [analysis] field is the
    canned headline.) *)
Lemma raw_text_not_under_analysis :
  match fst (calculate_cpa_metrics (rt := toy) (pd := pandas) assistant clients
               (u "cpa") chatty) with
  | Ok d =>
    dict_find d (u "analysis") = None
    /\ dict_find d (u "advanced_analysis")
       = Some (PStr (u "Mi dispiace, niente JSON"))
  | Raise _ => False
  end
  /\ match fst (analyze_broker_performance (rt := toy) (pd := pandas) assistant
                  clients (u "prop") chatty) with
     | Ok d =>
       dict_find d (u "analysis") = None
       /\ dict_find d (u "advanced_analysis")
          = Some (PStr (u "Mi dispiace, niente JSON"))
     | Raise _ => False
     end
  /\ match fst (analyze_lead_data (rt := toy) (pd := pandas) assistant leads
                  (u "lead") silent) with
     | Ok d =>
       dict_find d (u "analysis")
       = Some (PStr (u "Analisi base completata (AI non disponibile)"))
     | Raise _ => False
     end.
Proof.
  split; [|split].
  - vm_compute. split; reflexivity.
  - vm_compute. split; reflexivity.
  - vm_compute. reflexivity.
Qed.

(** [raw_text_is_kept] for the lead analysis and the financial
    metrics, on an answer that is no JSON. *)
Lemma raw_text_is_kept_witness :
  match fst (analyze_lead_data (rt := toy) (pd := pandas) assistant leads
               (u "lead") chatty) with
  | Ok d =>
    dict_find d (u "analysis") = Some (PStr (u "Mi dispiace, niente JSON"))
    /\ dict_find d (u "data_summary") = Some (PDict lead_stats)
  | Raise _ => False
  end.
Proof.
  destruct (raw_text_is_kept (rt := toy) (pd := pandas) assistant leads
              (u "lead") (u "Mi dispiace, niente JSON")
              (Exn (u "JSONDecodeError")
                 (u "Expecting value: line 1 column 1 (char 0)"))
              chatty
              (snd (_make_api_call (rt := toy) assistant
                      (lead_messages (rt := toy) (u "lead") (u "{}"))
                      (u "lead") chatty)))
    as (Hlead & _).
  - vm_compute. discriminate.
  - reflexivity.
  - vm_compute. reflexivity.
  - rewrite (Hlead lead_stats (u "{}")).
    + cbn [fst]. split; vm_compute; reflexivity.
    + vm_compute. reflexivity.
    + reflexivity.
    + vm_compute. reflexivity.
Defined.

End DomainCallerExamples.

(** ** Permissions *)

Section Permissions.

Import Auth.

Lemma str_in_iff (x : pystr) (xs : list pystr) : str_in x xs = true <-> In x xs.
Proof.
  unfold str_in. rewrite existsb_exists. split.
  - intros (y & Hy & E). apply pystr_eqb_true in E. now subst.
  - intros H. exists x. split; [exact H | apply pystr_eqb_refl].
Qed.

Lemma granted_iff (p : pystr) (granted : list pystr) :
  @Ok bool (str_in p granted) = Ok true <-> In p granted.
Proof.
  rewrite <- str_in_iff. split; [congruence | now intros ->].
Qed.

(** What [check_permissions] computes. *)
Lemma check_permissions_eval (p : pystr) (w : world) :
  check_permissions p w =
  if authenticated (session w) then
    match get_by_value permissions
            (dict_get (user_info (session w)) (u "role") (PStr (u "viewer")))
            [u "read"] with
    | Ok granted => (Ok (str_in (u "all") granted || str_in p granted), w)
    | Raise e => (Raise e, w)
    end
  else (Ok false, w).
Proof.
  unfold check_permissions, is_authenticated, get_current_user, bind, gets,
    lift, ret.
  destruct (authenticated (session w)); [|reflexivity]. cbn [negb].
  now destruct (get_by_value permissions _ _).
Qed.

Lemma check_permissions_signed_in (p : pystr) (role : pyval) (w : world)
    (granted : list pystr) :
  Spec.signed_in role w ->
  get_by_value permissions role [u "read"] = Ok granted ->
  str_in (u "all") granted = false ->
  check_permissions p w = (Ok (str_in p granted), w).
Proof.
  intros [Ha Hr] Hg Hall. rewrite check_permissions_eval, Ha, Hr, Hg, Hall.
  reflexivity.
Qed.

(** X1.  The four roles form a hierarchy.  In a signed-in session a
    viewer is granted [read] and nothing else, a user [read] and
    [write], a manager [read], [write], [delete] and [manage_team], an
    admin every permission, whatever its name; so what a role is
    granted, every role above it is granted too. *)
Theorem role_hierarchy (p : pystr) (viewer user manager admin : world) :
  Spec.signed_in (PStr (u "viewer")) viewer ->
  Spec.signed_in (PStr (u "user")) user ->
  Spec.signed_in (PStr (u "manager")) manager ->
  Spec.signed_in (PStr (u "admin")) admin ->
  (fst (check_permissions p viewer) = Ok true <-> p = u "read")
  /\ (fst (check_permissions p user) = Ok true
      <-> p = u "read" \/ p = u "write")
  /\ (fst (check_permissions p manager) = Ok true
      <-> p = u "read" \/ p = u "write" \/ p = u "delete"
          \/ p = u "manage_team")
  /\ fst (check_permissions p admin) = Ok true
  /\ (fst (check_permissions p viewer) = Ok true ->
      fst (check_permissions p user) = Ok true)
  /\ (fst (check_permissions p user) = Ok true ->
      fst (check_permissions p manager) = Ok true).
Proof.
  intros Hv Hu Hm Ha.
  assert (Ev : fst (check_permissions p viewer) = Ok true <-> p = u "read").
  { rewrite (check_permissions_signed_in p _ viewer [u "read"] Hv eq_refl eq_refl).
    cbn [fst]. rewrite granted_iff. cbn [In]. intuition congruence. }
  assert (Eu : fst (check_permissions p user) = Ok true
               <-> p = u "read" \/ p = u "write").
  { rewrite (check_permissions_signed_in p _ user [u "read"; u "write"]
               Hu eq_refl eq_refl).
    cbn [fst]. rewrite granted_iff. cbn [In]. intuition congruence. }
  assert (Em : fst (check_permissions p manager) = Ok true
               <-> p = u "read" \/ p = u "write" \/ p = u "delete"
                   \/ p = u "manage_team").
  { rewrite (check_permissions_signed_in p _ manager
               [u "read"; u "write"; u "delete"; u "manage_team"]
               Hm eq_refl eq_refl).
    cbn [fst]. rewrite granted_iff. cbn [In]. intuition congruence. }
  refine (conj Ev (conj Eu (conj Em (conj _ (conj _ _))))).
  - destruct Ha as [Ha Hr]. rewrite check_permissions_eval, Ha, Hr.
    reflexivity.
  - intros H. apply Eu. left. now apply Ev.
  - intros H. apply Em. apply Eu in H. tauto.
Qed.

(** X2.  The edges of [check_permissions].  A session that is not
    authenticated is granted nothing, whatever [user_info] holds.  A
    signed-in session whose role is missing, null, a number or a name
    that is none of [admin], [manager] and [user] is granted [read] and
    nothing else.  A role that is a list or an object makes the check
    raise [TypeError]. *)
Theorem permissions_of_unlisted_roles (p : pystr) (role : pyval) (w : world) :
  (authenticated (session w) = false ->
   check_permissions p w = (Ok false, w))
  /\ (Spec.signed_in role w ->
      match role with
      | PStr s => s <> u "admin" /\ s <> u "manager" /\ s <> u "user"
      | PList _ | PDict _ => False
      | _ => True
      end ->
      snd (check_permissions p w) = w
      /\ (fst (check_permissions p w) = Ok true <-> p = u "read"))
  /\ (Spec.signed_in role w ->
      match role with PList _ | PDict _ => True | _ => False end ->
      fst (check_permissions p w)
      = Raise (TypeError (u "unhashable type: '" ++ type_name role ++ u "'"))).
Proof.
  refine (conj _ (conj _ _)).
  - intros Ha. now rewrite check_permissions_eval, Ha.
  - intros Hs Hrole.
    assert (Hg : get_by_value permissions role [u "read"] = Ok [u "read"]).
    { destruct role as [| | | |s| |]; try reflexivity; try contradiction.
      destruct Hrole as (H1 & H2 & H3). unfold get_by_value. f_equal.
      unfold permissions. cbn [dict_find].
      apply pystr_eqb_false in H1, H2, H3.
      rewrite (pystr_eqb_sym (u "admin") s), H1.
      rewrite (pystr_eqb_sym (u "manager") s), H2.
      rewrite (pystr_eqb_sym (u "user") s), H3.
      now destruct (pystr_eqb (u "viewer") s). }
    rewrite (check_permissions_signed_in p role w [u "read"] Hs Hg eq_refl).
    cbn [fst snd]. split; [reflexivity|].
    rewrite granted_iff. cbn [In]. intuition congruence.
  - intros [Ha Hr] Hrole. rewrite check_permissions_eval, Ha, Hr.
    destruct role; try contradiction; reflexivity.
Qed.

(** X3.  The function [require_auth] makes of another runs it only in
    a session that is authenticated and granted the permission; its
    result is then the function's own.  Otherwise the function is not
    run and the session, the clock and the stores are left as they
    were: an anonymous session is shown the access-denied message, a
    signed-in one without the permission the message that names the
    permission. *)
Theorem require_auth_guards {A} (p : pystr) (func : M world A) (w : world) :
  (authenticated (session w) = false ->
   require_auth p func w = (Ok (inl msg_access_denied), w))
  /\ (authenticated (session w) = true ->
      fst (check_permissions p w) = Ok false ->
      require_auth p func w = (Ok (inl (msg_insufficient p)), w))
  /\ (fst (check_permissions p w) = Ok true ->
      require_auth p func w
      = match func w with
        | (Ok a, w') => (Ok (inr a), w')
        | (Raise e, w') => (Raise e, w')
        end)
  /\ (forall a w', require_auth p func w = (Ok (inr a), w') ->
      fst (check_permissions p w) = Ok true /\ func w = (Ok a, w')).
Proof.
  assert (Hsnd : snd (check_permissions p w) = w).
  { rewrite check_permissions_eval.
    destruct (authenticated (session w)); [|reflexivity].
    now destruct (get_by_value permissions _ _). }
  assert (Hanon : authenticated (session w) = false ->
                  check_permissions p w = (Ok false, w)).
  { intros Ha. now rewrite check_permissions_eval, Ha. }
  unfold require_auth, is_authenticated, bind, gets, ret. cbn beta iota.
  refine (conj _ (conj _ (conj _ _))).
  - intros Ha. now rewrite Ha.
  - intros Ha Hr. rewrite Ha. cbn [negb].
    destruct (check_permissions p w) as [r w1]. cbn [fst snd] in *.
    subst. reflexivity.
  - intros Hr. destruct (authenticated (session w)) eqn:Ha.
    + cbn [negb]. destruct (check_permissions p w) as [r w1].
      cbn [fst snd] in *. subst. cbn [negb].
      now destruct (func w) as [[a|e] w'].
    + rewrite (Hanon eq_refl) in Hr. discriminate Hr.
  - intros a w'. destruct (authenticated (session w)) eqn:Ha;
      cbn [negb]; [|discriminate].
    destruct (check_permissions p w) as [r w1]. cbn [fst snd] in *. subst w1.
    destruct r as [[|]|e]; cbn [negb]; try discriminate.
    destruct (func w) as [[a0|e] w0]; [|discriminate].
    intros H. injection H as -> ->. split; reflexivity.
Qed.

End Permissions.

(** ** Sessions *)

Section Sessions.

Context {rt : Runtime}.

Import Auth.

Lemma set_user_session_eval (user_data : dict) (project_type : pystr)
    (w : world) :
  _set_user_session user_data project_type w =
  (Ok tt,
   World (Session true
            [ (u "id", dict_get user_data (u "id") PNone);
              (u "username", dict_get user_data (u "username") PNone);
              (u "email", dict_get user_data (u "email") PNone);
              (u "first_name", dict_get user_data (u "first_name") PNone);
              (u "last_name", dict_get user_data (u "last_name") PNone);
              (u "role", dict_get user_data (u "role") PNone);
              (u "project_type", PStr project_type);
              (u "login_time", PStr (isoformat (clock_now (now w)))) ]
            (login_attempts (session w)) (last_login_attempt (session w))
            project_type)
     (clock_tick (now w)) (queried w)).
Proof. reflexivity. Qed.

Lemma reset_eval (w : world) :
  _reset_login_attempts w =
  (Ok tt,
   World (Session (authenticated (session w)) (user_info (session w)) 0 None
            (current_project (session w)))
     (now w) (queried w)).
Proof. reflexivity. Qed.

Lemma logout_eval (w : world) :
  logout_user w =
  (Ok tt,
   World (Session false [] (login_attempts (session w))
            (last_login_attempt (session w)) (u "lead"))
     (now w) (queried w)).
Proof. reflexivity. Qed.

(** The limiter reads the counter, the time of the last failure and the
    clock, and nothing else of the world. *)
Lemma check_rate_limit_reads (self : UnifiedAuthSystem) (w w' : world) :
  login_attempts (session w') = login_attempts (session w) ->
  last_login_attempt (session w') = last_login_attempt (session w) ->
  now w' = now w ->
  fst (check_rate_limit self w') = fst (check_rate_limit self w).
Proof.
  intros Ha Hl Hn.
  unfold check_rate_limit, bind, gets, lift, datetime_now, ret.
  cbn beta iota. rewrite Ha.
  destruct (int_ge (login_attempts (session w)) _) as [[|]|e];
    cbn beta iota; try reflexivity.
  rewrite Hl. destruct (last_login_attempt (session w)) as [t|];
    [|reflexivity].
  rewrite Hn. now destruct (_ <? _)%Z.
Qed.

(** The record the search settles on is a row of one of the stores,
    and carries the user name. *)
Lemma first_match_In (username : pystr) (items : list (pystr * store))
    (row : dict) (project : pystr) :
  Spec.first_match username items = Some (row, project) ->
  exists rows, In (project, Table rows) items
               /\ In row rows
               /\ has_username username row = true.
Proof.
  induction items as [|[p s] rest IH]; [discriminate|].
  cbn [Spec.first_match].
  destruct (Spec.records username s) as [|r others] eqn:E.
  - intros H. destruct (IH H) as (rows & H1 & H2 & H3).
    exists rows. repeat split; [now right | exact H2 | exact H3].
  - intros H. injection H as -> ->.
    destruct s as [rows|e]; [|discriminate E]. cbn [Spec.records] in E.
    assert (Hin : In row (filter (has_username username) rows))
      by (rewrite E; now left).
    apply filter_In in Hin. destruct Hin as [H1 H2].
    exists rows. repeat split; [now left | exact H1 | exact H2].
Qed.

(** X4.  A login succeeds only on a record that is there.  When
    [authenticate_user] answers true, the record it returns is a row of
    one of the stores of the system, carries the user name asked for,
    comes first in the search, and its [password_hash] (the empty
    string when it has none) verifies the password; the message greets
    the [first_name] of that row, or the user name when it has none. *)
Theorem successful_login_is_sound (self : UnifiedAuthSystem)
    (username password msg : pystr) (data : dict) (w : world) :
  fst (authenticate_user self username password w) = Ok (true, msg, data) ->
  (exists project rows,
     In (project, Table rows) (db_managers self)
     /\ In data rows
     /\ has_username username data = true
     /\ Spec.first_match username (db_managers self) = Some (data, project)
     /\ current_project (session (snd (authenticate_user self username
                                         password w))) = project)
  /\ verify_password_value password
       (dict_get data (u "password_hash") (PStr [])) = true
  /\ msg = msg_welcome (dict_get data (u "first_name") (PStr username))
  /\ fst (check_rate_limit self w) = Ok true.
Proof.
  destruct (check_rate_limit self w) as [[[|]|e] w1] eqn:E.
  - destruct (authenticate_by_credentials self username password w w1 E)
      as [Hyes Hno].
    destruct (Spec.accepts self username password).
    + destruct (Hyes eq_refl) as (user_data & project & Hf & _ & Hv & Hout).
      rewrite Hout. cbn [fst snd]. intros H. injection H as <- <-.
      destruct (first_match_In username (db_managers self) user_data project Hf)
        as (rows & H1 & H2 & H3).
      refine (conj _ (conj Hv (conj eq_refl eq_refl))).
      exists project, rows. repeat split; assumption.
    + destruct (Hno eq_refl) as (m & _ & Hout). rewrite Hout. discriminate.
  - rewrite (authenticate_denied self username password w w1 E). discriminate.
  - rewrite (authenticate_error self username password w w1 e E). discriminate.
Qed.

(** X5.  [authenticate_user] never raises, and a login it refuses
    leaves the identity of the session alone: the record returned is
    empty, and [authenticated], [user_info] and [current_project] are
    what they were, so a failed login does not sign out the user who
    was signed in.  The message is one of four: the lockout, the
    unknown user, the wrong password, or the system error with the text
    of the exception. *)
Theorem refused_login_keeps_identity (self : UnifiedAuthSystem)
    (username password : pystr) (w : world) :
  let out := authenticate_user self username password w in
  (exists ok msg data, fst out = Ok (ok, msg, data))
  /\ (forall msg data,
      fst out = Ok (false, msg, data) ->
      data = []
      /\ authenticated (session (snd out)) = authenticated (session w)
      /\ user_info (session (snd out)) = user_info (session w)
      /\ current_project (session (snd out)) = current_project (session w)
      /\ (msg = msg_locked \/ msg = msg_not_found \/ msg = msg_wrong_password
          \/ exists e, msg = msg_system_error e)).
Proof.
  cbn zeta.
  destruct (check_rate_limit self w) as [[[|]|e] w1] eqn:E;
    destruct (check_rate_limit_frame self w w1 _ E) as [Hs Hq].
  - destruct (authenticate_by_credentials self username password w w1 E)
      as [Hyes Hno].
    destruct (Spec.accepts self username password).
    + destruct (Hyes eq_refl) as (user_data & project & _ & _ & _ & Hout).
      rewrite Hout. cbn [fst snd]. split; [eauto|]. discriminate.
    + destruct (Hno eq_refl) as (m & Hm & Hout). rewrite Hout, increment_eval.
      cbn [fst snd session authenticated user_info current_project
           Spec.after_queries].
      split; [eauto|]. intros msg data H. injection H as <- <-.
      rewrite Hs. repeat (split; [reflexivity|]).
      destruct Hm as [-> | ->]; [right; now left | right; right; now left].
  - rewrite (authenticate_denied self username password w w1 E).
    cbn [fst snd]. split; [eauto|]. intros msg data H. injection H as <- <-.
    rewrite Hs. repeat (split; [reflexivity|]). now left.
  - rewrite (authenticate_error self username password w w1 e E).
    cbn [fst snd]. split; [eauto|]. intros msg data H. injection H as <- <-.
    rewrite Hs. repeat (split; [reflexivity|]).
    right. right. right. now exists e.
Qed.

(** X6.  Logging out signs the user out and returns to the lead
    project, but keeps the record of failed logins: the counter, the
    time of the last failure, the clock and the trace of queries are
    untouched, so the limiter answers after the logout what it answered
    before, and a lockout cannot be lifted by logging out.  After it no
    permission is granted. *)
Theorem logout_keeps_lockout (self : UnifiedAuthSystem) (w : world) :
  let w' := snd (logout_user w) in
  fst (logout_user w) = Ok tt
  /\ authenticated (session w') = false
  /\ user_info (session w') = []
  /\ current_project (session w') = u "lead"
  /\ login_attempts (session w') = login_attempts (session w)
  /\ last_login_attempt (session w') = last_login_attempt (session w)
  /\ now w' = now w
  /\ queried w' = queried w
  /\ fst (check_rate_limit self w') = fst (check_rate_limit self w)
  /\ (forall p, fst (check_permissions p w') = Ok false).
Proof.
  cbn zeta. rewrite logout_eval. cbn [fst snd].
  refine (conj eq_refl (conj eq_refl (conj eq_refl (conj eq_refl
           (conj eq_refl (conj eq_refl (conj eq_refl (conj eq_refl
           (conj _ _))))))))).
  - now apply check_rate_limit_reads.
  - intros p. reflexivity.
Qed.

(** The tag of the record the search settles on is one of the tags of
    the stores. *)
Lemma first_match_tag (username : pystr) (items : list (pystr * store))
    (row : dict) (project : pystr) :
  Spec.first_match username items = Some (row, project) ->
  In project (map fst items).
Proof.
  intros H. destruct (first_match_In username items row project H)
    as (rows & Hin & _).
  apply in_map_iff. now exists (project, Table rows).
Qed.

Local Abbreviation steady := Spec.steady.

Lemma steady_perform (config : dict) (lead cpa prop : store)
    (a : Spec.action) (w : world) :
  steady (session w) ->
  steady (session (Spec.perform (new config lead cpa prop) a w)).
Proof.
  set (self := new config lead cpa prop).
  intros (Hp & Hu & Hn & Hl). destruct a as [username password| |project_type];
    cbn [Spec.perform].
  - (* a login *)
    destruct (check_rate_limit self w) as [[[|]|e] w1] eqn:E;
      destruct (check_rate_limit_frame self w w1 _ E) as [Hs Hq].
    + destruct (authenticate_by_credentials self username password w w1 E)
        as [Hyes Hno].
      destruct (Spec.accepts self username password).
      * destruct (Hyes eq_refl) as (user_data & project & Hf & _ & _ & Hout).
        rewrite Hout, set_user_session_eval, reset_eval.
        cbn [snd session]. unfold Spec.steady.
        cbn [current_project authenticated user_info login_attempts
             last_login_attempt map fst].
        apply first_match_tag in Hf.
        repeat split; easy.
      * destruct (Hno eq_refl) as (m & _ & Hout).
        rewrite Hout, increment_eval.
        cbn [snd session Spec.after_queries]. unfold Spec.steady.
        cbn [current_project authenticated user_info login_attempts
             last_login_attempt].
        rewrite Hs. repeat split; try easy; try lia.
    + rewrite (authenticate_denied self username password w w1 E).
      cbn [snd]. rewrite Hs. exact (conj Hp (conj Hu (conj Hn Hl))).
    + rewrite (authenticate_error self username password w w1 e E).
      cbn [snd]. rewrite Hs. exact (conj Hp (conj Hu (conj Hn Hl))).
  - (* a logout *)
    rewrite logout_eval. cbn [snd session]. unfold Spec.steady.
    cbn [current_project authenticated user_info login_attempts
         last_login_attempt].
    repeat split; try easy; try apply Hl. now left.
  - (* a change of project *)
    unfold switch_project.
    destruct (str_in project_type [u "lead"; u "cpa"; u "prop"]) eqn:Ein.
    + apply str_in_iff in Ein. exact (conj Ein (conj Hu (conj Hn Hl))).
    + exact (conj Hp (conj Hu (conj Hn Hl))).
Qed.

(** X7.  What holds of a session at all times.  From a session that
    has just been initialised, after any sequence of logins, logouts
    and changes of project on a system over the three stores: the
    current project is one of [lead], [cpa] and [prop]; [user_info] is
    empty when nobody is signed in and holds exactly the eight session
    fields when somebody is; the counter of failures is not negative,
    and it is zero exactly when no time of a last failure is kept. *)
Theorem session_invariants (config : dict) (lead cpa prop : store)
    (actions : list Spec.action) (c : clock) (trace : list pystr) :
  let s := session (Spec.run (new config lead cpa prop) actions
                      (World init_session_state c trace)) in
  In (current_project s) [u "lead"; u "cpa"; u "prop"]
  /\ (authenticated s = false -> user_info s = [])
  /\ (authenticated s = true -> map fst (user_info s) = Spec.session_keys)
  /\ (0 <= login_attempts s)%Z
  /\ (last_login_attempt s = None <-> login_attempts s = 0%Z).
Proof.
  cbn zeta.
  assert (H : forall w, steady (session w) ->
                        steady (session (Spec.run (new config lead cpa prop)
                                           actions w))).
  { unfold Spec.run. induction actions as [|a rest IH]; intros w Hw.
    - exact Hw.
    - cbn [fold_left]. apply IH. now apply steady_perform. }
  destruct (H (World init_session_state c trace)) as (H1 & H2 & H3 & H4).
  { unfold Spec.steady. cbn. repeat split; try easy. now left. }
  refine (conj H1 (conj _ (conj _ (conj H3 H4)))).
  - intros Ha. now rewrite Ha in H2.
  - intros Ha. now rewrite Ha in H2.
Qed.

End Sessions.

(** ** Logins at the edges *)

Section LoginEdges.

Context {rt : Runtime}.

Import Auth.

(** X8.  What a successful login leaves in the session: [user_info]
    holds the eight session fields and nothing else, so the
    [password_hash] of the record is not copied into the session; the
    six fields taken from the record hold what [get] gives (null for a
    field the record lacks); [project_type] is the current project; the
    session is signed in under the role of the record, and the record
    of failed logins is cleared. *)
Theorem login_fills_session (self : UnifiedAuthSystem)
    (username password msg : pystr) (data : dict) (w : world) :
  fst (authenticate_user self username password w) = Ok (true, msg, data) ->
  let w' := snd (authenticate_user self username password w) in
  map fst (user_info (session w')) = Spec.session_keys
  /\ dict_find (user_info (session w')) (u "password_hash") = None
  /\ (forall k,
      In k [u "id"; u "username"; u "email"; u "first_name"; u "last_name";
            u "role"] ->
      dict_find (user_info (session w')) k = Some (dict_get data k PNone))
  /\ dict_find (user_info (session w')) (u "project_type")
     = Some (PStr (current_project (session w')))
  /\ Spec.signed_in (dict_get data (u "role") PNone) w'
  /\ login_attempts (session w') = 0%Z
  /\ last_login_attempt (session w') = None.
Proof.
  destruct (check_rate_limit self w) as [[[|]|e] w1] eqn:E.
  - destruct (authenticate_by_credentials self username password w w1 E)
      as [Hyes Hno].
    destruct (Spec.accepts self username password).
    + destruct (Hyes eq_refl) as (user_data & project & _ & _ & _ & Hout).
      rewrite Hout, set_user_session_eval, reset_eval.
      cbn [fst snd session now queried]. intros H. injection H as <- <-.
      cbn [user_info current_project authenticated login_attempts
           last_login_attempt].
      refine (conj eq_refl (conj eq_refl (conj _ (conj eq_refl
               (conj (conj eq_refl eq_refl) (conj eq_refl eq_refl)))))).
      intros k [<-|[<-|[<-|[<-|[<-|[<-|[]]]]]]]; reflexivity.
    + destruct (Hno eq_refl) as (m & _ & Hout). rewrite Hout. discriminate.
  - rewrite (authenticate_denied self username password w w1 E). discriminate.
  - rewrite (authenticate_error self username password w w1 e E). discriminate.
Qed.

(** X9.  A limit that is no number blocks every login.  When
    [max_login_attempts] is configured as a string, null, a list or an
    object, the comparison of the counter with it raises [TypeError],
    and every call of [authenticate_user] answers with the system-error
    message that carries that text: no store is queried, no failure is
    recorded, the clock is not read. *)
Theorem non_numeric_limit_blocks_logins (self : UnifiedAuthSystem)
    (username password : pystr) (w : world) :
  match Spec.max_login_attempts (auth_config self) with
  | PInt _ | PBool _ | PFloat _ => False
  | _ => True
  end ->
  authenticate_user self username password w
  = (Ok (false,
         msg_system_error
           (TypeError
              (u "'>=' not supported between instances of 'int' and '"
               ++ type_name (Spec.max_login_attempts (auth_config self))
               ++ u "'")),
         []),
     w).
Proof.
  intros Hv.
  apply (authenticate_error self username password w w
           (TypeError
              (u "'>=' not supported between instances of 'int' and '"
               ++ type_name (Spec.max_login_attempts (auth_config self))
               ++ u "'"))).
  unfold check_rate_limit, bind, gets, lift. cbn beta iota.
  unfold Spec.max_login_attempts in *.
  destruct (dict_get (auth_config self) (u "max_login_attempts") (PInt 3));
    try contradiction; reflexivity.
Qed.

(** X10.  The end of a lockout does not clear the counter.  With the
    limit reached and the 15 minutes over, a login is let through; if
    it fails it is counted and its time kept, and from that time the
    limiter refuses every login for another 15 minutes.  So after a
    lockout has run out a single failed login locks the session
    again. *)
Theorem expired_lockout_is_rearmed (self : UnifiedAuthSystem) (N : Z)
    (t : datetime) (username password : pystr) (w : world) :
  Spec.max_login_attempts (auth_config self) = PInt N ->
  (N <= login_attempts (session w))%Z ->
  last_login_attempt (session w) = Some t ->
  Spec.accepts self username password = false ->
  let first := readings (now w) (reads (now w)) in
  let second := readings (now w) (S (reads (now w))) in
  let third := readings (now w) (S (S (reads (now w)))) in
  (first - t >= Spec.lockout_window)%Z ->
  let out := authenticate_user self username password w in
  (exists msg, fst out = Ok (false, msg, [])
               /\ (msg = msg_not_found \/ msg = msg_wrong_password))
  /\ login_attempts (session (snd out)) = (login_attempts (session w) + 1)%Z
  /\ last_login_attempt (session (snd out)) = Some second
  /\ ((third - second < Spec.lockout_window)%Z ->
      forall username' password',
      fst (authenticate_user self username' password' (snd out))
      = Ok (false, msg_locked, [])).
Proof.
  intros Hcfg Hreached Hlast Hbad first second third Hover out.
  assert (Hallow : check_rate_limit self w = (Ok true, Spec.tick w)).
  { rewrite (check_rate_limit_eval self N w Hcfg), Hlast.
    assert (H1 : (N <=? login_attempts (session w))%Z = true)
      by (apply Z.leb_le; lia).
    rewrite H1. unfold clock_now. fold first.
    assert (H2 : (first - t <? Spec.lockout_window)%Z = false)
      by (apply Z.ltb_ge; lia).
    now rewrite H2. }
  destruct (authenticate_by_credentials self username password w _ Hallow)
    as [_ Hno].
  destruct (Hno Hbad) as (msg & Hmsg & Hout).
  rewrite increment_eval in Hout.
  cbn [snd session now queried Spec.after_queries Spec.tick clock_tick
       clock_now readings reads] in Hout.
  fold second in Hout.
  unfold out. rewrite Hout. cbn [fst snd session login_attempts
                                 last_login_attempt].
  refine (conj _ (conj eq_refl (conj eq_refl _))).
  - exists msg. now split.
  - intros Hin username' password'.
    match goal with |- fst (authenticate_user _ _ _ ?w2) = _ =>
      assert (Hdeny : check_rate_limit self w2 = (Ok false, Spec.tick w2))
    end.
    { rewrite (check_rate_limit_eval self N _ Hcfg).
      cbn [session login_attempts last_login_attempt now clock_now readings
           reads].
      assert (H1 : (N <=? login_attempts (session w) + 1)%Z = true)
        by (apply Z.leb_le; lia).
      rewrite H1. unfold clock_now.
      cbn [now clock_tick readings reads]. fold second third.
      assert (H2 : (third - second <? Spec.lockout_window)%Z = true)
        by (apply Z.ltb_lt; lia).
      now rewrite H2. }
    now rewrite (authenticate_denied self username' password' _ _ Hdeny).
Qed.

Lemma verify_password_empty_hash (password : pystr) :
  verify_password password [] = pystr_eqb [] password.
Proof.
  unfold verify_password, verify_password_body.
  change (startswith [] (u "$2b$")) with false. cbn iota.
  destruct password; reflexivity.
Qed.

(** X11.  A record without a usable [password_hash].  When the record
    the search settles on has no [password_hash] field, the login
    succeeds exactly for the empty password; when the field holds
    something that is not a string (null, a number), no password is
    accepted. *)
Theorem login_without_password_hash (self : UnifiedAuthSystem)
    (username password project : pystr) (row : dict) (w w1 : world) :
  check_rate_limit self w = (Ok true, w1) ->
  Spec.first_match username (db_managers self) = Some (row, project) ->
  row <> [] ->
  let out := authenticate_user self username password w in
  (dict_find row (u "password_hash") = None ->
   ((exists msg, fst out = Ok (true, msg, row)) <-> password = []))
  /\ (forall v,
      dict_find row (u "password_hash") = Some v ->
      match v with PStr _ => False | _ => True end ->
      fst out = Ok (false, msg_wrong_password, [])).
Proof.
  intros Hallow Hf Hne out. unfold out.
  rewrite (authenticate_allowed self username password w w1 Hallow).
  cbn zeta. rewrite Hf. destruct row as [|kv row]; [congruence|].
  unfold dict_get. split.
  - intros Hnone. rewrite Hnone. cbn [verify_password_value].
    rewrite verify_password_empty_hash.
    destruct password as [|c r]; cbn [fst].
    + split; [reflexivity|]. intros _. eexists. reflexivity.
    + split; [|discriminate]. intros [msg H]. discriminate H.
  - intros v Hv Hns. rewrite Hv.
    destruct v; try contradiction; reflexivity.
Qed.

End LoginEdges.

(** ** The inference client under failure *)

Section InferenceFailures.

Context {rt : Runtime}.

Import AI.

Variable self : UnifiedAIAssistant.

(** X12.  A failed exchange is answered with nothing, is not retried
    and is not remembered.  When the cache holds no entry for the
    prompt and the exchange gives no completion (the request raises,
    the status is not 200, the body is no JSON or lacks the first
    completion), [_make_api_call] returns [None] after posting one
    request, whatever [retry_attempts] the configuration names, and
    leaves the cache and the clock as they were; the next identical
    call therefore posts the request again. *)
Theorem failed_exchange_is_not_cached (messages : pyval)
    (project_type : pystr) (w : world) :
  let call := _make_api_call self messages project_type in
  let request := Spec.request_for self messages in
  dict_find (cache w) (cache_key messages project_type) = None ->
  Spec.exchange_failed (network w (length (posted w))) = true ->
  fst (call w) = Ok PNone
  /\ posted (snd (call w)) = posted w ++ [request]
  /\ cache (snd (call w)) = cache w
  /\ now (snd (call w)) = now w
  /\ posted (snd (call (snd (call w)))) = posted w ++ [request; request].
Proof.
  intros call request Hnone Hfail.
  assert (Hcall : call w
                  = (Ok PNone,
                     World (cache w) (now w) (posted w ++ [request])
                       (network w))).
  { unfold call.
    rewrite (make_api_call_fetch self messages project_type w w
               (or_introl (conj Hnone eq_refl))).
    cbn zeta. unfold Spec.exchange_failed in Hfail. fold request.
    destruct (network w (length (posted w))) as [e|status_code json];
      [reflexivity|].
    destruct (status_code =? 200)%Z; [|reflexivity].
    cbn [negb orb] in Hfail.
    destruct (rbind json Spec.completion); [discriminate | reflexivity]. }
  rewrite Hcall. cbn [fst snd posted cache now].
  refine (conj eq_refl (conj eq_refl (conj eq_refl (conj eq_refl _)))).
  unfold call.
  rewrite (make_api_call_posts self messages project_type
             (World (cache w) (now w) (posted w ++ [request]) (network w))
             (or_introl Hnone)).
  cbn [posted]. fold request. now rewrite <- app_assoc.
Qed.

(** X13.  One call, one request at most.  Whatever the cache, the
    clock and the network do, a call of [_make_api_call] never raises
    and either posts nothing or posts the one request for its prompt;
    it never posts twice. *)
Theorem at_most_one_request (messages : pyval) (project_type : pystr)
    (w : world) :
  let out := _make_api_call self messages project_type w in
  (exists answer, fst out = Ok answer)
  /\ (posted (snd out) = posted w
      \/ posted (snd out) = posted w ++ [Spec.request_for self messages])
  /\ network (snd out) = network w.
Proof.
  cbn zeta.
  destruct (dict_find (cache w) (cache_key messages project_type))
    as [[t r]|] eqn:Hfind.
  - destruct (Z.ltb_spec (clock_now (now w) - t)
                (timedelta_seconds (cache_timeout self))) as [Hfresh|Hstale].
    + rewrite (make_api_call_hit self messages project_type w t r Hfind Hfresh).
      cbn [fst snd Spec.ai_tick posted network]. split; [eauto|]. now split; [left|].
    + rewrite (make_api_call_fetch self messages project_type w (Spec.ai_tick w)
                 (or_intror (ex_intro _ t (ex_intro _ r
                               (conj Hfind (conj Hstale eq_refl)))))).
      cbn zeta. cbn [Spec.ai_tick posted network cache now].
      destruct (network w (length (posted w))) as [e|status_code json].
      * cbn [fst snd posted network]. split; [eauto|]. now split; [right|].
      * destruct (status_code =? 200)%Z.
        -- destruct (rbind json Spec.completion);
             cbn [fst snd posted network]; (split; [eauto|]);
             now split; [right|].
        -- cbn [fst snd posted network]. split; [eauto|]. now split; [right|].
  - rewrite (make_api_call_fetch self messages project_type w w
               (or_introl (conj Hfind eq_refl))).
    cbn zeta.
    destruct (network w (length (posted w))) as [e|status_code json].
    + cbn [fst snd posted network]. split; [eauto|]. now split; [right|].
    + destruct (status_code =? 200)%Z.
      * destruct (rbind json Spec.completion);
          cbn [fst snd posted network]; (split; [eauto|]);
          now split; [right|].
      * cbn [fst snd posted network]. split; [eauto|]. now split; [right|].
Qed.

End InferenceFailures.

(** ** The answers of the inference service *)

Section Answers.

Context {rt : Runtime} {pd : AI.Pandas}.

Import AI.

Variable self : UnifiedAIAssistant.

Lemma dict_find_set_other {V} (d : list (pystr * V)) (k k' : pystr) (v : V) :
  k' <> k -> dict_find (dict_set d k v) k' = dict_find d k'.
Proof.
  intros Hne. induction d as [|[k0 v0] d IH]; cbn [dict_set dict_find].
  - assert (H : pystr_eqb k k' = false) by (apply pystr_eqb_false; congruence).
    now rewrite H.
  - destruct (pystr_eqb k0 k) eqn:E; cbn [dict_find].
    + apply pystr_eqb_true in E. subst k0.
      assert (H : pystr_eqb k k' = false)
        by (apply pystr_eqb_false; congruence).
      now rewrite H.
    + now rewrite IH.
Qed.

(** With an answer that parses to an object the caller completes the
    object. *)
Lemma domain_caller_parsed (stats : result dict)
    (prompt : pystr -> pystr -> pyval)
    (raw_key stats_key : pystr) (fallback : dict -> M world dict)
    (project_type : pystr) (s d : dict) (dumped raw : pystr)
    (w w1 : world) :
  stats = Ok s ->
  json_dumps (PDict s) = Ok dumped ->
  _make_api_call self (prompt project_type dumped) project_type w
  = (Ok (PStr raw), w1) ->
  raw <> [] ->
  json_loads raw = Ok (PDict d) ->
  Spec.domain_caller self stats prompt raw_key stats_key fallback project_type w
  = (Ok (dict_set (dict_set d stats_key (PDict s)) (u "timestamp")
           (PStr (isoformat (clock_now (now w1))))),
     Spec.ai_tick w1).
Proof.
  intros -> Hd Hcall Hraw Hloads.
  unfold Spec.domain_caller, try_except, bind, lift.
  rewrite Hd, Hcall. unfold interpret.
  destruct raw as [|c raw]; [congruence|]. cbn [truthy].
  unfold try_except, bind, lift, json_loads_value.
  rewrite Hloads. cbn [setitem]. rewrite timestamp_eval. reflexivity.
Qed.

(** The fields of a completed object. *)
Lemma completed_fields (d s : dict) (stats_key : pystr) (t : pyval) :
  stats_key <> u "timestamp" ->
  let r := dict_set (dict_set d stats_key (PDict s)) (u "timestamp") t in
  dict_find r stats_key = Some (PDict s)
  /\ dict_find r (u "timestamp") = Some t
  /\ (forall k, k <> stats_key -> k <> u "timestamp" ->
                dict_find r k = dict_find d k).
Proof.
  intros Hne r. unfold r. refine (conj _ (conj _ _)).
  - rewrite dict_find_set_other by exact Hne. apply dict_find_set_same.
  - apply dict_find_set_same.
  - intros k H1 H2. now rewrite !dict_find_set_other by assumption.
Qed.

(** X14.  An answer that is a JSON object is completed, not trusted.
    When the inference call returns a text that [json.loads] reads as
    an object, each caller returns that object with the local
    statistics stored under its statistics field and the time under
    [timestamp]: a field of the same name in the answer is overwritten,
    every other field of the answer is kept as it is. *)
Theorem parsed_answer_is_completed (data : DataFrame)
    (project_type raw : pystr) (d : dict) (w w1 : world) :
  raw <> [] ->
  json_loads raw = Ok (PDict d) ->
  (* lead analysis *)
  (forall stats dumped,
   lead_summary data = Ok stats ->
   json_dumps (PDict stats) = Ok dumped ->
   _make_api_call self (lead_messages project_type dumped) project_type w
   = (Ok (PStr raw), w1) ->
   exists r,
     analyze_lead_data self data project_type w = (Ok r, Spec.ai_tick w1)
     /\ dict_find r (u "data_summary") = Some (PDict stats)
     /\ dict_find r (u "timestamp")
        = Some (PStr (isoformat (clock_now (now w1))))
     /\ (forall k, k <> u "data_summary" -> k <> u "timestamp" ->
                   dict_find r k = dict_find d k))
  /\ (* financial metrics *)
  (forall stats dumped,
   cpa_metrics data = Ok stats ->
   json_dumps (PDict stats) = Ok dumped ->
   _make_api_call self (cpa_messages project_type dumped) project_type w
   = (Ok (PStr raw), w1) ->
   exists r,
     calculate_cpa_metrics self data project_type w = (Ok r, Spec.ai_tick w1)
     /\ dict_find r (u "basic_metrics") = Some (PDict stats)
     /\ dict_find r (u "timestamp")
        = Some (PStr (isoformat (clock_now (now w1))))
     /\ (forall k, k <> u "basic_metrics" -> k <> u "timestamp" ->
                   dict_find r k = dict_find d k))
  /\ (* broker analysis *)
  (forall stats dumped,
   broker_analysis data = Ok stats ->
   json_dumps (PDict stats) = Ok dumped ->
   _make_api_call self (broker_messages project_type dumped) project_type w
   = (Ok (PStr raw), w1) ->
   exists r,
     analyze_broker_performance self data project_type w
     = (Ok r, Spec.ai_tick w1)
     /\ dict_find r (u "basic_analysis") = Some (PDict stats)
     /\ dict_find r (u "timestamp")
        = Some (PStr (isoformat (clock_now (now w1))))
     /\ (forall k, k <> u "basic_analysis" -> k <> u "timestamp" ->
                   dict_find r k = dict_find d k)).
Proof.
  intros Hraw Hloads. refine (conj _ (conj _ _)); intros stats dumped Hs Hd Hcall.
  - rewrite analyze_lead_data_shape.
    rewrite (domain_caller_parsed _ _ _ _ _ _ stats d dumped raw w w1
               Hs Hd Hcall Hraw Hloads).
    eexists. split; [reflexivity|].
    apply completed_fields. intros H. vm_compute in H. discriminate H.
  - rewrite calculate_cpa_metrics_shape.
    rewrite (domain_caller_parsed _ _ _ _ _ _ stats d dumped raw w w1
               Hs Hd Hcall Hraw Hloads).
    eexists. split; [reflexivity|].
    apply completed_fields. intros H. vm_compute in H. discriminate H.
  - rewrite analyze_broker_performance_shape.
    rewrite (domain_caller_parsed _ _ _ _ _ _ stats d dumped raw w w1
               Hs Hd Hcall Hraw Hloads).
    eexists. split; [reflexivity|].
    apply completed_fields. intros H. vm_compute in H. discriminate H.
Qed.

End Answers.

(** ** Answers and statistics that cannot be used *)

Section UnusableAnswers.

Context {rt : Runtime} {pd : AI.Pandas}.

Import AI.

Variable self : UnifiedAIAssistant.

(** The text of the [TypeError] that storing a field in [v] raises. *)
Local Abbreviation no_item_assignment v :=
  (match v with
   | PList _ => u "list indices must be integers or slices, not str"
   | _ => u "'" ++ type_name v ++ u "' object does not support item assignment"
   end).

(** With an answer that parses to something that is no object the
    caller ends in its error handler. *)
Lemma domain_caller_not_an_object (stats : result dict)
    (prompt : pystr -> pystr -> pyval)
    (raw_key stats_key : pystr) (fallback : dict -> M world dict)
    (project_type : pystr) (s : dict) (dumped raw : pystr) (v : pyval)
    (w w1 : world) :
  stats = Ok s ->
  json_dumps (PDict s) = Ok dumped ->
  _make_api_call self (prompt project_type dumped) project_type w
  = (Ok (PStr raw), w1) ->
  raw <> [] ->
  json_loads raw = Ok v ->
  match v with PDict _ => False | _ => True end ->
  Spec.domain_caller self stats prompt raw_key stats_key fallback project_type w
  = (Ok [ (u "error", PStr (no_item_assignment v));
          (u "timestamp", PStr (isoformat (clock_now (now w1)))) ],
     Spec.ai_tick w1).
Proof.
  intros -> Hd Hcall Hraw Hloads Hv.
  unfold Spec.domain_caller, try_except, bind, lift.
  rewrite Hd, Hcall. unfold interpret.
  destruct raw as [|c raw]; [congruence|]. cbn [truthy].
  unfold try_except, bind, lift, json_loads_value.
  rewrite Hloads.
  destruct v; try contradiction; cbn [setitem];
    match goal with
    | |- context [is_JSONDecodeError ?e] =>
      change (is_JSONDecodeError e) with false
    end;
    unfold raise, error_result, bind; rewrite timestamp_eval; reflexivity.
Qed.

(** X15.  An answer that is valid JSON but no object costs the
    statistics.  When the inference call returns a text that
    [json.loads] reads as a list, a string, a number, a boolean or
    null, storing the statistics in it raises [TypeError], which the
    handler of the unparsable answer does not catch: each caller
    returns the error object, with the text of the exception and the
    time, and neither the answer nor the local statistics. *)
Theorem non_object_answer_is_an_error (data : DataFrame)
    (project_type raw : pystr) (v : pyval) (w w1 : world) :
  raw <> [] ->
  json_loads raw = Ok v ->
  match v with PDict _ => False | _ => True end ->
  let failure :=
    (Ok [ (u "error", PStr (no_item_assignment v));
          (u "timestamp", PStr (isoformat (clock_now (now w1)))) ],
     Spec.ai_tick w1) in
  (forall stats dumped,
   lead_summary data = Ok stats ->
   json_dumps (PDict stats) = Ok dumped ->
   _make_api_call self (lead_messages project_type dumped) project_type w
   = (Ok (PStr raw), w1) ->
   analyze_lead_data self data project_type w = failure)
  /\ (forall stats dumped,
      cpa_metrics data = Ok stats ->
      json_dumps (PDict stats) = Ok dumped ->
      _make_api_call self (cpa_messages project_type dumped) project_type w
      = (Ok (PStr raw), w1) ->
      calculate_cpa_metrics self data project_type w = failure)
  /\ (forall stats dumped,
      broker_analysis data = Ok stats ->
      json_dumps (PDict stats) = Ok dumped ->
      _make_api_call self (broker_messages project_type dumped) project_type w
      = (Ok (PStr raw), w1) ->
      analyze_broker_performance self data project_type w = failure).
Proof.
  intros Hraw Hloads Hv failure.
  refine (conj _ (conj _ _)); intros stats dumped Hs Hd Hcall.
  - rewrite analyze_lead_data_shape.
    exact (domain_caller_not_an_object _ _ _ _ _ _ stats dumped raw v w w1
             Hs Hd Hcall Hraw Hloads Hv).
  - rewrite calculate_cpa_metrics_shape.
    exact (domain_caller_not_an_object _ _ _ _ _ _ stats dumped raw v w w1
             Hs Hd Hcall Hraw Hloads Hv).
  - rewrite analyze_broker_performance_shape.
    exact (domain_caller_not_an_object _ _ _ _ _ _ stats dumped raw v w w1
             Hs Hd Hcall Hraw Hloads Hv).
Qed.

(** When the statistics cannot be computed or serialised the caller
    ends in its error handler at once. *)
Lemma domain_caller_no_statistics (stats : result dict)
    (prompt : pystr -> pystr -> pyval)
    (raw_key stats_key : pystr) (fallback : dict -> M world dict)
    (project_type : pystr) (e : exn) (w : world) :
  stats = Raise e
  \/ (exists s, stats = Ok s /\ json_dumps (PDict s) = Raise e) ->
  Spec.domain_caller self stats prompt raw_key stats_key fallback project_type w
  = (Ok [ (u "error", PStr (exn_text e));
          (u "timestamp", PStr (isoformat (clock_now (now w)))) ],
     Spec.ai_tick w).
Proof.
  intros [-> | (s & -> & Hd)];
    unfold Spec.domain_caller, try_except, bind, lift;
    [|rewrite Hd]; unfold error_result, bind; rewrite timestamp_eval;
    reflexivity.
Qed.

(** X16.  Statistics that fail stop the caller before the network.
    When a pandas computation of the local statistics raises, or
    [json.dumps] cannot serialise them, each caller returns the error
    object with the text of the exception and the time; no request is
    posted, the cache is not touched, and the clock is read once, for
    the timestamp. *)
Theorem failed_statistics_skip_inference (data : DataFrame)
    (project_type : pystr) (e : exn) (w : world) :
  let failure :=
    (Ok [ (u "error", PStr (exn_text e));
          (u "timestamp", PStr (isoformat (clock_now (now w)))) ],
     World (cache w) (clock_tick (now w)) (posted w) (network w)) in
  (lead_summary data = Raise e
   \/ (exists s, lead_summary data = Ok s /\ json_dumps (PDict s) = Raise e) ->
   analyze_lead_data self data project_type w = failure)
  /\ (cpa_metrics data = Raise e
      \/ (exists s, cpa_metrics data = Ok s /\ json_dumps (PDict s) = Raise e) ->
      calculate_cpa_metrics self data project_type w = failure)
  /\ (broker_analysis data = Raise e
      \/ (exists s, broker_analysis data = Ok s
                    /\ json_dumps (PDict s) = Raise e) ->
      analyze_broker_performance self data project_type w = failure).
Proof.
  intros failure. refine (conj _ (conj _ _)); intros H.
  - rewrite analyze_lead_data_shape.
    now apply domain_caller_no_statistics.
  - rewrite calculate_cpa_metrics_shape.
    now apply domain_caller_no_statistics.
  - rewrite analyze_broker_performance_shape.
    now apply domain_caller_no_statistics.
Qed.

End UnusableAnswers.

(** ** The unified report *)

Section UnifiedReports.

Context {rt : Runtime} {pd : AI.Pandas}.

Import AI.

Variable date_span : list DataFrame -> result pyval.
Variable self : UnifiedAIAssistant.

Lemma generate_unified_report_shape (all_data : list (pystr * DataFrame)) :
  generate_unified_report date_span self all_data
  = Spec.domain_caller self (unified_summary date_span all_data)
      (fun _ dumped => unified_messages dumped)
      (u "unified_report") (u "unified_summary")
      (_fallback_unified_report all_data) (u "unified").
Proof. reflexivity. Qed.

(** X17.  The unified report ends as the domain callers do.  With no
    answer from the inference call it is the fixed fallback: a canned
    summary line, the unified summary, two recommendations and the
    time.  With a text that [json.loads] rejects, the text is returned
    under [unified_report] with the unified summary and the time.  And
    whatever the frames, the dates, the network and the libraries do,
    the report is a dictionary that is not empty, never an
    exception. *)
Theorem unified_report_outcomes (all_data : list (pystr * DataFrame))
    (w w1 : world) :
  (* no answer *)
  (forall summary dumped,
   unified_summary date_span all_data = Ok summary ->
   json_dumps (PDict summary) = Ok dumped ->
   _make_api_call self (unified_messages dumped) (u "unified") w
   = (Ok PNone, w1) ->
   generate_unified_report date_span self all_data w
   = (Ok [ (u "executive_summary",
            PStr (u "Report unificato base completato"));
           (u "unified_summary", PDict summary);
           (u "recommendations",
            PList [ PStr (u "Integrare progetti");
                    PStr (u "Ottimizzare sinergie") ]);
           (u "timestamp", PStr (isoformat (clock_now (now w1)))) ],
      Spec.ai_tick w1))
  /\ (* a text that is no JSON *)
  (forall summary dumped raw e,
   unified_summary date_span all_data = Ok summary ->
   json_dumps (PDict summary) = Ok dumped ->
   _make_api_call self (unified_messages dumped) (u "unified") w
   = (Ok (PStr raw), w1) ->
   raw <> [] ->
   json_loads raw = Raise e ->
   is_JSONDecodeError e = true ->
   generate_unified_report date_span self all_data w
   = (Ok [ (u "unified_report", PStr raw);
           (u "unified_summary", PDict summary);
           (u "timestamp", PStr (isoformat (clock_now (now w1)))) ],
      Spec.ai_tick w1))
  /\ (* always a dictionary *)
  (exists d w', generate_unified_report date_span self all_data w = (Ok d, w')
                /\ d <> []).
Proof.
  refine (conj _ (conj _ _)).
  - intros summary dumped Hs Hd Hcall.
    rewrite generate_unified_report_shape.
    rewrite (domain_caller_absent self _ (fun _ dumped => unified_messages dumped)
               _ _ _ _ summary dumped PNone w w1 Hs Hd Hcall eq_refl).
    unfold try_except, _fallback_unified_report, bind.
    rewrite timestamp_eval. reflexivity.
  - intros summary dumped raw e Hs Hd Hcall Hraw Hloads Hdec.
    rewrite generate_unified_report_shape.
    exact (domain_caller_undecodable self _
             (fun _ dumped => unified_messages dumped) _ _ _ _ summary dumped
             raw e w w1 Hs Hd Hcall Hraw Hloads Hdec).
  - rewrite generate_unified_report_shape.
    apply domain_caller_total.
    intros s w2. unfold _fallback_unified_report, bind.
    rewrite timestamp_eval. unfold ret.
    eexists _, _. split; [reflexivity | discriminate].
Qed.

(** The sum of the lengths of the frames. *)
Lemma total_records_from (frames : list DataFrame) (acc : Z) :
  fold_left (fun acc df => (acc + Z.of_nat (df_len df))%Z) frames acc
  = (acc + Z.of_nat (list_sum (map df_len frames)))%Z.
Proof.
  revert acc. induction frames as [|df frames IH]; intros acc.
  - cbn. lia.
  - cbn [fold_left map]. rewrite IH.
    change (list_sum (df_len df :: map df_len frames))
      with (df_len df + list_sum (map df_len frames)).
    lia.
Qed.

(** X18.  The summary of the unified report.  When no frame holds a
    registration date the date range is the empty object and the dates
    are not looked at; otherwise it is what the dates of the dated
    frames give, and a date that cannot be read makes the summary
    raise.  When the summary is computed, it lists the projects in the
    order given, and the total it counts, the same at both places it
    appears, is the sum of the lengths of the frames. *)
Theorem unified_summary_contents (all_data : list (pystr * DataFrame)) :
  let dated :=
    filter (fun df => has_column df (u "data_registrazione"))
           (map snd all_data) in
  let total := Z.of_nat (list_sum (map (fun kv => df_len (snd kv)) all_data)) in
  (dated = [] -> _get_unified_date_range date_span all_data = Ok (PDict []))
  /\ (dated <> [] ->
      _get_unified_date_range date_span all_data = date_span dated)
  /\ (forall e, dated <> [] -> date_span dated = Raise e ->
                unified_summary date_span all_data = Raise e)
  /\ (forall summary,
      unified_summary date_span all_data = Ok summary ->
      dict_find summary (u "projects")
      = Some (PList (map (fun kv => PStr (fst kv)) all_data))
      /\ dict_find summary (u "total_records") = Some (PInt total)
      /\ (exists range,
            _get_unified_date_range date_span all_data = Ok range
            /\ dict_find summary (u "date_range") = Some range)
      /\ dict_find summary (u "cross_project_insights")
         = Some (PDict
                   [ (u "total_projects", PInt (Z.of_nat (length all_data)));
                     (u "total_records", PInt total);
                     (u "common_patterns",
                      PList [ PStr (u "growth_trend");
                              PStr (u "seasonal_variation") ]) ])).
Proof.
  intros dated total.
  assert (Htotal : total_records all_data = total).
  { unfold total_records, total. rewrite total_records_from, map_map.
    reflexivity. }
  assert (Hrange : dated <> [] ->
            _get_unified_date_range date_span all_data = date_span dated).
  { intros Hne. unfold _get_unified_date_range. fold dated.
    destruct dated; [congruence | reflexivity]. }
  refine (conj _ (conj Hrange (conj _ _))).
  - intros He. unfold _get_unified_date_range. fold dated. now rewrite He.
  - intros e Hne He. unfold unified_summary. rewrite (Hrange Hne), He.
    reflexivity.
  - intros summary. unfold unified_summary, _analyze_cross_project_data.
    rewrite Htotal.
    destruct (_get_unified_date_range date_span all_data) as [range|e];
      cbn [rbind]; [|discriminate].
    intros H. injection H as <-.
    refine (conj eq_refl (conj eq_refl (conj _ eq_refl))).
    exists range. split; reflexivity.
Qed.

End UnifiedReports.

(** ** Loading the configuration *)

Section Configuration.

Import AI ConfigLoad.

Context {host : Host}.

Lemma first_secret_found (lookup : pystr -> result pyval) (paths : list pystr)
    (value : pyval) :
  first_secret lookup paths = Some value ->
  truthy value = true
  /\ exists before path after,
       paths = before ++ path :: after
       /\ lookup path = Ok value
       /\ Forall (fun p => match lookup p with
                           | Ok v => truthy v = false
                           | Raise _ => True
                           end) before.
Proof.
  induction paths as [|path rest IH]; [discriminate|].
  cbn [first_secret].
  destruct (lookup path) as [v|e] eqn:E.
  - destruct (truthy v) eqn:Ev.
    + intros H. injection H as <-. split; [exact Ev|].
      exists [], path, rest. repeat split; [exact E | constructor].
    + intros H. destruct (IH H) as (Ht & before & p & after & -> & Hp & Hb).
      split; [exact Ht|].
      exists (path :: before), p, after. repeat split; [exact Hp|].
      constructor; [now rewrite E | exact Hb].
  - intros H. destruct (IH H) as (Ht & before & p & after & -> & Hp & Hb).
    split; [exact Ht|].
    exists (path :: before), p, after. repeat split; [exact Hp|].
    constructor; [now rewrite E | exact Hb].
Qed.

(** Whether the environment gives a value for [env_var]: a variable set
    to the empty string counts as unset. *)
Local Abbreviation unset env_var :=
  (getenv env_var = None \/ getenv env_var = Some []).

Lemma get_config_failure (env_var : pystr) (default : option pystr) (e : exn) :
  _get_config env_var default = Raise e ->
  e = ValueError (u "Configurazione " ++ env_var ++ u " non trovata")
  /\ unset env_var
  /\ (default = None \/ default = Some []).
Proof.
  unfold _get_config.
  destruct (getenv env_var) as [[|c r]|]; try discriminate;
    (destruct secrets as [lookup|];
     [destruct (first_secret lookup (secrets_paths env_var));
      [discriminate|] |]);
    destruct default as [[|c' r']|]; try discriminate;
    intros H; injection H as <-; auto.
Qed.


(** Whether a required setting cannot be found. *)
Local Abbreviation missing :=
  (fun name => match _get_config name None with
               | Ok _ => false
               | Raise _ => true
               end).

Local Ltac read_setting :=
  match goal with
  | |- context [rbind (_get_config ?name ?default) _] =>
    let E := fresh "E" in
    destruct (_get_config name default) as [?|?] eqn:E; cbn [rbind];
    [| first
         [ (* a setting with a default cannot fail *)
           destruct (get_config_failure _ _ _ E) as (_ & _ & [?|?]); discriminate
         | (* the first required setting that is missing *)
           destruct (get_config_failure _ _ _ E) as (-> & _); reflexivity ] ]
  end.


End Configuration.

Section ConfigurationObject.

Import AI ConfigLoad.

(** X21.  A configuration object answers for the three tenants and no
    other.  [get_supabase_config] returns the url and the key of the
    tenant for the tags [lead], [cpa] and [prop], and raises
    [ValueError] naming the tag for any other; so the completeness
    check [is_configured], which asks for just these three, answers
    true for every configuration object, whatever its settings hold. *)
Theorem supabase_config_by_tag (cfg : UnifiedConfig) (project_type : pystr) :
  get_supabase_config cfg (u "lead")
  = Ok [ (u "url", lead_supabase_url cfg); (u "key", lead_supabase_key cfg) ]
  /\ get_supabase_config cfg (u "cpa")
     = Ok [ (u "url", cpa_supabase_url cfg); (u "key", cpa_supabase_key cfg) ]
  /\ get_supabase_config cfg (u "prop")
     = Ok [ (u "url", prop_supabase_url cfg); (u "key", prop_supabase_key cfg) ]
  /\ (project_type <> u "lead" -> project_type <> u "cpa" ->
      project_type <> u "prop" ->
      get_supabase_config cfg project_type
      = Raise (ValueError (u "Tipo progetto non supportato: " ++ project_type)))
  /\ is_configured cfg = true.
Proof.
  refine (conj eq_refl (conj eq_refl (conj eq_refl (conj _ eq_refl)))).
  intros H1 H2 H3. unfold get_supabase_config.
  apply pystr_eqb_false in H1, H2, H3. now rewrite H1, H2, H3.
Qed.

End ConfigurationObject.
(** ** The sessions and the permissions on concrete systems *)

Section SessionExamples.

Import Auth Fixture.

Local Abbreviation toy := Fixture.toy_runtime.
Local Abbreviation served := (system (Table [bob]) (Table [bob; alice]) down).
Local Abbreviation with_role name :=
  (signed_in_as [(u "role", PStr (u name))]).

(** [role_hierarchy] for the permission [write]: a user, a manager and
    an admin are granted it, a viewer is not. *)
Lemma role_hierarchy_witness :
  fst (check_permissions (u "write") (with_role "user")) = Ok true
  /\ fst (check_permissions (u "write") (with_role "manager")) = Ok true
  /\ fst (check_permissions (u "write") (with_role "admin")) = Ok true
  /\ fst (check_permissions (u "write") (with_role "viewer")) <> Ok true.
Proof.
  destruct (role_hierarchy (u "write") (with_role "viewer") (with_role "user")
              (with_role "manager") (with_role "admin")
              (conj eq_refl eq_refl) (conj eq_refl eq_refl)
              (conj eq_refl eq_refl) (conj eq_refl eq_refl))
    as ([Ev _] & [_ Eu] & _ & Ea & _ & Hum).
  assert (Hu : fst (check_permissions (u "write") (with_role "user")) = Ok true)
    by (apply Eu; right; reflexivity).
  refine (conj Hu (conj (Hum Hu) (conj Ea _))).
  intros H. apply Ev in H. vm_compute in H. discriminate H.
Defined.

(** [permissions_of_unlisted_roles]: an anonymous session may not even
    read; a session whose role is null may read and not write; a role
    that is a list makes the check raise. *)
Lemma permissions_of_unlisted_roles_witness :
  check_permissions (u "read") (Spec.fresh_at noon)
  = (Ok false, Spec.fresh_at noon)
  /\ fst (check_permissions (u "read") (signed_in_as [(u "role", PNone)]))
     = Ok true
  /\ fst (check_permissions (u "write") (signed_in_as [(u "role", PNone)]))
     <> Ok true
  /\ fst (check_permissions (u "read")
            (signed_in_as [(u "role", PList [PStr (u "admin")])]))
     = Raise (TypeError (u "unhashable type: 'list'")).
Proof.
  refine (conj _ (conj _ (conj _ _))).
  - destruct (permissions_of_unlisted_roles (u "read") PNone
                (Spec.fresh_at noon)) as (Hanon & _).
    apply Hanon. reflexivity.
  - destruct (permissions_of_unlisted_roles (u "read") PNone
                (signed_in_as [(u "role", PNone)])) as (_ & Hread & _).
    destruct (Hread (conj eq_refl eq_refl) I) as (_ & [_ H]).
    apply H. reflexivity.
  - destruct (permissions_of_unlisted_roles (u "write") PNone
                (signed_in_as [(u "role", PNone)])) as (_ & Hread & _).
    destruct (Hread (conj eq_refl eq_refl) I) as (_ & [H _]).
    intros Hw. apply H in Hw. vm_compute in Hw. discriminate Hw.
  - destruct (permissions_of_unlisted_roles (u "read")
                (PList [PStr (u "admin")])
                (signed_in_as [(u "role", PList [PStr (u "admin")])]))
      as (_ & _ & Hraise).
    exact (Hraise (conj eq_refl eq_refl) I).
Defined.

(** [require_auth_guards] for a function that signs the user out,
    guarded by the permission [delete]: an anonymous session and a
    viewer are turned away and stay as they were, a manager is signed
    out. *)
Lemma require_auth_guards_witness :
  require_auth (u "delete") logout_user (Spec.fresh_at noon)
  = (Ok (inl msg_access_denied), Spec.fresh_at noon)
  /\ require_auth (u "delete") logout_user (with_role "viewer")
     = (Ok (inl (msg_insufficient (u "delete"))), with_role "viewer")
  /\ authenticated
       (session (snd (require_auth (u "delete") logout_user
                        (with_role "manager")))) = false.
Proof.
  refine (conj _ (conj _ _)).
  - destruct (require_auth_guards (u "delete") logout_user (Spec.fresh_at noon))
      as (Hanon & _).
    apply Hanon. reflexivity.
  - destruct (require_auth_guards (u "delete") logout_user (with_role "viewer"))
      as (_ & Hdenied & _).
    apply Hdenied; [reflexivity | vm_compute; reflexivity].
  - destruct (require_auth_guards (u "delete") logout_user
                (with_role "manager")) as (_ & _ & Hrun & _).
    rewrite Hrun; [reflexivity | vm_compute; reflexivity].
Defined.

Local Abbreviation alice_logs_in :=
  (authenticate_user (rt := toy) served (u "alice") (u "hunter2")
     (Spec.fresh_at noon)).

(** [successful_login_is_sound] for the login of [alice]: the password
    verifies against her record, which the search finds in the cpa
    store. *)
Lemma successful_login_is_sound_witness :
  verify_password_value (rt := toy) (u "hunter2")
    (dict_get alice (u "password_hash") (PStr [])) = true
  /\ Spec.first_match (u "alice") (db_managers served) = Some (alice, u "cpa").
Proof.
  assert (H : fst alice_logs_in = Ok (true, u "✅ Benvenuto Alice!", alice))
    by (vm_compute; reflexivity).
  destruct (successful_login_is_sound (rt := toy) served (u "alice")
              (u "hunter2") (u "✅ Benvenuto Alice!") alice
              (Spec.fresh_at noon) H)
    as ((project & rows & _ & _ & _ & Hf & Hp) & Hv & _).
  split; [exact Hv|].
  rewrite Hf. rewrite <- Hp. vm_compute. reflexivity.
Defined.

(** [refused_login_keeps_identity]: a wrong password for [bob], tried
    in the session of a signed-in admin, leaves the admin signed in. *)
Lemma refused_login_keeps_identity_witness :
  authenticated
    (session (snd (authenticate_user (rt := toy) served (u "bob") (u "x")
                     (with_role "admin")))) = true
  /\ user_info
       (session (snd (authenticate_user (rt := toy) served (u "bob") (u "x")
                        (with_role "admin"))))
     = [(u "role", PStr (u "admin"))].
Proof.
  assert (H : fst (authenticate_user (rt := toy) served (u "bob") (u "x")
                     (with_role "admin"))
              = Ok (false, msg_wrong_password, []))
    by (vm_compute; reflexivity).
  destruct (refused_login_keeps_identity (rt := toy) served (u "bob") (u "x")
              (with_role "admin")) as (_ & Hkeep).
  destruct (Hkeep msg_wrong_password [] H) as (_ & Ha & Hu & _).
  exact (conj Ha Hu).
Defined.

(** [login_fills_session] for the login of [alice]: the session is
    signed in as a manager, and her hash is not in it. *)
Lemma login_fills_session_witness :
  dict_find (user_info (session (snd alice_logs_in))) (u "password_hash") = None
  /\ Spec.signed_in (PStr (u "manager")) (snd alice_logs_in)
  /\ dict_find (user_info (session (snd alice_logs_in))) (u "email")
     = Some (PStr (u "alice@example.com")).
Proof.
  assert (H : fst alice_logs_in = Ok (true, u "✅ Benvenuto Alice!", alice))
    by (vm_compute; reflexivity).
  destruct (login_fills_session (rt := toy) served (u "alice") (u "hunter2")
              (u "✅ Benvenuto Alice!") alice (Spec.fresh_at noon) H)
    as (_ & Hhash & Hfields & _ & Hrole & _).
  refine (conj Hhash (conj Hrole _)).
  rewrite (Hfields (u "email")); [reflexivity|].
  right. right. left. reflexivity.
Defined.

(** [non_numeric_limit_blocks_logins] for the limit written as the
    string [3]: the right password of [alice] is answered with the
    system error, and the world is as it was. *)
Lemma non_numeric_limit_blocks_logins_witness :
  authenticate_user (rt := toy)
    (new string_limit_config (Table [bob]) (Table [bob; alice]) down)
    (u "alice") (u "hunter2") (Spec.fresh_at noon)
  = (Ok (false,
         u "❌ Errore sistema: '>=' not supported between instances of 'int' and 'str'",
         []),
     Spec.fresh_at noon).
Proof.
  rewrite (non_numeric_limit_blocks_logins (rt := toy)
             (new string_limit_config (Table [bob]) (Table [bob; alice]) down)
             (u "alice") (u "hunter2") (Spec.fresh_at noon) I).
  vm_compute. reflexivity.
Defined.

(** [expired_lockout_is_rearmed] for a session locked at noon: at 12:15
    a login for the unknown [carol] is let through and fails, and the
    right password of [alice], tried at 12:16, is refused with the
    lockout message. *)
Lemma expired_lockout_is_rearmed_witness :
  fst (authenticate_user (rt := toy) served (u "carol") (u "guess")
         locked_at_noon)
  = Ok (false, msg_not_found, [])
  /\ fst (authenticate_user (rt := toy) served (u "alice") (u "hunter2")
            (snd (authenticate_user (rt := toy) served (u "carol") (u "guess")
                    locked_at_noon)))
     = Ok (false, msg_locked, []).
Proof.
  assert (Hbad : Spec.accepts (H := toy) served (u "carol") (u "guess") = false)
    by (vm_compute; reflexivity).
  assert (Hover : (readings (now locked_at_noon) (reads (now locked_at_noon))
                   - noon >= Spec.lockout_window)%Z)
    by (vm_compute; discriminate).
  pose proof (expired_lockout_is_rearmed (rt := toy) served 3 noon (u "carol")
                (u "guess") locked_at_noon eq_refl ltac:(cbn; lia) eq_refl
                Hbad Hover) as H.
  cbn zeta in H. destruct H as (_ & _ & _ & Hlock).
  split; [vm_compute; reflexivity|].
  apply Hlock. vm_compute. reflexivity.
Defined.

Local Abbreviation careless :=
  (system (Table [carol; dave]) (Table []) (Table [])).

(** [login_without_password_hash]: [carol], whose record has no
    [password_hash], is let in with the empty password; [dave], whose
    [password_hash] is null, is not. *)
Lemma login_without_password_hash_witness :
  (exists msg,
     fst (authenticate_user (rt := toy) careless (u "carol") []
            (Spec.fresh_at noon))
     = Ok (true, msg, carol))
  /\ fst (authenticate_user (rt := toy) careless (u "dave") []
            (Spec.fresh_at noon))
     = Ok (false, msg_wrong_password, []).
Proof.
  split.
  - assert (Hf : Spec.first_match (u "carol") (db_managers careless)
                 = Some (carol, u "lead")) by (vm_compute; reflexivity).
    assert (Hne : carol <> []) by discriminate.
    pose proof (login_without_password_hash (rt := toy) careless (u "carol") []
                  (u "lead") carol (Spec.fresh_at noon) (Spec.fresh_at noon)
                  eq_refl Hf Hne) as H.
    cbn zeta in H. destruct H as (Hmissing & _).
    destruct (Hmissing ltac:(vm_compute; reflexivity)) as [_ Hin].
    apply Hin. reflexivity.
  - assert (Hf : Spec.first_match (u "dave") (db_managers careless)
                 = Some (dave, u "lead")) by (vm_compute; reflexivity).
    assert (Hne : dave <> []) by discriminate.
    pose proof (login_without_password_hash (rt := toy) careless (u "dave") []
                  (u "lead") dave (Spec.fresh_at noon) (Spec.fresh_at noon)
                  eq_refl Hf Hne) as H.
    cbn zeta in H. destruct H as (_ & Hnull).
    apply (Hnull PNone); [vm_compute; reflexivity | exact I].
Defined.

End SessionExamples.

(** ** The inference client and the configuration on concrete systems *)

Section InferenceExamples.

Import AI Fixture.

Local Abbreviation toy := Fixture.toy_runtime.
Local Abbreviation reading := Fixture.reading_runtime.
Local Abbreviation pandas := Fixture.toy_pandas.
Local Abbreviation ask :=
  (_make_api_call (rt := toy) assistant (PList [message (u "user") (u "ciao")])
     (u "lead")).
Local Abbreviation overloaded :=
  (client [1000000%Z]
     [ HttpResponse 503 (Raise (Exn (u "JSONDecodeError") (u "Expecting value")));
       HttpResponse 200 (Ok (PDict [])) ]).

(** [failed_exchange_is_not_cached] on a service that answers 503 and
    then a body without completions: both calls return nothing, and
    each posts its request. *)
Lemma failed_exchange_is_not_cached_witness :
  fst (ask overloaded) = Ok PNone
  /\ cache (snd (ask overloaded)) = []
  /\ length (posted (snd (ask (snd (ask overloaded))))) = 2.
Proof.
  destruct (failed_exchange_is_not_cached (rt := toy) assistant
              (PList [message (u "user") (u "ciao")]) (u "lead") overloaded
              eq_refl eq_refl) as (H1 & _ & H3 & _ & H5).
  refine (conj H1 (conj H3 _)). now rewrite H5.
Defined.

Local Abbreviation lead_stats :=
  (match lead_summary (pd := pandas) leads with Ok s => s | Raise _ => [] end).
Local Abbreviation answering text :=
  (client [1000000%Z; 2000000%Z] [HttpResponse 200 (Ok (body_with (PStr text)))]).

(** [parsed_answer_is_completed] on an answer that is an object with
    the fields [timestamp], [data_summary] and [trends]: the lead
    analysis keeps [trends] and replaces the other two by the local
    statistics and the time. *)
Lemma parsed_answer_is_completed_witness :
  match fst (analyze_lead_data (rt := reading) (pd := pandas) assistant leads
               (u "lead") (answering document)) with
  | Ok r =>
    dict_find r (u "trends") = Some (PStr (u "up"))
    /\ dict_find r (u "data_summary") = Some (PDict lead_stats)
    /\ dict_find r (u "timestamp") = Some (PStr (u "2000000"))
  | Raise _ => False
  end.
Proof.
  destruct (parsed_answer_is_completed (rt := reading) (pd := pandas)
              assistant leads (u "lead") document
              [ (u "timestamp", PStr (u "never"));
                (u "data_summary", PInt 0);
                (u "trends", PStr (u "up")) ]
              (answering document)
              (snd (_make_api_call (rt := reading) assistant
                      (lead_messages (rt := reading) (u "lead") (u "{}"))
                      (u "lead") (answering document))))
    as (Hlead & _).
  - vm_compute. discriminate.
  - vm_compute. reflexivity.
  - destruct (Hlead lead_stats (u "{}")) as (r & Hr & H1 & H2 & H3).
    + vm_compute. reflexivity.
    + reflexivity.
    + vm_compute. reflexivity.
    + rewrite Hr. cbn [fst]. refine (conj _ (conj H1 _)).
      * rewrite H3; [vm_compute; reflexivity | |];
          intros E; vm_compute in E; discriminate E.
      * rewrite H2. vm_compute. reflexivity.
Defined.

(** [non_object_answer_is_an_error] on the answer [[1, 2]]: the lead
    analysis returns the error object. *)
Lemma non_object_answer_is_an_error_witness :
  fst (analyze_lead_data (rt := reading) (pd := pandas) assistant leads
         (u "lead") (answering (u "[1, 2]")))
  = Ok [ (u "error",
          PStr (u "list indices must be integers or slices, not str"));
         (u "timestamp", PStr (u "2000000")) ].
Proof.
  destruct (non_object_answer_is_an_error (rt := reading) (pd := pandas)
              assistant leads (u "lead") (u "[1, 2]") (PList [PInt 1; PInt 2])
              (answering (u "[1, 2]"))
              (snd (_make_api_call (rt := reading) assistant
                      (lead_messages (rt := reading) (u "lead") (u "{}"))
                      (u "lead") (answering (u "[1, 2]")))))
    as (Hlead & _).
  - vm_compute. discriminate.
  - vm_compute. reflexivity.
  - exact I.
  - rewrite (Hlead lead_stats (u "{}")).
    + vm_compute. reflexivity.
    + vm_compute. reflexivity.
    + reflexivity.
    + vm_compute. reflexivity.
Defined.

(** [failed_statistics_skip_inference] on a frame with a registration
    date whose minimum pandas cannot compute: the lead analysis returns
    the error object and posts nothing. *)
Lemma failed_statistics_skip_inference_witness :
  fst (analyze_lead_data (rt := toy) (pd := failing_pandas) assistant
         dated_leads (u "lead") (answering (u "{}")))
  = Ok [ (u "error", PStr (u "unsupported operand type(s)"));
         (u "timestamp", PStr (u "1000000")) ]
  /\ posted (snd (analyze_lead_data (rt := toy) (pd := failing_pandas)
                    assistant dated_leads (u "lead") (answering (u "{}"))))
     = [].
Proof.
  destruct (failed_statistics_skip_inference (rt := toy) (pd := failing_pandas)
              assistant dated_leads (u "lead")
              (Exn (u "TypeError") (u "unsupported operand type(s)"))
              (answering (u "{}"))) as (Hlead & _).
  rewrite Hlead.
  - split; [vm_compute; reflexivity | reflexivity].
  - left. vm_compute. reflexivity.
Defined.

Local Abbreviation portfolio :=
  [ (u "lead", dated_leads); (u "cpa", clients) ].
Local Abbreviation offline := (client [1000000%Z] []).
Local Abbreviation portfolio_summary :=
  (match unified_summary toy_date_span portfolio with
   | Ok s => s
   | Raise _ => []
   end).

(** [unified_report_outcomes] with the network down: the report is the
    fallback, with the unified summary. *)
Lemma unified_report_outcomes_witness :
  match fst (generate_unified_report (rt := toy) toy_date_span assistant
               portfolio offline) with
  | Ok d =>
    dict_find d (u "executive_summary")
    = Some (PStr (u "Report unificato base completato"))
    /\ dict_find d (u "unified_summary") = Some (PDict portfolio_summary)
  | Raise _ => False
  end.
Proof.
  destruct (unified_report_outcomes (rt := toy) toy_date_span assistant
              portfolio offline
              (snd (_make_api_call (rt := toy) assistant
                      (unified_messages (u "{}")) (u "unified") offline)))
    as (Hfallback & _).
  rewrite (Hfallback portfolio_summary (u "{}")).
  - cbn [fst]. split; vm_compute; reflexivity.
  - vm_compute. reflexivity.
  - reflexivity.
  - vm_compute. reflexivity.
Defined.

(** [unified_summary_contents] for a frame of two dated leads and a
    frame of two clients: four records, and the range of the dates. *)
Lemma unified_summary_contents_witness :
  dict_find portfolio_summary (u "total_records") = Some (PInt 4)
  /\ dict_find portfolio_summary (u "projects")
     = Some (PList [PStr (u "lead"); PStr (u "cpa")])
  /\ _get_unified_date_range toy_date_span portfolio
     = toy_date_span [dated_leads].
Proof.
  destruct (unified_summary_contents toy_date_span portfolio)
    as (_ & Hdated & _ & Hsummary).
  destruct (Hsummary portfolio_summary) as (H1 & H2 & _).
  - vm_compute. reflexivity.
  - refine (conj H2 (conj H1 _)).
    apply Hdated. vm_compute. discriminate.
Defined.

End InferenceExamples.

Section ConfigurationExamples.

Import AI ConfigLoad Fixture.

Local Abbreviation deployed :=
  (host_with [(u "APP_TITLE", [])] [(u "app.app_title", u "Cruscotto")]).



(** [supabase_config_by_tag] on a configuration object with no setting
    at all: it passes the completeness check, and has no store for the
    tag [unified]. *)
Lemma supabase_config_by_tag_witness :
  is_configured blank_config = true
  /\ get_supabase_config blank_config (u "unified")
     = Raise (ValueError (u "Tipo progetto non supportato: unified")).
Proof.
  destruct (supabase_config_by_tag blank_config (u "unified"))
    as (_ & _ & _ & Hother & Hok).
  split; [exact Hok|].
  rewrite Hother; try (intros E; vm_compute in E; discriminate E).
  vm_compute. reflexivity.
Defined.

End ConfigurationExamples.
